(** * Backend_Template: the authentication core

    A shallow embedding of [AuthService] (sign-in, one-time codes, password
    reset) and of [JwtStrategy.validate], with the properties the
    specification states about them.

    Conventions.
    - A [Date] is its [getTime()] value, a number of milliseconds, in [Z].
    - A nullable column is an [option]; JavaScript truthiness is written out
      where the source relies on it ([truthy]).
    - An [async] method is a function from the world before the call to its
      completion (a value or a thrown exception) and the world after it.  A
      throw keeps every write awaited before it: nothing runs in a
      transaction.
    - What a call reads from outside the store (the clock, the random
      generator, the verdict of the SMS gateway or of the mail transport) is
      an argument of the call.
    - JavaScript numbers: integers are [Z]; the code drawn is computed in
      doubles ([round_double]); the quotient of the interval check is
      idealised to an exact rational in [Q]. *)

From Stdlib Require Import ZArith QArith Qround Qpower String List Bool Lia DecimalString.
Import ListNotations.

Local Open Scope string_scope.
Local Open Scope Z_scope.

(** ** Exceptions and completions *)

Inductive Exception : Type :=
| BadRequestException (message : string)
| UnauthorizedException (message : string)
| ForbiddenException (message : string)
| PrismaClientKnownRequestError (code : string)
| CollaboratorError (message : string).

Inductive Completion (A : Type) : Type :=
| Return (a : A)
| Throw (e : Exception).

Arguments Return {A} a.
Arguments Throw {A} e.

(** ** The store: the [User] table of the Prisma client *)

Module Prisma.

Inductive UserRole : Type := USER | ADMIN.

Record User : Type := Build_User {
  id : string;
  email : string;
  phone : string;
  password : string;
  firstName : string;
  lastName : string;
  role : UserRole;
  isActive : bool;
  isPhoneVerified : bool;
  isEmailVerified : bool;
  phoneVerificationOTP : option string;
  phoneVerificationOTPExpires : option Z;
  emailVerificationOTP : option string;
  emailVerificationOTPExpires : option Z;
  resetPasswordOTP : option string;
  resetPasswordOTPExpires : option Z;
  resetPasswordToken : option string;
  resetPasswordExpires : option Z;
  lastOtpRequestTime : option Z;
  otpRequestCount : Z
}.

(** One entry of the [data] object of an [update]: the column and the
    value written to it.  Only the columns the service writes occur. *)
Inductive Assignment : Type :=
| password_is (v : string)
| isPhoneVerified_is (v : bool)
| isEmailVerified_is (v : bool)
| phoneVerificationOTP_is (v : option string)
| phoneVerificationOTPExpires_is (v : option Z)
| emailVerificationOTP_is (v : option string)
| emailVerificationOTPExpires_is (v : option Z)
| resetPasswordOTP_is (v : option string)
| resetPasswordOTPExpires_is (v : option Z)
| resetPasswordToken_is (v : option string)
| resetPasswordExpires_is (v : option Z)
| lastOtpRequestTime_is (v : option Z)
| otpRequestCount_is (v : Z).

(** The row [u] with its writable columns replaced; the service never
    writes [id], [email], [phone], the names, [role] or [isActive]. *)
Definition rewritten (u : User) (pw : string) (pv ev : bool)
    (pvo : option string) (pve : option Z) (evo : option string) (eve : option Z)
    (rpo : option string) (rpoe : option Z) (rpt : option string) (rpe : option Z)
    (lrt : option Z) (cnt : Z) : User :=
  Build_User (id u) (email u) (phone u) pw (firstName u) (lastName u)
    (role u) (isActive u) pv ev pvo pve evo eve rpo rpoe rpt rpe lrt cnt.

Definition assign (u : User) (a : Assignment) : User :=
  match a with
  | password_is v =>
      rewritten u v (isPhoneVerified u) (isEmailVerified u)
        (phoneVerificationOTP u) (phoneVerificationOTPExpires u)
        (emailVerificationOTP u) (emailVerificationOTPExpires u)
        (resetPasswordOTP u) (resetPasswordOTPExpires u)
        (resetPasswordToken u) (resetPasswordExpires u)
        (lastOtpRequestTime u) (otpRequestCount u)
  | isPhoneVerified_is v =>
      rewritten u (password u) v (isEmailVerified u)
        (phoneVerificationOTP u) (phoneVerificationOTPExpires u)
        (emailVerificationOTP u) (emailVerificationOTPExpires u)
        (resetPasswordOTP u) (resetPasswordOTPExpires u)
        (resetPasswordToken u) (resetPasswordExpires u)
        (lastOtpRequestTime u) (otpRequestCount u)
  | isEmailVerified_is v =>
      rewritten u (password u) (isPhoneVerified u) v
        (phoneVerificationOTP u) (phoneVerificationOTPExpires u)
        (emailVerificationOTP u) (emailVerificationOTPExpires u)
        (resetPasswordOTP u) (resetPasswordOTPExpires u)
        (resetPasswordToken u) (resetPasswordExpires u)
        (lastOtpRequestTime u) (otpRequestCount u)
  | phoneVerificationOTP_is v =>
      rewritten u (password u) (isPhoneVerified u) (isEmailVerified u)
        v (phoneVerificationOTPExpires u)
        (emailVerificationOTP u) (emailVerificationOTPExpires u)
        (resetPasswordOTP u) (resetPasswordOTPExpires u)
        (resetPasswordToken u) (resetPasswordExpires u)
        (lastOtpRequestTime u) (otpRequestCount u)
  | phoneVerificationOTPExpires_is v =>
      rewritten u (password u) (isPhoneVerified u) (isEmailVerified u)
        (phoneVerificationOTP u) v
        (emailVerificationOTP u) (emailVerificationOTPExpires u)
        (resetPasswordOTP u) (resetPasswordOTPExpires u)
        (resetPasswordToken u) (resetPasswordExpires u)
        (lastOtpRequestTime u) (otpRequestCount u)
  | emailVerificationOTP_is v =>
      rewritten u (password u) (isPhoneVerified u) (isEmailVerified u)
        (phoneVerificationOTP u) (phoneVerificationOTPExpires u)
        v (emailVerificationOTPExpires u)
        (resetPasswordOTP u) (resetPasswordOTPExpires u)
        (resetPasswordToken u) (resetPasswordExpires u)
        (lastOtpRequestTime u) (otpRequestCount u)
  | emailVerificationOTPExpires_is v =>
      rewritten u (password u) (isPhoneVerified u) (isEmailVerified u)
        (phoneVerificationOTP u) (phoneVerificationOTPExpires u)
        (emailVerificationOTP u) v
        (resetPasswordOTP u) (resetPasswordOTPExpires u)
        (resetPasswordToken u) (resetPasswordExpires u)
        (lastOtpRequestTime u) (otpRequestCount u)
  | resetPasswordOTP_is v =>
      rewritten u (password u) (isPhoneVerified u) (isEmailVerified u)
        (phoneVerificationOTP u) (phoneVerificationOTPExpires u)
        (emailVerificationOTP u) (emailVerificationOTPExpires u)
        v (resetPasswordOTPExpires u)
        (resetPasswordToken u) (resetPasswordExpires u)
        (lastOtpRequestTime u) (otpRequestCount u)
  | resetPasswordOTPExpires_is v =>
      rewritten u (password u) (isPhoneVerified u) (isEmailVerified u)
        (phoneVerificationOTP u) (phoneVerificationOTPExpires u)
        (emailVerificationOTP u) (emailVerificationOTPExpires u)
        (resetPasswordOTP u) v
        (resetPasswordToken u) (resetPasswordExpires u)
        (lastOtpRequestTime u) (otpRequestCount u)
  | resetPasswordToken_is v =>
      rewritten u (password u) (isPhoneVerified u) (isEmailVerified u)
        (phoneVerificationOTP u) (phoneVerificationOTPExpires u)
        (emailVerificationOTP u) (emailVerificationOTPExpires u)
        (resetPasswordOTP u) (resetPasswordOTPExpires u)
        v (resetPasswordExpires u)
        (lastOtpRequestTime u) (otpRequestCount u)
  | resetPasswordExpires_is v =>
      rewritten u (password u) (isPhoneVerified u) (isEmailVerified u)
        (phoneVerificationOTP u) (phoneVerificationOTPExpires u)
        (emailVerificationOTP u) (emailVerificationOTPExpires u)
        (resetPasswordOTP u) (resetPasswordOTPExpires u)
        (resetPasswordToken u) v
        (lastOtpRequestTime u) (otpRequestCount u)
  | lastOtpRequestTime_is v =>
      rewritten u (password u) (isPhoneVerified u) (isEmailVerified u)
        (phoneVerificationOTP u) (phoneVerificationOTPExpires u)
        (emailVerificationOTP u) (emailVerificationOTPExpires u)
        (resetPasswordOTP u) (resetPasswordOTPExpires u)
        (resetPasswordToken u) (resetPasswordExpires u)
        v (otpRequestCount u)
  | otpRequestCount_is v =>
      rewritten u (password u) (isPhoneVerified u) (isEmailVerified u)
        (phoneVerificationOTP u) (phoneVerificationOTPExpires u)
        (emailVerificationOTP u) (emailVerificationOTPExpires u)
        (resetPasswordOTP u) (resetPasswordOTPExpires u)
        (resetPasswordToken u) (resetPasswordExpires u)
        (lastOtpRequestTime u) v
  end.

(** [data: { ... }]: the assignments are applied in the order written. *)
Definition write (data : list Assignment) (u : User) : User :=
  fold_left assign data u.

(** The [where] object of [findUnique] and [update]: one unique column. *)
Inductive UserWhereUniqueInput : Type :=
| where_id (v : string)
| where_phone (v : string)
| where_email (v : string).

Definition selects (w : UserWhereUniqueInput) (u : User) : bool :=
  match w with
  | where_id v => String.eqb (id u) v
  | where_phone v => String.eqb (phone u) v
  | where_email v => String.eqb (email u) v
  end.

(** The table after [update({ where, data })]. *)
Definition updated (w : UserWhereUniqueInput) (data : list Assignment)
    (rows : list User) : list User :=
  map (fun u => if selects w u then write data u else u) rows.

(** The [where] object of the one [findFirst] of the service:
    [{ resetPasswordToken: token, resetPasswordExpires: { gt: date } }].
    A null column satisfies neither condition. *)
Definition selects_reset_token (token : string) (date : Z) (u : User) : bool :=
  match resetPasswordToken u, resetPasswordExpires u with
  | Some t, Some e => String.eqb t token && (e >? date)
  | _, _ => false
  end.

End Prisma.

Import Prisma.

(** ** The world of a request: the table and what has left the process *)

Inductive Dispatch : Type :=
| sms_PasswordResetOTP (to otp firstName : string)
| sms_PhoneVerificationOTP (to otp firstName : string)
| mail_ResetToken (to token firstName : string).

Record World : Type := Build_World {
  users : list User;
  outbox : list Dispatch
}.

Definition Async (A : Type) : Type := World -> Completion A * World.

Definition resolve {A : Type} (a : A) : Async A :=
  fun w => (Return a, w).

Definition throw {A : Type} (e : Exception) : Async A :=
  fun w => (Throw e, w).

(** [await c] followed by [k]: a throw of [c] skips [k] and keeps the world
    [c] left behind. *)
Definition await {A B : Type} (c : Async A) (k : A -> Async B) : Async B :=
  fun w =>
    match c w with
    | (Return a, w') => k a w'
    | (Throw e, w') => (Throw e, w')
    end.

(** [try { c } catch (error) { h error }]. *)
Definition try_catch {A : Type} (c : Async A) (h : Exception -> Async A) : Async A :=
  fun w =>
    match c w with
    | (Return a, w') => (Return a, w')
    | (Throw e, w') => h e w'
    end.

Declare Scope async_scope.
Delimit Scope async_scope with async.
Notation "x <- c ;; k" := (await c (fun x => k))
  (at level 61, c at next level, right associativity) : async_scope.
Notation "c ;; k" := (await c (fun _ => k))
  (at level 61, right associativity) : async_scope.

(** ** [this.prisma.user] *)

Module PrismaService.

Definition findUnique (w : UserWhereUniqueInput) : Async (option User) :=
  fun s => (Return (find (selects w) (users s)), s).

Definition findFirst (p : User -> bool) : Async (option User) :=
  fun s => (Return (find p (users s)), s).

(** [update({ where, data })] rewrites the selected row and rejects with
    the client's P2025 error when there is none.  [id] is the primary key:
    a table holds at most one row per [id], so mapping over the rows
    rewrites at most one. *)
Definition update (w : UserWhereUniqueInput) (data : list Assignment) : Async unit :=
  fun s =>
    if existsb (selects w) (users s)
    then (Return tt, Build_World (updated w data (users s)) (outbox s))
    else (Throw (PrismaClientKnownRequestError "P2025"), s).


End PrismaService.

(** ** The outbound collaborators

    Neither service is among the sources; a call is its contract: it either
    hands the message over or rejects.  Which of the two happens is decided
    outside the process and given as [failure]. *)

Definition dispatch (failure : option Exception) (d : Dispatch) : Async unit :=
  fun s =>
    match failure with
    | None => (Return tt, Build_World (users s) (outbox s ++ [d]))
    | Some e => (Throw e, s)
    end.

Module SmsService.
Definition sendPasswordResetOTP (failure : option Exception)
    (phone otp firstName : string) : Async unit :=
  dispatch failure (sms_PasswordResetOTP phone otp firstName).

Definition sendPhoneVerificationOTP (failure : option Exception)
    (phone otp firstName : string) : Async unit :=
  dispatch failure (sms_PhoneVerificationOTP phone otp firstName).
End SmsService.

Module MailService.
Definition sendResetToken (failure : option Exception)
    (email token firstName : string) : Async unit :=
  dispatch failure (mail_ResetToken email token firstName).
End MailService.

(** ** JavaScript values the service relies on *)

(** [!!s] for a nullable string: [null] and the empty string are falsy.
    A nullable [Date] is falsy only when [null], which a [match] expresses. *)
Definition truthy (s : option string) : bool :=
  match s with
  | Some v => negb (String.eqb v EmptyString)
  | None => false
  end.

(** [n.toString()] and [`${n}`] for an integer. *)
Definition toString (n : Z) : string :=
  NilZero.string_of_int (Z.to_int n).

(** [a < b] on numbers. *)
Definition Qltb (a b : Q) : bool := negb (Qle_bool b a).

(** ** The records the service builds *)

(** The payload handed to [jwtService.sign]. *)
Module JwtClaims.
Record t : Type := make {
  sub : string;
  email : string;
  phone : string;
  role : UserRole
}.
End JwtClaims.

(** The [user] object of the sign-in response. *)
Module LoginUser.
Record t : Type := make {
  id : string;
  firstName : string;
  lastName : string;
  email : string;
  phone : string;
  role : UserRole;
  isActive : bool;
  isPhoneVerified : bool
}.
End LoginUser.

Record LoginResponse : Type := Build_LoginResponse {
  access_token : string;
  user : LoginUser.t
}.

(** What the service is linked against and does not define: [bcrypt],
    [JwtService.sign] and the local-time rendering [Date.prototype.toDateString]
    (which depends on the time zone of the process). *)
Record Runtime : Type := Build_Runtime {
  bcrypt_hash : string -> Z -> string;
  bcrypt_compare : string -> string -> bool;
  jwtService_sign : JwtClaims.t -> string;
  toDateString : Z -> string
}.

(** What one OTP-issue call reads from outside the store, in the order read:
    [new Date()] (line 454/518), [new Date()] again (line 468/532),
    [Math.random()], [Date.now()], and the verdict of the SMS gateway. *)
Record IssueReads : Type := Build_IssueReads {
  read_now : Z;
  read_today : Z;
  read_Math_random : Q;
  read_Date_now : Z;
  read_sms_failure : option Exception
}.

(** ** [AuthService] *)

Module AuthService.

(** The private fields set by the constructor. *)
Record t : Type := make {
  otpExpiryMinutes : Z;
  otpDailyLimit : Z;
  otpMinIntervalMinutes : Z
}.

(** The constructor: each setting falls back to its default when the
    configuration has none.  [get] gives the settings already parsed. *)
Definition constructor (get : string -> option Z) : t :=
  let or_default (k : string) (d : Z) :=
    match get k with Some v => v | None => d end in
  make (or_default "OTP_EXPIRY_MINUTES" 10)
       (or_default "OTP_DAILY_LIMIT" 3)
       (or_default "OTP_MIN_INTERVAL_MINUTES" 5).

Definition wait_message (waitMinutes : Z) : string :=
  "Please wait " ++ toString waitMinutes ++ " minute(s) before requesting another OTP".

Definition limit_message (limit : Z) : string :=
  "You have exceeded the maximum number of OTP requests (" ++ toString limit ++ ") for today".

(** [(now.getTime() - last.getTime()) / (1000 * 60)] *)
Definition minutesSinceLastRequest (now last : Z) : Q :=
  (inject_Z (now - last) / inject_Z (1000 * 60))%Q.

(** The binade of a positive number: the [e] with [2^e <= x < 2^(e+1)]. *)
Definition binade (x : Q) : Z :=
  let k := Z.log2 (Qnum x) - Z.log2 (Zpos (Qden x)) in
  if Qle_bool (Qpower (2 # 1) k) x then k else k - 1.

(** The nearest integer, ties to the even one. *)
Definition round_half_even (m : Q) : Z :=
  let f := Qfloor m in
  match Qcompare (m - inject_Z f) (1 # 2) with
  | Lt => f
  | Gt => f + 1
  | Eq => if Z.even f then f else f + 1
  end.

(** The double nearest to the exact value [x] (IEEE 754 binary64, round to
    nearest, ties to even): 53 significant bits in the binade of [x].
    Overflow and subnormals are left out: the sums rounded here lie between
    100000 and 1000000, and a product too small to be a normal double is
    absorbed by the sum with 100000 whichever way it was rounded. *)
Definition round_double (x : Q) : Q :=
  let nearest (y : Q) : Q :=
    let e := binade y in
    (inject_Z (round_half_even (y * Qpower (2 # 1) (52 - e)))
     * Qpower (2 # 1) (e - 52))%Q in
  match Qcompare x 0 with
  | Eq => 0%Q
  | Gt => nearest x
  | Lt => (- nearest (- x))%Q
  end.

(** The numbers that are doubles: rounding leaves them as they are. *)
Definition is_double (x : Q) : bool := Qeq_bool (round_double x) x.

(** [Math.floor(100000 + Math.random() * 900000).toString()], for [random]
    the double [Math.random()] returned: the product and the sum are each
    rounded to a double, the floor of a double is exact. *)
Definition draw_otp (random : Q) : string :=
  toString
    (Qfloor (round_double
               (inject_Z 100000 + round_double (random * inject_Z 900000))%Q)).

Section Methods.

Variable rt : Runtime.
Variable this : t.

Local Open Scope async_scope.

Definition logIn (phone password : string) : Async LoginResponse :=
  user <- PrismaService.findUnique (where_phone phone) ;;
  match user with
  | None => throw (UnauthorizedException "Invalid credentials")
  | Some user =>
      let isPasswordValid := bcrypt_compare rt password (Prisma.password user) in
      if negb isPasswordValid then
        throw (UnauthorizedException "Invalid credentials")
      else if negb (Prisma.isActive user) then
        throw (ForbiddenException "Your account has been deactivated")
      else if negb (Prisma.isPhoneVerified user) then
        throw (ForbiddenException "Please verify your phone number before logging in")
      else
        let payload :=
          JwtClaims.make (Prisma.id user) (Prisma.email user)
                         (Prisma.phone user) (Prisma.role user) in
        resolve
          (Build_LoginResponse
             (jwtService_sign rt payload)
             (LoginUser.make (Prisma.id user) (Prisma.firstName user)
                (Prisma.lastName user) (Prisma.email user) (Prisma.phone user)
                (Prisma.role user) (Prisma.isActive user)
                (Prisma.isPhoneVerified user)))
  end.

(** The two issue methods repeat the same three guards on the row read
    at the start of the call; they are written once here, over that
    row.  [user] is the object the lookup returned: the reset of the
    counter goes to the table, not to [user]. *)

(** Lines 455-463 and 519-527. *)
Definition check_rate_limiting (now : Z) (user : User) : Async unit :=
  match lastOtpRequestTime user with
  | Some last =>
      let minutes := minutesSinceLastRequest now last in
      if Qltb minutes (inject_Z (otpMinIntervalMinutes this)) then
        let waitMinutes :=
          Qceiling (inject_Z (otpMinIntervalMinutes this) - minutes)%Q in
        throw (BadRequestException (wait_message waitMinutes))
      else resolve tt
  | None => resolve tt
  end.

(** Lines 466-475 and 530-539. *)
Definition reset_daily_counter (today : Z) (user : User) : Async unit :=
  match lastOtpRequestTime user with
  | Some lastRequestDate =>
      if negb (String.eqb (toDateString rt lastRequestDate) (toDateString rt today))
      then PrismaService.update (where_id (Prisma.id user)) [otpRequestCount_is 0]
      else resolve tt
  | None => resolve tt
  end.

(** Lines 478-482 and 542-546. *)
Definition check_daily_limit (user : User) : Async unit :=
  if otpRequestCount user >=? otpDailyLimit this then
    throw (BadRequestException (limit_message (otpDailyLimit this)))
  else resolve tt.

Definition generatePasswordResetOTP (env : IssueReads) (phone : string) : Async unit :=
  user <- PrismaService.findUnique (where_phone phone) ;;
  match user with
  | None => throw (BadRequestException "User not found")
  | Some user =>
      let now := read_now env in
      check_rate_limiting now user ;;
      reset_daily_counter (read_today env) user ;;
      check_daily_limit user ;;
      let otp := draw_otp (read_Math_random env) in
      let otpExpiry := read_Date_now env + otpExpiryMinutes this * 60 * 1000 in
      PrismaService.update (where_id (Prisma.id user))
        [ resetPasswordOTP_is (Some otp);
          resetPasswordOTPExpires_is (Some otpExpiry);
          lastOtpRequestTime_is (Some now);
          otpRequestCount_is (otpRequestCount user + 1) ] ;;
      try_catch
        (SmsService.sendPasswordResetOTP (read_sms_failure env)
           phone otp (Prisma.firstName user))
        (fun _ => throw (BadRequestException "Failed to send OTP. Please try again later."))
  end.

Definition generatePhoneVerificationOTP (env : IssueReads) (userId : string) : Async unit :=
  user <- PrismaService.findUnique (where_id userId) ;;
  match user with
  | None => throw (BadRequestException "User not found")
  | Some user =>
      if Prisma.isPhoneVerified user then
        throw (BadRequestException "Phone number is already verified")
      else
        let now := read_now env in
        check_rate_limiting now user ;;
        reset_daily_counter (read_today env) user ;;
        check_daily_limit user ;;
        let otp := draw_otp (read_Math_random env) in
        let otpExpiry := read_Date_now env + otpExpiryMinutes this * 60 * 1000 in
        PrismaService.update (where_id (Prisma.id user))
          [ phoneVerificationOTP_is (Some otp);
            phoneVerificationOTPExpires_is (Some otpExpiry);
            lastOtpRequestTime_is (Some now);
            otpRequestCount_is (otpRequestCount user + 1) ] ;;
        SmsService.sendPhoneVerificationOTP (read_sms_failure env)
          (Prisma.phone user) otp (Prisma.firstName user)
  end.

(** [date] is the [new Date()] of the expiry check. *)
Definition verifyPhone (date : Z) (phone otp : string) : Async unit :=
  user <- PrismaService.findUnique (where_phone phone) ;;
  match user with
  | None => throw (BadRequestException "User not found")
  | Some user =>
      if Prisma.isPhoneVerified user then
        throw (BadRequestException "Phone number is already verified")
      else
        match phoneVerificationOTP user, phoneVerificationOTPExpires user with
        | Some code, Some expires =>
            if negb (truthy (Some code)) then
              throw (BadRequestException "No OTP found. Please request a new one")
            else if date >? expires then
              throw (BadRequestException "OTP has expired. Please request a new one")
            else if negb (String.eqb code otp) then
              throw (BadRequestException "Invalid OTP")
            else
              PrismaService.update (where_id (Prisma.id user))
                [ isPhoneVerified_is true;
                  phoneVerificationOTP_is None;
                  phoneVerificationOTPExpires_is None ]
        | _, _ => throw (BadRequestException "No OTP found. Please request a new one")
        end
  end.

Definition resendVerificationOTP (env : IssueReads) (phone : string) : Async unit :=
  user <- PrismaService.findUnique (where_phone phone) ;;
  match user with
  | None => throw (BadRequestException "User not found")
  | Some user =>
      if Prisma.isPhoneVerified user then
        throw (BadRequestException "Phone number is already verified")
      else generatePhoneVerificationOTP env (Prisma.id user)
  end.

Definition resetPasswordWithOTP (date : Z) (phone otp newPassword : string) : Async unit :=
  user <- PrismaService.findUnique (where_phone phone) ;;
  match user with
  | None => throw (BadRequestException "User not found")
  | Some user =>
      match resetPasswordOTP user, resetPasswordOTPExpires user with
      | Some code, Some expires =>
          if negb (truthy (Some code)) then
            throw (BadRequestException "No OTP found. Please request a new one")
          else if date >? expires then
            throw (BadRequestException "OTP has expired. Please request a new one")
          else if negb (String.eqb code otp) then
            throw (BadRequestException "Invalid OTP")
          else
            let hashedPassword := bcrypt_hash rt newPassword 10 in
            PrismaService.update (where_id (Prisma.id user))
              [ password_is hashedPassword;
                resetPasswordOTP_is None;
                resetPasswordOTPExpires_is None ]
      | _, _ => throw (BadRequestException "No OTP found. Please request a new one")
      end
  end.

(** [randomBytes] is [crypto.randomBytes(32).toString('hex')], [date_now]
    is [Date.now()], [mail_failure] the verdict of the mail transport. *)
Definition generateResetToken (randomBytes : string) (date_now : Z)
    (mail_failure : option Exception) (email : string) : Async unit :=
  user <- PrismaService.findUnique (where_email email) ;;
  match user with
  | None => resolve tt
  | Some user =>
      let resetToken := randomBytes in
      let resetExpiry := date_now + 60 * 60 * 1000 in
      PrismaService.update (where_id (Prisma.id user))
        [ resetPasswordToken_is (Some resetToken);
          resetPasswordExpires_is (Some resetExpiry) ] ;;
      MailService.sendResetToken mail_failure email resetToken (Prisma.firstName user)
  end.

(** [date] is the [new Date()] of the query. *)
Definition resetPassword (date : Z) (token newPassword : string) : Async unit :=
  user <- PrismaService.findFirst (selects_reset_token token date) ;;
  match user with
  | None => throw (BadRequestException "Invalid or expired reset token")
  | Some user =>
      let hashedPassword := bcrypt_hash rt newPassword 10 in
      PrismaService.update (where_id (Prisma.id user))
        [ password_is hashedPassword;
          resetPasswordToken_is None;
          resetPasswordExpires_is None ]
  end.

Definition verifyEmail (date : Z) (email otp : string) : Async unit :=
  user <- PrismaService.findUnique (where_email email) ;;
  match user with
  | None => throw (BadRequestException "User not found")
  | Some user =>
      if Prisma.isEmailVerified user then
        throw (BadRequestException "Email is already verified")
      else
        match emailVerificationOTP user, emailVerificationOTPExpires user with
        | Some code, Some expires =>
            if negb (truthy (Some code)) then
              throw (BadRequestException "No OTP found. Please request a new one")
            else if date >? expires then
              throw (BadRequestException "OTP has expired. Please request a new one")
            else if negb (String.eqb code otp) then
              throw (BadRequestException "Invalid OTP")
            else
              PrismaService.update (where_id (Prisma.id user))
                [ isEmailVerified_is true;
                  emailVerificationOTP_is None;
                  emailVerificationOTPExpires_is None ]
        | _, _ => throw (BadRequestException "No OTP found. Please request a new one")
        end
  end.

End Methods.

End AuthService.

(** ** [JwtStrategy] *)

Module JwtPayload.
(** The two fields [validate] reads off the verified payload; an absent
    field is [None].  The tokens this service signs carry a string [sub]. *)
Record t : Type := make {
  id : option string;
  sub : option string
}.
End JwtPayload.

(** The [select] of [validate]: every listed column, and no [password]. *)
Module ValidatedUser.
Record t : Type := make {
  id : string;
  firstName : string;
  lastName : string;
  email : string;
  phone : string;
  role : UserRole;
  isActive : bool
}.
End ValidatedUser.

Module JwtStrategy.

(** [a || b] on nullable strings. *)
Definition or_else (a b : option string) : option string :=
  if truthy a then a else b.

Definition select (u : User) : ValidatedUser.t :=
  ValidatedUser.make (Prisma.id u) (Prisma.firstName u) (Prisma.lastName u)
    (Prisma.email u) (Prisma.phone u) (Prisma.role u) (Prisma.isActive u).

Section Validate.

(** What the Prisma client answers to [findUnique({ where: { id: undefined } })].
    The client is a library outside the repository, so its answer to a
    query without a key is left open here;
    [PrismaService.findUnique_without_key] is the answer it documents. *)
Variable findUnique_undefined : Completion (option User).

Local Open Scope async_scope.

Definition findUnique_id (userId : option string) : Async (option User) :=
  match userId with
  | Some v => PrismaService.findUnique (where_id v)
  | None => fun s => (findUnique_undefined, s)
  end.

Definition validate (payload : JwtPayload.t) : Async ValidatedUser.t :=
  let userId := or_else (JwtPayload.sub payload) (JwtPayload.id payload) in
  user <- findUnique_id userId ;;
  match user with
  | None => throw (UnauthorizedException "Login first to access this endpoint.")
  | Some user =>
      if negb (Prisma.isActive user) then
        throw (UnauthorizedException "User account is inactive")
      else resolve (select user)
  end.

End Validate.

End JwtStrategy.

(** ** The OTP engine of the specification, read off the service

    The specification speaks of one [consume(identity, slot, code)] and one
    [issue]; the service has a method per slot.  [consume] dispatches to
    them, so that a property of every slot is one statement. *)

Inductive Slot : Type := PhoneVerification | EmailVerification | ResetPassword.

Definition slot_code (k : Slot) (u : User) : option string :=
  match k with
  | PhoneVerification => phoneVerificationOTP u
  | EmailVerification => emailVerificationOTP u
  | ResetPassword => resetPasswordOTP u
  end.

Definition slot_expires (k : Slot) (u : User) : option Z :=
  match k with
  | PhoneVerification => phoneVerificationOTPExpires u
  | EmailVerification => emailVerificationOTPExpires u
  | ResetPassword => resetPasswordOTPExpires u
  end.

(** The column by which the consuming method looks the identity up. *)
Definition slot_where (k : Slot) (key : string) : UserWhereUniqueInput :=
  match k with
  | PhoneVerification => where_phone key
  | EmailVerification => where_email key
  | ResetPassword => where_phone key
  end.

(** The already-verified guard of the consuming method; the reset method
    has none. *)
Definition slot_verified (k : Slot) (u : User) : bool :=
  match k with
  | PhoneVerification => isPhoneVerified u
  | EmailVerification => isEmailVerified u
  | ResetPassword => false
  end.

(** The single [data] object written on a match. *)
Definition slot_data (rt : Runtime) (k : Slot) (newPassword : string) : list Assignment :=
  match k with
  | PhoneVerification =>
      [ isPhoneVerified_is true; phoneVerificationOTP_is None;
        phoneVerificationOTPExpires_is None ]
  | EmailVerification =>
      [ isEmailVerified_is true; emailVerificationOTP_is None;
        emailVerificationOTPExpires_is None ]
  | ResetPassword =>
      [ password_is (bcrypt_hash rt newPassword 10); resetPasswordOTP_is None;
        resetPasswordOTPExpires_is None ]
  end.

Definition consume (rt : Runtime) (k : Slot) (date : Z)
    (key otp newPassword : string) : Async unit :=
  match k with
  | PhoneVerification => AuthService.verifyPhone date key otp
  | EmailVerification => AuthService.verifyEmail date key otp
  | ResetPassword => AuthService.resetPasswordWithOTP rt date key otp newPassword
  end.

Definition msg_no_otp : string := "No OTP found. Please request a new one".
Definition msg_expired : string := "OTP has expired. Please request a new one".
Definition msg_invalid : string := "Invalid OTP".

(** What a consume answers once the slot has been used. *)
Definition msg_after_use (k : Slot) : string :=
  match k with
  | PhoneVerification => "Phone number is already verified"
  | EmailVerification => "Email is already verified"
  | ResetPassword => msg_no_otp
  end.

(** The two issue methods, by purpose.  The email slot has no issue method
    in the service. *)
Inductive Purpose : Type := ForPhoneVerification | ForPasswordReset.

(** [generatePhoneVerificationOTP] takes the id, [generatePasswordResetOTP]
    the phone. *)
Definition issue_where (p : Purpose) (key : string) : UserWhereUniqueInput :=
  match p with
  | ForPhoneVerification => where_id key
  | ForPasswordReset => where_phone key
  end.

Definition issue (rt : Runtime) (this : AuthService.t) (p : Purpose)
    (env : IssueReads) (key : string) : Async unit :=
  match p with
  | ForPhoneVerification => AuthService.generatePhoneVerificationOTP rt this env key
  | ForPasswordReset => AuthService.generatePasswordResetOTP rt this env key
  end.

(** The already-verified guard of the issue method; the reset method has
    none. *)
Definition issue_blocked (p : Purpose) (u : User) : bool :=
  match p with
  | ForPhoneVerification => isPhoneVerified u
  | ForPasswordReset => false
  end.

(** The [data] object of the final [update] of an issue, for the row [u]
    read at the start of the call. *)
Definition issue_data (this : AuthService.t) (p : Purpose) (env : IssueReads)
    (u : User) : list Assignment :=
  let otp := AuthService.draw_otp (read_Math_random env) in
  let otpExpiry :=
    read_Date_now env + AuthService.otpExpiryMinutes this * 60 * 1000 in
  match p with
  | ForPhoneVerification =>
      [ phoneVerificationOTP_is (Some otp);
        phoneVerificationOTPExpires_is (Some otpExpiry);
        lastOtpRequestTime_is (Some (read_now env));
        otpRequestCount_is (otpRequestCount u + 1) ]
  | ForPasswordReset =>
      [ resetPasswordOTP_is (Some otp);
        resetPasswordOTPExpires_is (Some otpExpiry);
        lastOtpRequestTime_is (Some (read_now env));
        otpRequestCount_is (otpRequestCount u + 1) ]
  end.

(** The message handed to the gateway. *)
Definition issue_sms (p : Purpose) (env : IssueReads) (u : User) : Dispatch :=
  let otp := AuthService.draw_otp (read_Math_random env) in
  match p with
  | ForPhoneVerification =>
      sms_PhoneVerificationOTP (Prisma.phone u) otp (Prisma.firstName u)
  | ForPasswordReset =>
      sms_PasswordResetOTP (Prisma.phone u) otp (Prisma.firstName u)
  end.

(** How an issue completes once the code is stored: the reset method turns
    any rejection of the gateway into its own BadRequest, the verification
    method lets it through. *)
Definition issue_completion (p : Purpose) (env : IssueReads) : Completion unit :=
  match read_sms_failure env, p with
  | None, _ => Return tt
  | Some e, ForPhoneVerification => Throw e
  | Some _, ForPasswordReset =>
      Throw (BadRequestException "Failed to send OTP. Please try again later.")
  end.

(** The guards of an issue, as conditions on the row read. *)
Definition within_min_interval (this : AuthService.t) (now : Z) (u : User) : bool :=
  match lastOtpRequestTime u with
  | Some last =>
      Qltb (AuthService.minutesSinceLastRequest now last)
           (inject_Z (AuthService.otpMinIntervalMinutes this))
  | None => false
  end.

Definition daily_reset_due (rt : Runtime) (today : Z) (u : User) : bool :=
  match lastOtpRequestTime u with
  | Some last => negb (String.eqb (toDateString rt last) (toDateString rt today))
  | None => false
  end.

(** The table, and the row, once the daily reset of an issue has run. *)
Definition rows_after_reset (rt : Runtime) (today : Z) (u : User)
    (rows : list User) : list User :=
  if daily_reset_due rt today u
  then updated (where_id (Prisma.id u)) [otpRequestCount_is 0] rows
  else rows.

Definition row_after_reset (rt : Runtime) (today : Z) (u : User) : User :=
  if daily_reset_due rt today u then write [otpRequestCount_is 0] u else u.

(** ** Sample data

    A runtime, a configuration and a few rows on which the statements below
    are exercised. *)

Definition day : Z := 24 * 60 * 60 * 1000.

(** One string per calendar day, for a process running in UTC. *)
Definition utc_toDateString (t : Z) : string := toString (t / day).

Definition rt0 : Runtime :=
  Build_Runtime
    (fun plain _ => "$2b$10$" ++ plain)
    (fun plain hash => String.eqb hash ("$2b$10$" ++ plain))
    (fun claims => "jwt." ++ JwtClaims.sub claims)
    utc_toDateString.

(** The defaults: expiry 10 minutes, 3 requests a day, 5 minutes apart. *)
Definition this0 : AuthService.t := AuthService.constructor (fun _ => None).

Definition alice_phone : string := "+2348012345678".
Definition alice_email : string := "alice@example.com".

(** A freshly signed-up identity: phone not verified, no code outstanding. *)
Definition alice : User :=
  Build_User "u-1" alice_email alice_phone "$2b$10$old-secret" "Alice" "Doe"
    USER true false true None None None None None None None None None 0.

Definition world_of (rows : list User) : World := Build_World rows [].

(** Noon of two consecutive days. *)
Definition yesterday_noon : Z := 19000 * day + 12 * 60 * 60 * 1000.
Definition today_noon : Z := 19001 * day + 12 * 60 * 60 * 1000.

(** A request at noon today; the gateway accepts the message. *)
Definition reads_today : IssueReads :=
  Build_IssueReads today_noon today_noon (1 # 4) today_noon None.

(** The same request with the gateway down. *)
Definition reads_today_sms_down : IssueReads :=
  Build_IssueReads today_noon today_noon (1 # 4) today_noon
    (Some (CollaboratorError "gateway timeout")).

(** Alice after [n] requests, the last of them at noon yesterday. *)
Definition alice_after (n : Z) : User :=
  write [lastOtpRequestTime_is (Some yesterday_noon); otpRequestCount_is n] alice.

(** Alice holding the phone code 424242, valid until noon today. *)
Definition alice_with_phone_code : User :=
  write [phoneVerificationOTP_is (Some "424242");
         phoneVerificationOTPExpires_is (Some today_noon)] alice.

(** Alice holding the reset code 424242, valid until noon today, and a reset
    token mailed earlier, valid until one o'clock. *)
Definition today_one : Z := today_noon + 60 * 60 * 1000.

Definition alice_with_reset_code_and_token : User :=
  write [resetPasswordOTP_is (Some "424242");
         resetPasswordOTPExpires_is (Some today_noon);
         resetPasswordToken_is (Some "c0ffee");
         resetPasswordExpires_is (Some today_one)] alice.

(** A request two minutes after [reads_today]. *)
Definition reads_two_minutes_later : IssueReads :=
  Build_IssueReads (today_noon + 2 * 60 * 1000) (today_noon + 2 * 60 * 1000)
    (3 # 4) (today_noon + 2 * 60 * 1000) None.

(** ** Further views of the service

    What sign-in hands out for a row, the payload a verified token of the
    service decodes to, and the slot an issue method fills. *)

(** The payload [logIn] signs for the row [u]. *)
Definition login_claims (u : User) : JwtClaims.t :=
  JwtClaims.make (Prisma.id u) (Prisma.email u) (Prisma.phone u) (Prisma.role u).

(** The response of [logIn] for the row [u]. *)
Definition login_response (rt : Runtime) (u : User) : LoginResponse :=
  Build_LoginResponse
    (jwtService_sign rt (login_claims u))
    (LoginUser.make (Prisma.id u) (Prisma.firstName u) (Prisma.lastName u)
       (Prisma.email u) (Prisma.phone u) (Prisma.role u) (Prisma.isActive u)
       (Prisma.isPhoneVerified u)).

(** What [validate] reads off a verified token carrying [claims]: a [sub],
    and no [id]. *)
Definition decoded (claims : JwtClaims.t) : JwtPayload.t :=
  JwtPayload.make None (Some (JwtClaims.sub claims)).

Definition purpose_slot (p : Purpose) : Slot :=
  match p with
  | ForPhoneVerification => PhoneVerification
  | ForPasswordReset => ResetPassword
  end.

(** The expiry an issue stores. *)
Definition issue_expiry (this : AuthService.t) (env : IssueReads) : Z :=
  read_Date_now env + AuthService.otpExpiryMinutes this * 60 * 1000.

(** The columns no method of the service writes. *)
Definition identity_columns (u : User)
  : string * string * string * string * string * UserRole * bool :=
  (Prisma.id u, Prisma.email u, Prisma.phone u, Prisma.firstName u,
   Prisma.lastName u, Prisma.role u, Prisma.isActive u).

(** ** [AuthService.signUp]

    The method uses three things that are not among the sources: the phone
    validator of the SMS service, the remaining properties of the DTO
    ([...rest]), and what the store fills in on [create] (the generated id
    and the schema defaults).  Each is an argument. *)

Module PhoneValidation.
Record t : Type := make {
  isValid : bool;
  formattedNumber : string;
  error : string
}.
End PhoneValidation.

(** The five properties [signUp] takes out of the DTO by name. *)
Module CreateUserDto.
Record t : Type := make {
  firstName : string;
  lastName : string;
  password : string;
  email : string;
  phone : string
}.
End CreateUserDto.

Module SignUpResponse.
Record t : Type := make {
  id : string;
  firstName : string;
  lastName : string;
  email : string;
  phone : string;
  role : UserRole;
  isActive : bool;
  isPhoneVerified : bool;
  message : string
}.
End SignUpResponse.

Module Registration.

Definition msg_created : string :=
  "User created successfully. Please verify your phone number with the OTP sent to your phone.".

Definition msg_created_without_otp : string :=
  "User created successfully, but OTP sending failed. Please try to resend OTP.".

(** [prisma.user.create]: the row is added unless one of the unique columns
    ([id], [email], [phone]) is taken, which the client rejects as P2002. *)
Definition create (row : User) : Async User :=
  fun s =>
    if existsb (fun u => String.eqb (Prisma.id u) (Prisma.id row)
                         || String.eqb (Prisma.email u) (Prisma.email row)
                         || String.eqb (Prisma.phone u) (Prisma.phone row))
               (users s)
    then (Throw (PrismaClientKnownRequestError "P2002"), s)
    else (Return row, Build_World (users s ++ [row]) (outbox s)).

(** The row of the [data] object of [signUp].  [defaults] is the row the
    store would fill in by itself.  [rest] stands for [...rest]: it is
    spread last, so it overrides [isPhoneVerified] and [isEmailVerified] if
    it carries them, and it cannot carry any of the five properties taken
    out by name. *)
Definition row_to_create (rt : Runtime) (defaults : User) (rest : User -> User)
    (formattedNumber : string) (dto : CreateUserDto.t) : User :=
  let r := rest (write [isPhoneVerified_is false; isEmailVerified_is true] defaults) in
  Build_User (Prisma.id r)
    (CreateUserDto.email dto) formattedNumber
    (bcrypt_hash rt (CreateUserDto.password dto) 10)
    (CreateUserDto.firstName dto) (CreateUserDto.lastName dto)
    (Prisma.role r) (Prisma.isActive r)
    (Prisma.isPhoneVerified r) (Prisma.isEmailVerified r)
    (phoneVerificationOTP r) (phoneVerificationOTPExpires r)
    (emailVerificationOTP r) (emailVerificationOTPExpires r)
    (resetPasswordOTP r) (resetPasswordOTPExpires r)
    (resetPasswordToken r) (resetPasswordExpires r)
    (lastOtpRequestTime r) (otpRequestCount r).

Definition response (savedUser : User) (message : string) : SignUpResponse.t :=
  SignUpResponse.make (Prisma.id savedUser) (Prisma.firstName savedUser)
    (Prisma.lastName savedUser) (Prisma.email savedUser) (Prisma.phone savedUser)
    (Prisma.role savedUser) (Prisma.isActive savedUser)
    (Prisma.isPhoneVerified savedUser) message.

Section SignUp.

Variable rt : Runtime.
Variable this : AuthService.t.
Variable validatePhoneNumber : string -> PhoneValidation.t.
Variable defaults : User.
Variable rest : User -> User.

Local Open Scope async_scope.

Definition signUp (env : IssueReads) (createUserDto : CreateUserDto.t)
  : Async SignUpResponse.t :=
  let phoneValidation := validatePhoneNumber (CreateUserDto.phone createUserDto) in
  if negb (PhoneValidation.isValid phoneValidation) then
    throw (BadRequestException (PhoneValidation.error phoneValidation))
  else
    existingUserByPhone <-
      PrismaService.findUnique
        (where_phone (PhoneValidation.formattedNumber phoneValidation)) ;;
    match existingUserByPhone with
    | Some _ =>
        throw (BadRequestException "User with this phone number already exists")
    | None =>
        existingUserByEmail <-
          PrismaService.findUnique (where_email (CreateUserDto.email createUserDto)) ;;
        match existingUserByEmail with
        | Some _ =>
            throw (BadRequestException "User with this email already exists")
        | None =>
            try_catch
              (savedUser <-
                 create (row_to_create rt defaults rest
                           (PhoneValidation.formattedNumber phoneValidation)
                           createUserDto) ;;
               try_catch
                 (AuthService.generatePhoneVerificationOTP rt this env
                    (Prisma.id savedUser) ;;
                  resolve (response savedUser msg_created))
                 (fun _ => resolve (response savedUser msg_created_without_otp)))
              (fun _ => throw (BadRequestException "Failed to create user"))
        end
    end.

End SignUp.

End Registration.

(** ** [UserService] and [NotificationService]

    Both throw [NotFoundException], which [AuthService] never does; their
    exceptions are that one or any of [Exception]. *)

Inductive NestException : Type :=
| NotFoundException (message : string)
| Raised (e : Exception).

Inductive Settled (A : Type) : Type :=
| Fulfilled (a : A)
| Rejected (e : NestException).

Arguments Fulfilled {A} a.
Arguments Rejected {A} e.

(** The [select] of [UserService]: the listed columns of the model; the two
    timestamps are not modelled, and [password] is excluded. *)
Module SelectedUser.
Record t : Type := make {
  id : string;
  firstName : string;
  lastName : string;
  email : string;
  phone : string;
  role : UserRole;
  isActive : bool;
  isPhoneVerified : bool;
  isEmailVerified : bool
}.
End SelectedUser.

Module UserService.

Definition select (u : User) : SelectedUser.t :=
  SelectedUser.make (Prisma.id u) (Prisma.firstName u) (Prisma.lastName u)
    (Prisma.email u) (Prisma.phone u) (Prisma.role u) (Prisma.isActive u)
    (Prisma.isPhoneVerified u) (Prisma.isEmailVerified u).

Definition not_found (id : string) : NestException :=
  NotFoundException ("User with ID " ++ id ++ " not found").

(** [prisma.user.delete({ where })]: the selected row goes, and the client
    rejects with P2025 when there is none. *)
Definition delete (w : UserWhereUniqueInput) : Async unit :=
  fun s =>
    if existsb (selects w) (users s)
    then (Return tt,
          Build_World (filter (fun u => negb (selects w u)) (users s)) (outbox s))
    else (Throw (PrismaClientKnownRequestError "P2025"), s).

Definition findOne (id : string) : World -> Settled SelectedUser.t * World :=
  fun s =>
    match PrismaService.findUnique (where_id id) s with
    | (Return (Some user), s') => (Fulfilled (select user), s')
    | (Return None, s') => (Rejected (not_found id), s')
    | (Throw e, s') => (Rejected (Raised e), s')
    end.

(** [catch (error)]: the client's P2025 becomes [NotFoundException], any
    other error is thrown again. *)
Definition remove (id : string) : World -> Settled string * World :=
  fun s =>
    match delete (where_id id) s with
    | (Return _, s') => (Fulfilled "User deleted successfully", s')
    | (Throw (PrismaClientKnownRequestError code), s') =>
        if String.eqb code "P2025"
        then (Rejected (not_found id), s')
        else (Rejected (Raised (PrismaClientKnownRequestError code)), s')
    | (Throw e, s') => (Rejected (Raised e), s')
    end.

End UserService.

Module Marketing.

Inductive MarketingCategory : Type :=
| PROMOTIONAL | NEWSLETTER | PRODUCT_UPDATES | EVENTS.

Inductive NotificationTiming : Type := IMMEDIATE | SCHEDULED.

(** The columns of the two models the service reads or writes ([metadata]
    and the timestamps are left out). *)
Record MarketingNotification : Type := Build_MarketingNotification {
  id : string;
  title : string;
  content : string;
  category : MarketingCategory;
  timing : NotificationTiming;
  scheduledDate : option Z;
  sent : bool;
  sentAt : option Z;
  successCount : Z;
  failureCount : Z
}.

Record UserMarketingPreference : Type := Build_UserMarketingPreference {
  userId : string;
  email : string;
  subscribedToPromotional : bool;
  subscribedToNewsletter : bool;
  subscribedToProductUpdates : bool;
  subscribedToEvents : bool;
  preferEmail : bool;
  preferSMS : bool;
  preferPush : bool
}.

(** One call of [mailService.sendMarketingEmail] that went through. *)
Record MarketingEmail : Type := Build_MarketingEmail {
  mail_to : string;
  mail_title : string;
  mail_content : string;
  mail_category : MarketingCategory
}.

Record Store : Type := Build_Store {
  marketingNotification : list MarketingNotification;
  userMarketingPreference : list UserMarketingPreference;
  delivered : list MarketingEmail
}.

Record Stats : Type := Build_Stats {
  totalRecipients : Z;
  stats_successCount : Z;
  stats_failureCount : Z
}.

Record SendResult : Type := Build_SendResult {
  success : bool;
  message : string;
  stats : Stats
}.

(** [getCategorySubscriptionField]; the [default] branch of the source is
    for a value outside the four of the enum. *)
Definition getCategorySubscriptionField (category : MarketingCategory) : string :=
  match category with
  | PROMOTIONAL => "subscribedToPromotional"
  | NEWSLETTER => "subscribedToNewsletter"
  | PRODUCT_UPDATES => "subscribedToProductUpdates"
  | EVENTS => "subscribedToEvents"
  end.

(** The boolean column of a preference row by its name, as the computed key
    [[categoryField]: true] of the [where] object needs it. *)
Definition flag_column (name : string) : option (UserMarketingPreference -> bool) :=
  if String.eqb name "subscribedToPromotional" then Some subscribedToPromotional
  else if String.eqb name "subscribedToNewsletter" then Some subscribedToNewsletter
  else if String.eqb name "subscribedToProductUpdates" then Some subscribedToProductUpdates
  else if String.eqb name "subscribedToEvents" then Some subscribedToEvents
  else if String.eqb name "preferEmail" then Some preferEmail
  else if String.eqb name "preferSMS" then Some preferSMS
  else if String.eqb name "preferPush" then Some preferPush
  else None.

(** [findMany({ where: { [categoryField]: true, preferEmail: true } })]; a
    key that names no column is rejected by the client. *)
Definition findMany_opted_in (categoryField : string)
    (rows : list UserMarketingPreference)
  : Completion (list UserMarketingPreference) :=
  match flag_column categoryField with
  | Some flag => Return (filter (fun u => flag u && preferEmail u) rows)
  | None => Throw (CollaboratorError "PrismaClientValidationError")
  end.

Definition find_notification (notificationId : string)
    (rows : list MarketingNotification) : option MarketingNotification :=
  find (fun n => String.eqb (id n) notificationId) rows.

(** [marketingNotification.update({ where: { id }, data })], for the two
    [data] objects of the service. *)
Definition mark_sent (date : Z) (successCount failureCount : Z)
    (n : MarketingNotification) : MarketingNotification :=
  Build_MarketingNotification (id n) (title n) (content n) (category n) (timing n)
    (scheduledDate n) true (Some date) successCount failureCount.

Definition mark_scheduled (scheduledDate : Z) (n : MarketingNotification)
  : MarketingNotification :=
  Build_MarketingNotification (id n) (title n) (content n) (category n) SCHEDULED
    (Some scheduledDate) (sent n) (sentAt n) (successCount n) (failureCount n).

Definition update_notification (notificationId : string)
    (data : MarketingNotification -> MarketingNotification)
    (rows : list MarketingNotification) : list MarketingNotification :=
  map (fun n => if String.eqb (id n) notificationId then data n else n) rows.

(** The [for] loop of [sendMarketingNotification]: one call of the mail
    service per recipient, in order; [fails i] tells whether the call for
    the recipient at place [i] throws.  A throw is counted and logged, and
    the loop goes on. *)
Fixpoint send_each (fails : nat -> bool) (notification : MarketingNotification)
    (i : nat) (optedInUsers : list UserMarketingPreference)
    (successCount failureCount : Z) (out : list MarketingEmail)
  : Z * Z * list MarketingEmail :=
  match optedInUsers with
  | [] => (successCount, failureCount, out)
  | user :: others =>
      if fails i then
        send_each fails notification (S i) others
          successCount (failureCount + 1) out
      else
        send_each fails notification (S i) others
          (successCount + 1) failureCount
          (out ++ [Build_MarketingEmail (email user) (title notification)
                     (content notification) (category notification)])
  end.

(** [date] is the [new Date()] of the schedule check, [date_sent] the one
    stored as [sentAt]. *)
Definition sendMarketingNotification (date date_sent : Z) (fails : nat -> bool)
    (notificationId : string) : Store -> Settled SendResult * Store :=
  fun s =>
    match find_notification notificationId (marketingNotification s) with
    | None => (Rejected (NotFoundException "Marketing notification not found"), s)
    | Some notification =>
        if sent notification then
          (Rejected (Raised (BadRequestException "Notification has already been sent")), s)
        else if match timing notification, scheduledDate notification with
                | SCHEDULED, Some scheduled => date <? scheduled
                | _, _ => false
                end
        then
          (Rejected (Raised (BadRequestException
                               "Scheduled notification time has not arrived yet")), s)
        else
          let categoryField := getCategorySubscriptionField (category notification) in
          match findMany_opted_in categoryField (userMarketingPreference s) with
          | Throw e => (Rejected (Raised e), s)
          | Return optedInUsers =>
              let '(successCount, failureCount, out) :=
                send_each fails notification 0 optedInUsers 0 0 (delivered s) in
              (Fulfilled
                 (Build_SendResult true "Marketing notification sent successfully"
                    (Build_Stats (Z.of_nat (length optedInUsers))
                       successCount failureCount)),
               Build_Store
                 (update_notification notificationId
                    (mark_sent date_sent successCount failureCount)
                    (marketingNotification s))
                 (userMarketingPreference s)
                 out)
          end
    end.

Definition scheduleMarketingNotification (id : string) (scheduledDate : Z)
  : Store -> Settled MarketingNotification * Store :=
  fun s =>
    match find_notification id (marketingNotification s) with
    | None => (Rejected (NotFoundException "Marketing notification not found"), s)
    | Some notification =>
        (Fulfilled (mark_scheduled scheduledDate notification),
         Build_Store
           (update_notification id (mark_scheduled scheduledDate)
              (marketingNotification s))
           (userMarketingPreference s)
           (delivered s))
    end.

(** The column [getCategorySubscriptionField] names, as a function. *)
Definition subscribed (c : MarketingCategory) (u : UserMarketingPreference) : bool :=
  match c with
  | PROMOTIONAL => subscribedToPromotional u
  | NEWSLETTER => subscribedToNewsletter u
  | PRODUCT_UPDATES => subscribedToProductUpdates u
  | EVENTS => subscribedToEvents u
  end.

End Marketing.

(** ** Sequences of requests

    The nine methods as requests, each with what it reads from outside, and
    the world a request leaves behind, whether it returned or threw. *)

Inductive Request : Type :=
| req_logIn (phone password : string)
| req_generatePasswordResetOTP (env : IssueReads) (phone : string)
| req_generatePhoneVerificationOTP (env : IssueReads) (userId : string)
| req_verifyPhone (date : Z) (phone otp : string)
| req_resendVerificationOTP (env : IssueReads) (phone : string)
| req_resetPasswordWithOTP (date : Z) (phone otp newPassword : string)
| req_generateResetToken (randomBytes : string) (date_now : Z)
    (mail_failure : option Exception) (email : string)
| req_resetPassword (date : Z) (token newPassword : string)
| req_verifyEmail (date : Z) (email otp : string).

Definition after (rt : Runtime) (this : AuthService.t) (r : Request)
    (s : World) : World :=
  match r with
  | req_logIn phone password =>
      snd (AuthService.logIn rt phone password s)
  | req_generatePasswordResetOTP env phone =>
      snd (AuthService.generatePasswordResetOTP rt this env phone s)
  | req_generatePhoneVerificationOTP env userId =>
      snd (AuthService.generatePhoneVerificationOTP rt this env userId s)
  | req_verifyPhone date phone otp =>
      snd (AuthService.verifyPhone date phone otp s)
  | req_resendVerificationOTP env phone =>
      snd (AuthService.resendVerificationOTP rt this env phone s)
  | req_resetPasswordWithOTP date phone otp newPassword =>
      snd (AuthService.resetPasswordWithOTP rt date phone otp newPassword s)
  | req_generateResetToken randomBytes date_now mail_failure email =>
      snd (AuthService.generateResetToken randomBytes date_now mail_failure email s)
  | req_resetPassword date token newPassword =>
      snd (AuthService.resetPassword rt date token newPassword s)
  | req_verifyEmail date email otp =>
      snd (AuthService.verifyEmail date email otp s)
  end.

Definition after_all (rt : Runtime) (this : AuthService.t) (rs : list Request)
    (s : World) : World :=
  fold_left (fun w r => after rt this r w) rs s.

(** The [data] objects the service writes on a table [rows]: the five
    shapes of the source.  An issue writes a count taken from a row it read
    from [rows] and found below the daily limit. *)
Inductive service_data (rt : Runtime) (this : AuthService.t) (rows : list User)
  : list Assignment -> Prop :=
| sd_counter_reset :
    service_data rt this rows [otpRequestCount_is 0]
| sd_issue (p : Purpose) (env : IssueReads) (u : User) :
    In u rows ->
    otpRequestCount u < AuthService.otpDailyLimit this ->
    service_data rt this rows (issue_data this p env u)
| sd_consume (k : Slot) (newPassword : string) :
    service_data rt this rows (slot_data rt k newPassword)
| sd_token (token : string) (deadline : Z) :
    service_data rt this rows
      [resetPasswordToken_is (Some token); resetPasswordExpires_is (Some deadline)]
| sd_reset_by_token (newPassword : string) :
    service_data rt this rows
      [password_is (bcrypt_hash rt newPassword 10);
       resetPasswordToken_is None; resetPasswordExpires_is None].

(** The three shapes of the table a request leaves: untouched, one [update],
    or the counter reset followed by the [update] of an issue. *)
Definition shape_of (rt : Runtime) (this : AuthService.t)
    (rows rows' : list User) : Prop :=
  rows' = rows
  \/ (exists (i : string) (d : list Assignment),
        service_data rt this rows d /\ rows' = updated (where_id i) d rows)
  \/ (exists (i : string) (d : list Assignment),
        service_data rt this rows d /\
        rows' = updated (where_id i) d
                  (updated (where_id i) [otpRequestCount_is 0] rows)).

(** A row and what a request may have made of it. *)
Inductive evolves (rt : Runtime) (this : AuthService.t) (rows : list User)
  : User -> User -> Prop :=
| ev_same (u : User) : evolves rt this rows u u
| ev_write (u u1 : User) (data : list Assignment) :
    evolves rt this rows u u1 ->
    service_data rt this rows data ->
    evolves rt this rows u (write data u1).

(** Code and expiry of every slot, and token and deadline, are set together
    or not at all. *)
Definition slots_paired (u : User) : Prop :=
  (forall k : Slot, slot_code k u = None <-> slot_expires k u = None) /\
  (resetPasswordToken u = None <-> resetPasswordExpires u = None).

Definition count_within (this : AuthService.t) (u : User) : Prop :=
  0 <= otpRequestCount u <= AuthService.otpDailyLimit this.

(** Alice with her phone verified, and a second identity. *)
Definition alice_verified : User := write [isPhoneVerified_is true] alice.

Definition bob : User :=
  Build_User "u-2" "bob@example.com" "+2348087654321" "$2b$10$bobs-secret" "Bob" "Roe"
    USER true true true None None None None None None None None None 0.

(** ** More sample data *)

(** Alice right after a request at noon today. *)
Definition alice_just_asked : User :=
  write [lastOtpRequestTime_is (Some today_noon); otpRequestCount_is 1] alice.

(** A short history: Alice asks for her phone code, verifies with it, and
    signs in; Bob asks for a reset code. *)
Definition trace0 : list Request :=
  [ req_generatePhoneVerificationOTP reads_today "u-1";
    req_verifyPhone today_noon alice_phone "325000";
    req_logIn alice_phone "old-secret";
    req_generatePasswordResetOTP reads_two_minutes_later "+2348087654321" ].

(** A validator that takes local numbers with a leading zero to the
    international form. *)
Definition validate0 (raw : string) : PhoneValidation.t :=
  if String.prefix "0" raw then
    PhoneValidation.make true
      ("+234" ++ String.substring 1 (String.length raw - 1) raw) EmptyString
  else PhoneValidation.make false EmptyString "Invalid phone number format".

(** What the store fills in for a new row: the next id, role USER, active,
    nothing on record. *)
Definition defaults0 : User :=
  Build_User "u-3" EmptyString EmptyString EmptyString EmptyString EmptyString
    USER true false false None None None None None None None None None 0.

Definition carol_dto : CreateUserDto.t :=
  CreateUserDto.make "Carol" "Poe" "carols-secret" "carol@example.com" "08055555555".

(** Carol signing up with Alice's phone in its local form. *)
Definition imposter_dto : CreateUserDto.t :=
  CreateUserDto.make "Carol" "Poe" "carols-secret" "carol@example.com" "08012345678".

(** A newsletter not yet sent, and three preference rows: the first and the
    third take newsletters by email, the second has opted out. *)
Definition newsletter : Marketing.MarketingNotification :=
  Marketing.Build_MarketingNotification "n-1" "News" "Hello" Marketing.NEWSLETTER
    Marketing.IMMEDIATE None false None 0 0.

Definition store0 : Marketing.Store :=
  Marketing.Build_Store [newsletter]
    [ Marketing.Build_UserMarketingPreference "u-1" alice_email
        true true true true true false false;
      Marketing.Build_UserMarketingPreference "u-2" "bob@example.com"
        true false true true true false false;
      Marketing.Build_UserMarketingPreference "u-3" "carol@example.com"
        false true false false true false false ]
    [].

(** The mail service fails on its second call. *)
Definition fails_second (i : nat) : bool := Nat.eqb i 1.

(** A sign-up with a phone the validator rejects. *)
Definition malformed_dto : CreateUserDto.t :=
  CreateUserDto.make "Carol" "Poe" "carols-secret" "carol@example.com" "55555".

(** * Properties *)

(** ** The store *)

Section StoreFacts.

Lemma assign_keeps_keys (u : User) (a : Assignment) :
  Prisma.id (assign u a) = Prisma.id u /\
  Prisma.email (assign u a) = Prisma.email u /\
  Prisma.phone (assign u a) = Prisma.phone u.
Proof. destruct a; repeat split. Qed.

Lemma write_keeps_keys (data : list Assignment) (u : User) :
  Prisma.id (write data u) = Prisma.id u /\
  Prisma.email (write data u) = Prisma.email u /\
  Prisma.phone (write data u) = Prisma.phone u.
Proof.
  unfold write. revert u.
  induction data as [| a data IH]; intro u; simpl.
  - repeat split.
  - destruct (IH (assign u a)) as (Hi & He & Hp).
    destruct (assign_keeps_keys u a) as (Hi' & He' & Hp').
    rewrite Hi, He, Hp. auto.
Qed.

(** No write of the service moves a row under another key. *)
Lemma selects_write (w : UserWhereUniqueInput) (data : list Assignment) (u : User) :
  selects w (write data u) = selects w u.
Proof.
  destruct (write_keeps_keys data u) as (Hi & He & Hp).
  destruct w; simpl; congruence.
Qed.

Lemma find_updated (w wi : UserWhereUniqueInput) (data : list Assignment)
    (rows : list User) :
  find (selects w) (updated wi data rows) =
  option_map (fun u => if selects wi u then write data u else u)
             (find (selects w) rows).
Proof.
  unfold updated.
  induction rows as [| r rows IH]; simpl; [reflexivity |].
  destruct (selects wi r) eqn:Hwi.
  - rewrite selects_write. destruct (selects w r); simpl; [now rewrite Hwi | exact IH].
  - destruct (selects w r); simpl; [now rewrite Hwi | exact IH].
Qed.

Lemma existsb_updated (w wi : UserWhereUniqueInput) (data : list Assignment)
    (rows : list User) :
  existsb (selects w) (updated wi data rows) = existsb (selects w) rows.
Proof.
  unfold updated.
  induction rows as [| r rows IH]; simpl; [reflexivity |].
  rewrite IH. destruct (selects wi r); [rewrite selects_write |]; reflexivity.
Qed.

Lemma found_row_has_id (p : User -> bool) (rows : list User) (u : User) :
  find p rows = Some u ->
  existsb (selects (where_id (Prisma.id u))) rows = true.
Proof.
  intro H. apply find_some in H. destruct H as [Hin _].
  apply existsb_exists. exists u. split; [exact Hin |].
  simpl. apply String.eqb_refl.
Qed.

(** An [update] by the [id] of a row just read from the table succeeds. *)
Lemma update_row_read (p : User -> bool) (s : World) (u : User)
    (data : list Assignment) :
  find p (users s) = Some u ->
  PrismaService.update (where_id (Prisma.id u)) data s =
  (Return tt,
   Build_World (updated (where_id (Prisma.id u)) data (users s)) (outbox s)).
Proof.
  intro H. unfold PrismaService.update.
  now rewrite (found_row_has_id p _ _ H).
Qed.

(** The row a lookup returned is, after an [update] by its [id], the row
    the same lookup returns, rewritten. *)
Lemma find_after_update (w : UserWhereUniqueInput) (rows : list User) (u : User)
    (data : list Assignment) :
  find (selects w) rows = Some u ->
  find (selects w) (updated (where_id (Prisma.id u)) data rows) =
  Some (write data u).
Proof.
  intro H. rewrite find_updated, H. simpl. now rewrite String.eqb_refl.
Qed.

End StoreFacts.

(** ** Numbers *)

Lemma Qltb_minutes (now last m : Z) :
  Qltb (AuthService.minutesSinceLastRequest now last) (inject_Z m) = true <->
  now - last < m * (1000 * 60).
Proof.
  unfold Qltb, AuthService.minutesSinceLastRequest.
  rewrite negb_true_iff.
  assert (Hpos : (0 < inject_Z (1000 * 60))%Q) by reflexivity.
  split; intro H.
  - destruct (Z_lt_le_dec (now - last) (m * (1000 * 60))) as [Hlt | Hle]; [exact Hlt |].
    exfalso.
    assert (Hq : (inject_Z m <= inject_Z (now - last) / inject_Z (1000 * 60))%Q).
    { apply Qle_shift_div_l; [exact Hpos |].
      rewrite <- inject_Z_mult. now rewrite <- Zle_Qle. }
    apply Qle_bool_iff in Hq. congruence.
  - destruct (Qle_bool (inject_Z m) (inject_Z (now - last) / inject_Z (1000 * 60)))
      eqn:Hb; [| reflexivity].
    exfalso. apply Qle_bool_iff in Hb.
    assert (Hz : (inject_Z m * inject_Z (1000 * 60) <= inject_Z (now - last))%Q).
    { apply (Qmult_le_r _ _ (/ inject_Z (1000 * 60))); [reflexivity |].
      rewrite <- Qmult_assoc, Qmult_inv_r, Qmult_1_r by discriminate.
      exact Hb. }
    rewrite <- inject_Z_mult, <- Zle_Qle in Hz. lia.
Qed.

(** ** Sign-in *)

Section LogIn.

Variable rt : Runtime.

(** Sign-in succeeds for an active identity with a verified phone and the
    right password, and only reads the table. *)
Lemma logIn_succeeds (s : World) (phone password : string) (u : User) :
  find (selects (where_phone phone)) (users s) = Some u ->
  bcrypt_compare rt password (Prisma.password u) = true ->
  Prisma.isActive u = true ->
  Prisma.isPhoneVerified u = true ->
  exists response,
    AuthService.logIn rt phone password s = (Return response, s) /\
    LoginUser.id (user response) = Prisma.id u.
Proof.
  intros Hfind Hpw Hact Hver.
  unfold AuthService.logIn, await, PrismaService.findUnique.
  rewrite Hfind, Hpw, Hact, Hver. simpl.
  eexists. split; reflexivity.
Qed.

(** C8.  Sign-in of an identity whose phone is not verified never yields a
    token.  The checks run in this order: an unknown phone and a wrong
    password are both Unauthorized with the same message; then an inactive
    account is Forbidden; then, with the phone known, the password right and
    the account active, the unverified phone is Forbidden. *)
Theorem C8_logIn_unverified_phone_forbidden
    (s : World) (phone password : string) (u : User) :
  find (selects (where_phone phone)) (users s) = Some u ->
  Prisma.isPhoneVerified u = false ->
  (bcrypt_compare rt password (Prisma.password u) = true ->
   Prisma.isActive u = true ->
   AuthService.logIn rt phone password s =
   (Throw (ForbiddenException "Please verify your phone number before logging in"), s))
  /\
  (bcrypt_compare rt password (Prisma.password u) = true ->
   Prisma.isActive u = false ->
   AuthService.logIn rt phone password s =
   (Throw (ForbiddenException "Your account has been deactivated"), s))
  /\
  (bcrypt_compare rt password (Prisma.password u) = false ->
   AuthService.logIn rt phone password s =
   (Throw (UnauthorizedException "Invalid credentials"), s))
  /\
  (forall unknown pw : string,
     find (selects (where_phone unknown)) (users s) = None ->
     AuthService.logIn rt unknown pw s =
     (Throw (UnauthorizedException "Invalid credentials"), s)).
Proof.
  intros Hfind Hver.
  unfold AuthService.logIn, await, PrismaService.findUnique.
  repeat split.
  - intros Hpw Hact. now rewrite Hfind, Hpw, Hact, Hver.
  - intros Hpw Hact. now rewrite Hfind, Hpw, Hact.
  - intros Hpw. now rewrite Hfind, Hpw.
  - intros unknown pw Hnone. now rewrite Hnone.
Qed.

End LogIn.

(** ** Reset by mailed token *)

(** For an email no identity has, [generateResetToken] resolves, and
    neither the table nor the outbox changes, whatever the transport would
    have done with a mail: no row is written and no mail is sent.  It
    resolves with the same value for a registered email whose mail is
    accepted by the transport. *)
Lemma generateResetToken_unregistered_is_silent
    (randomBytes : string) (date_now : Z) (mail_failure : option Exception)
    (email : string) (s : World) :
  find (selects (where_email email)) (users s) = None ->
  AuthService.generateResetToken randomBytes date_now mail_failure email s =
  (Return tt, s)
  /\
  (forall (registered : string) (u : User),
     find (selects (where_email registered)) (users s) = Some u ->
     fst (AuthService.generateResetToken randomBytes date_now None registered s) =
     fst (AuthService.generateResetToken randomBytes date_now mail_failure email s)).
Proof.
  intro Hnone.
  assert (Hsilent :
    AuthService.generateResetToken randomBytes date_now mail_failure email s =
    (Return tt, s)).
  { unfold AuthService.generateResetToken, await, PrismaService.findUnique.
    now rewrite Hnone. }
  split; [exact Hsilent |].
  intros registered u Hsome. rewrite Hsilent.
  unfold AuthService.generateResetToken, await, PrismaService.findUnique.
  rewrite Hsome.
  rewrite (update_row_read _ _ _ _ Hsome). reflexivity.
Qed.

(** For a registered email, [generateResetToken] stores the token with its
    deadline and then awaits the mail, outside any [try]: the completion is
    the transport's, and the token stays stored when the mail is rejected. *)
Lemma generateResetToken_registered_run
    (randomBytes : string) (date_now : Z) (mail_failure : option Exception)
    (email : string) (s : World) (u : User) :
  find (selects (where_email email)) (users s) = Some u ->
  AuthService.generateResetToken randomBytes date_now mail_failure email s =
  MailService.sendResetToken mail_failure email randomBytes (Prisma.firstName u)
    (Build_World
       (updated (where_id (Prisma.id u))
          [ resetPasswordToken_is (Some randomBytes);
            resetPasswordExpires_is (Some (date_now + 60 * 60 * 1000)) ]
          (users s))
       (outbox s)).
Proof.
  intro Hsome.
  unfold AuthService.generateResetToken, await, PrismaService.findUnique.
  rewrite Hsome.
  rewrite (update_row_read _ _ _ _ Hsome). reflexivity.
Qed.

(** C6, where the code departs from it.  For an email no identity has,
    [generateResetToken] resolves, sends no mail and changes nothing; that
    much of the claim holds.  For a registered email the mail is awaited
    outside any [try], so a rejection of the transport is thrown to the
    caller, after the token was stored.  The response to a registered email
    is therefore the response to an unregistered one exactly when the
    transport accepts the mail: while the transport rejects, a throw tells
    the registered email from the unregistered one, which resolves. *)
Theorem C6_mail_failure_reveals_registration
    (randomBytes : string) (date_now : Z) (mail_failure : option Exception)
    (unregistered registered : string) (s : World) (u : User) :
  find (selects (where_email unregistered)) (users s) = None ->
  find (selects (where_email registered)) (users s) = Some u ->
  AuthService.generateResetToken randomBytes date_now mail_failure unregistered s =
  (Return tt, s)
  /\
  (forall e : Exception,
     mail_failure = Some e ->
     fst (AuthService.generateResetToken randomBytes date_now mail_failure registered s)
     = Throw e /\
     option_map resetPasswordToken
       (find (selects (where_email registered))
          (users (snd (AuthService.generateResetToken randomBytes date_now
                         mail_failure registered s))))
     = Some (Some randomBytes))
  /\
  (fst (AuthService.generateResetToken randomBytes date_now mail_failure registered s) =
   fst (AuthService.generateResetToken randomBytes date_now mail_failure unregistered s)
   <-> mail_failure = None).
Proof.
  intros Hnone Hsome.
  destruct (generateResetToken_unregistered_is_silent randomBytes date_now
              mail_failure unregistered s Hnone) as [Hsilent _].
  rewrite Hsilent, (generateResetToken_registered_run _ _ _ _ _ _ Hsome).
  unfold MailService.sendResetToken, dispatch.
  split; [reflexivity |]. split.
  - intros e ->. split; [reflexivity |]. cbn [snd users].
    now rewrite (find_after_update _ _ _ _ Hsome).
  - destruct mail_failure as [e |]; cbn [fst]; split; intro H;
      first [reflexivity | discriminate H].
Qed.

(** A row answers the query of [resetPassword] exactly when it holds the
    token with a deadline strictly after the date of the query. *)
Lemma selects_reset_token_iff (token : string) (date : Z) (u : User) :
  selects_reset_token token date u = true <->
  resetPasswordToken u = Some token /\
  exists e, resetPasswordExpires u = Some e /\ date < e.
Proof.
  unfold selects_reset_token.
  destruct (resetPasswordToken u) as [t |]; destruct (resetPasswordExpires u) as [e |];
    split; try discriminate; try (intros [Ht (e' & He & _)]; discriminate).
  - rewrite andb_true_iff, String.eqb_eq. intros [-> Hgt].
    split; [reflexivity |]. exists e. split; [reflexivity | lia].
  - intros [Ht (e' & He & Hlt)]. injection Ht as ->. injection He as ->.
    rewrite andb_true_iff, String.eqb_eq. split; [reflexivity | lia].
Qed.

(** C7.  When no identity holds the submitted token with a deadline strictly
    in the future, [resetPassword] rejects with BadRequest 'Invalid or
    expired reset token' and changes nothing.  The outcome is this one value
    whether the token was never issued or is stored and expired. *)
Theorem C7_resetPassword_bad_token_uniform
    (rt : Runtime) (date : Z) (token newPassword : string) (s : World) :
  (forall u : User,
     In u (users s) ->
     ~ (resetPasswordToken u = Some token /\
        exists e, resetPasswordExpires u = Some e /\ date < e)) ->
  AuthService.resetPassword rt date token newPassword s =
  (Throw (BadRequestException "Invalid or expired reset token"), s).
Proof.
  intro Hnone.
  unfold AuthService.resetPassword, await, PrismaService.findFirst.
  destruct (find (selects_reset_token token date) (users s)) as [u |] eqn:Hfind;
    [| reflexivity].
  exfalso. apply find_some in Hfind. destruct Hfind as [Hin Hsel].
  apply (Hnone u Hin). now apply selects_reset_token_iff.
Qed.

(** ** Session validation *)

Section Validate.

Variable findUnique_undefined : Completion (option User).


(** Whatever the client answers to a lookup without a key is what a payload
    with neither field gets: a rejection of the client is passed on as it
    is. *)
Lemma validate_without_key_passes_rejection_on (s : World) (e : Exception) :
  findUnique_undefined = Throw e ->
  JwtStrategy.validate findUnique_undefined (JwtPayload.make None None) s =
  (Throw e, s).
Proof. intros ->. reflexivity. Qed.

(** An empty [sub] is falsy: the lookup goes by [id]. *)
Lemma validate_empty_sub_falls_back (s : World) (other : option string) :
  JwtStrategy.validate findUnique_undefined (JwtPayload.make other (Some EmptyString)) s =
  JwtStrategy.validate findUnique_undefined (JwtPayload.make other None) s.
Proof. reflexivity. Qed.

End Validate.

(** ** Consuming a code *)

Section Consume.

Variable rt : Runtime.

(** The four outcomes of a consume on an identity that is found, not yet
    verified, and whose slot holds [(code, e)]. *)
Lemma consume_outcome (k : Slot) (date : Z) (key otp newPassword : string)
    (s : World) (u : User) (code : string) (e : Z) :
  find (selects (slot_where k key)) (users s) = Some u ->
  slot_verified k u = false ->
  slot_code k u = Some code ->
  slot_expires k u = Some e ->
  consume rt k date key otp newPassword s =
  if String.eqb code EmptyString then (Throw (BadRequestException msg_no_otp), s)
  else if date >? e then (Throw (BadRequestException msg_expired), s)
  else if negb (String.eqb code otp) then (Throw (BadRequestException msg_invalid), s)
  else (Return tt,
        Build_World
          (updated (where_id (Prisma.id u)) (slot_data rt k newPassword) (users s))
          (outbox s)).
Proof.
  intros Hfind Hver Hcode Hexp.
  destruct k; simpl in Hfind, Hver, Hcode, Hexp; simpl consume;
    [ unfold AuthService.verifyPhone
    | unfold AuthService.verifyEmail
    | unfold AuthService.resetPasswordWithOTP ];
    unfold await, PrismaService.findUnique;
    rewrite Hfind; try rewrite Hver; rewrite Hcode, Hexp; unfold truthy;
    destruct (String.eqb code EmptyString); cbn [negb]; try reflexivity;
    destruct (date >? e); try reflexivity;
    destruct (String.eqb code otp); cbn [negb]; try reflexivity;
    now rewrite (update_row_read _ _ _ _ Hfind).
Qed.

(** A consume on an identity whose slot is empty finds no code. *)
Lemma consume_empty_slot (k : Slot) (date : Z) (key otp newPassword : string)
    (s : World) (u : User) :
  find (selects (slot_where k key)) (users s) = Some u ->
  slot_verified k u = false ->
  slot_code k u = None ->
  consume rt k date key otp newPassword s =
  (Throw (BadRequestException msg_no_otp), s).
Proof.
  intros Hfind Hver Hcode.
  destruct k; simpl in Hfind, Hver, Hcode; simpl consume;
    [ unfold AuthService.verifyPhone
    | unfold AuthService.verifyEmail
    | unfold AuthService.resetPasswordWithOTP ];
    unfold await, PrismaService.findUnique;
    rewrite Hfind; try rewrite Hver; rewrite Hcode; reflexivity.
Qed.

(** A consume on an identity already verified says so, whatever the slot
    holds. *)
Lemma consume_already_verified (k : Slot) (date : Z) (key otp newPassword : string)
    (s : World) (u : User) :
  find (selects (slot_where k key)) (users s) = Some u ->
  slot_verified k u = true ->
  consume rt k date key otp newPassword s =
  (Throw (BadRequestException (msg_after_use k)), s).
Proof.
  intros Hfind Hver.
  destruct k; simpl in Hfind, Hver; try discriminate; simpl consume;
    [ unfold AuthService.verifyPhone | unfold AuthService.verifyEmail ];
    unfold await, PrismaService.findUnique;
    rewrite Hfind, Hver; reflexivity.
Qed.

(** C2, as the code has it.  On a populated slot a consume is rejected as
    expired exactly when the date of the attempt is strictly after the
    expiry.  At the expiry itself the code is still good: a matching code is
    accepted. *)
Theorem C2_expired_iff_strictly_after_expiry
    (k : Slot) (date : Z) (key otp newPassword : string)
    (s : World) (u : User) (code : string) (e : Z) :
  find (selects (slot_where k key)) (users s) = Some u ->
  slot_verified k u = false ->
  slot_code k u = Some code ->
  code <> EmptyString ->
  slot_expires k u = Some e ->
  (fst (consume rt k date key otp newPassword s) =
   Throw (BadRequestException msg_expired) <-> e < date)
  /\
  fst (consume rt k e key code newPassword s) = Return tt.
Proof.
  intros Hfind Hver Hcode Hne Hexp.
  apply String.eqb_neq in Hne.
  split.
  - rewrite (consume_outcome k date key otp newPassword s u code e Hfind Hver Hcode Hexp).
    rewrite Hne.
    destruct (date >? e) eqn:Hgt.
    + simpl. split; [intros _; lia | reflexivity].
    + destruct (String.eqb code otp); simpl;
        (split; [intro H; discriminate H | lia]).
  - rewrite (consume_outcome k e key code newPassword s u code e Hfind Hver Hcode Hexp).
    rewrite Hne, String.eqb_refl.
    rewrite Z.gtb_ltb, Z.ltb_irrefl.
    reflexivity.
Qed.

End Consume.

Section SingleUse.

Variable rt : Runtime.

(** C4, as the code has it.  A consume with the matching code, not after the
    expiry, makes one [update] that clears the slot and applies the effect
    of the slot (the channel is marked verified, or the new hash is stored).
    A second consume with the same code is rejected: on the reset slot
    because no code is found, on the two verification slots because the
    channel is already verified, which is checked before the slot is read. *)
Theorem C4_consume_is_single_use
    (k : Slot) (date : Z) (key newPassword : string)
    (s : World) (u : User) (code : string) (e : Z) :
  find (selects (slot_where k key)) (users s) = Some u ->
  slot_verified k u = false ->
  slot_code k u = Some code ->
  code <> EmptyString ->
  slot_expires k u = Some e ->
  date <= e ->
  exists (s' : World) (u' : User),
    consume rt k date key code newPassword s = (Return tt, s') /\
    users s' =
      updated (where_id (Prisma.id u)) (slot_data rt k newPassword) (users s) /\
    outbox s' = outbox s /\
    find (selects (slot_where k key)) (users s') = Some u' /\
    slot_code k u' = None /\
    slot_expires k u' = None /\
    match k with
    | PhoneVerification => Prisma.isPhoneVerified u' = true
    | EmailVerification => Prisma.isEmailVerified u' = true
    | ResetPassword => Prisma.password u' = bcrypt_hash rt newPassword 10
    end /\
    forall (date' : Z) (newPassword' : string),
      consume rt k date' key code newPassword' s' =
      (Throw (BadRequestException (msg_after_use k)), s').
Proof.
  intros Hfind Hver Hcode Hne Hexp Hdate.
  apply String.eqb_neq in Hne.
  pose (rows := updated (where_id (Prisma.id u)) (slot_data rt k newPassword) (users s)).
  exists (Build_World rows (outbox s)), (write (slot_data rt k newPassword) u).
  assert (Hfind' : find (selects (slot_where k key)) rows =
                   Some (write (slot_data rt k newPassword) u))
    by (apply find_after_update; exact Hfind).
  split.
  { rewrite (consume_outcome rt k date key code newPassword s u code e
               Hfind Hver Hcode Hexp).
    rewrite Hne, String.eqb_refl.
    replace (date >? e) with false by (symmetry; rewrite Z.gtb_ltb; apply Z.ltb_ge; lia).
    reflexivity. }
  split; [reflexivity |]. split; [reflexivity |]. split; [exact Hfind' |].
  split; [destruct k; reflexivity |].
  split; [destruct k; reflexivity |].
  split; [destruct k; reflexivity |].
  intros date' newPassword'.
  destruct k.
  - apply (consume_already_verified rt PhoneVerification) with (u := write (slot_data rt PhoneVerification newPassword) u);
      [exact Hfind' | reflexivity].
  - apply (consume_already_verified rt EmailVerification) with (u := write (slot_data rt EmailVerification newPassword) u);
      [exact Hfind' | reflexivity].
  - apply (consume_empty_slot rt ResetPassword) with (u := write (slot_data rt ResetPassword newPassword) u);
      [exact Hfind' | reflexivity | reflexivity].
Qed.

Lemma written_row_in_table (rows : list User) (u : User) (data : list Assignment) :
  In u rows ->
  In (write data u) (updated (where_id (Prisma.id u)) data rows).
Proof.
  intro Hin. unfold updated.
  apply in_map_iff. exists u. split; [| exact Hin].
  simpl. now rewrite String.eqb_refl.
Qed.

(** A reset by code, run on a slot holding the submitted code, not after its
    expiry. *)
Lemma resetPasswordWithOTP_run
    (date : Z) (phone newPassword : string)
    (s : World) (u : User) (code : string) (e : Z) :
  find (selects (where_phone phone)) (users s) = Some u ->
  resetPasswordOTP u = Some code ->
  code <> EmptyString ->
  resetPasswordOTPExpires u = Some e ->
  date <= e ->
  let data := slot_data rt ResetPassword newPassword in
  AuthService.resetPasswordWithOTP rt date phone code newPassword s =
  (Return tt, Build_World (updated (where_id (Prisma.id u)) data (users s)) (outbox s))
  /\
  find (selects (where_phone phone))
       (updated (where_id (Prisma.id u)) data (users s)) = Some (write data u).
Proof.
  intros Hfind Hcode Hne Hexp Hdate data.
  apply String.eqb_neq in Hne.
  split; [| apply find_after_update; exact Hfind].
  change (AuthService.resetPasswordWithOTP rt date phone code newPassword s)
    with (consume rt ResetPassword date phone code newPassword s).
  rewrite (consume_outcome rt ResetPassword date phone code newPassword s u code e
             Hfind eq_refl Hcode Hexp).
  rewrite Hne, String.eqb_refl.
  replace (date >? e) with false by (symmetry; rewrite Z.gtb_ltb; apply Z.ltb_ge; lia).
  reflexivity.
Qed.

(** C3, as the code has it.  A reset stores the new hash and clears the
    credential it was made with, in one [update], and leaves the other
    credential as it was.  By code (in a world [s] where the identity holds
    the submitted code): the reset code and its expiry are cleared, the
    reset token and its deadline stay.  By token (in a world [st] where an
    identity holds the submitted token, not yet due): the reset token and
    its deadline are cleared, the reset code and its expiry stay. *)
Theorem C3_reset_clears_the_credential_used
    (date : Z) (phone newPassword token : string)
    (s : World) (u : User) (code : string) (e : Z) (st : World) (t : User) :
  find (selects (where_phone phone)) (users s) = Some u ->
  resetPasswordOTP u = Some code ->
  code <> EmptyString ->
  resetPasswordOTPExpires u = Some e ->
  date <= e ->
  find (selects_reset_token token date) (users st) = Some t ->
  (exists (s' : World) (u' : User),
     AuthService.resetPasswordWithOTP rt date phone code newPassword s =
     (Return tt, s') /\
     users s' =
       updated (where_id (Prisma.id u))
         [password_is (bcrypt_hash rt newPassword 10);
          resetPasswordOTP_is None; resetPasswordOTPExpires_is None] (users s) /\
     find (selects (where_phone phone)) (users s') = Some u' /\
     Prisma.password u' = bcrypt_hash rt newPassword 10 /\
     resetPasswordOTP u' = None /\
     resetPasswordOTPExpires u' = None /\
     resetPasswordToken u' = resetPasswordToken u /\
     resetPasswordExpires u' = resetPasswordExpires u)
  /\
  (exists (s' : World) (t' : User),
     AuthService.resetPassword rt date token newPassword st = (Return tt, s') /\
     users s' =
       updated (where_id (Prisma.id t))
         [password_is (bcrypt_hash rt newPassword 10);
          resetPasswordToken_is None; resetPasswordExpires_is None] (users st) /\
     In t' (users s') /\
     Prisma.id t' = Prisma.id t /\
     Prisma.password t' = bcrypt_hash rt newPassword 10 /\
     resetPasswordToken t' = None /\
     resetPasswordExpires t' = None /\
     resetPasswordOTP t' = resetPasswordOTP t /\
     resetPasswordOTPExpires t' = resetPasswordOTPExpires t).
Proof.
  intros Hfind Hcode Hne Hexp Hdate Htoken.
  split.
  - destruct (resetPasswordWithOTP_run date phone newPassword s u code e
                Hfind Hcode Hne Hexp Hdate) as (Hrun & Hfind').
    eexists. exists (write [password_is (bcrypt_hash rt newPassword 10);
                       resetPasswordOTP_is None; resetPasswordOTPExpires_is None] u).
    split; [exact Hrun |].
    split; [reflexivity |]. split; [exact Hfind' |].
    repeat split.
  - eexists. exists (write [password_is (bcrypt_hash rt newPassword 10);
                       resetPasswordToken_is None; resetPasswordExpires_is None] t).
    split.
    { unfold AuthService.resetPassword, await, PrismaService.findFirst.
      rewrite Htoken. apply (update_row_read _ _ _ _ Htoken). }
    split; [reflexivity |].
    split.
    { apply written_row_in_table. apply find_some in Htoken. tauto. }
    repeat split.
Qed.

End SingleUse.

(** ** Issuing a code *)

Section Issue.

Variable rt : Runtime.
Variable this : AuthService.t.

Lemma check_rate_limiting_pass (now : Z) (u : User) (s : World) :
  within_min_interval this now u = false ->
  AuthService.check_rate_limiting this now u s = (Return tt, s).
Proof.
  unfold within_min_interval, AuthService.check_rate_limiting.
  destruct (lastOtpRequestTime u) as [last |]; [| reflexivity].
  intros ->. reflexivity.
Qed.

Lemma check_rate_limiting_wait (now last : Z) (u : User) (s : World) :
  lastOtpRequestTime u = Some last ->
  now - last < AuthService.otpMinIntervalMinutes this * (1000 * 60) ->
  AuthService.check_rate_limiting this now u s =
  (Throw (BadRequestException
            (AuthService.wait_message
               (Qceiling (inject_Z (AuthService.otpMinIntervalMinutes this)
                          - AuthService.minutesSinceLastRequest now last)))), s).
Proof.
  intros Hlast Hlt. unfold AuthService.check_rate_limiting. rewrite Hlast.
  apply Qltb_minutes in Hlt. now rewrite Hlt.
Qed.

Lemma reset_daily_counter_run (p : User -> bool) (today : Z) (u : User) (s : World) :
  find p (users s) = Some u ->
  AuthService.reset_daily_counter rt today u s =
  (Return tt, Build_World (rows_after_reset rt today u (users s)) (outbox s)).
Proof.
  intro Hfind.
  unfold AuthService.reset_daily_counter, rows_after_reset, daily_reset_due.
  destruct (lastOtpRequestTime u) as [last |].
  - destruct (negb (String.eqb (toDateString rt last) (toDateString rt today))).
    + apply (update_row_read _ _ _ _ Hfind).
    + now destruct s.
  - now destruct s.
Qed.

Lemma row_after_reset_id (today : Z) (u : User) :
  Prisma.id (row_after_reset rt today u) = Prisma.id u.
Proof. unfold row_after_reset. now destruct (daily_reset_due rt today u). Qed.

Lemma find_after_reset (w : UserWhereUniqueInput) (today : Z) (u : User)
    (rows : list User) :
  find (selects w) rows = Some u ->
  find (selects w) (rows_after_reset rt today u rows) =
  Some (row_after_reset rt today u).
Proof.
  intro Hfind. unfold rows_after_reset, row_after_reset.
  destruct (daily_reset_due rt today u); [| exact Hfind].
  now apply find_after_update.
Qed.

(** The final [update] of an issue finds its row, reset or not. *)
Lemma update_after_reset (p : User -> bool) (today : Z) (u : User)
    (rows : list User) (out : list Dispatch) (data : list Assignment) :
  find p rows = Some u ->
  PrismaService.update (where_id (Prisma.id u)) data
    (Build_World (rows_after_reset rt today u rows) out) =
  (Return tt,
   Build_World
     (updated (where_id (Prisma.id u)) data (rows_after_reset rt today u rows)) out).
Proof.
  intro Hfind. unfold PrismaService.update. simpl users. simpl outbox.
  assert (Hex : existsb (selects (where_id (Prisma.id u)))
                        (rows_after_reset rt today u rows) = true).
  { unfold rows_after_reset. destruct (daily_reset_due rt today u).
    - rewrite existsb_updated. apply (found_row_has_id p _ _ Hfind).
    - apply (found_row_has_id p _ _ Hfind). }
  now rewrite Hex.
Qed.

(** The identity a reset-by-phone lookup returns has that phone. *)
Lemma found_by_phone (phone : string) (rows : list User) (u : User) :
  find (selects (where_phone phone)) rows = Some u -> Prisma.phone u = phone.
Proof.
  intro H. apply find_some in H. destruct H as [_ H].
  now apply String.eqb_eq in H.
Qed.

(** An issue rejected by the minimum-interval guard: nothing is written. *)
Lemma issue_within_interval (p : Purpose) (env : IssueReads) (key : string)
    (s : World) (u : User) (last : Z) :
  find (selects (issue_where p key)) (users s) = Some u ->
  issue_blocked p u = false ->
  lastOtpRequestTime u = Some last ->
  read_now env - last < AuthService.otpMinIntervalMinutes this * (1000 * 60) ->
  issue rt this p env key s =
  (Throw (BadRequestException
            (AuthService.wait_message
               (Qceiling (inject_Z (AuthService.otpMinIntervalMinutes this)
                          - AuthService.minutesSinceLastRequest (read_now env) last)))),
   s).
Proof.
  intros Hfind Hblk Hlast Hlt.
  destruct p; simpl in Hfind, Hblk; simpl issue;
    [ unfold AuthService.generatePhoneVerificationOTP
    | unfold AuthService.generatePasswordResetOTP ];
    unfold await at 1; unfold PrismaService.findUnique;
    rewrite Hfind; try rewrite Hblk;
    unfold await at 1;
    now rewrite (check_rate_limiting_wait _ last u s Hlast Hlt).
Qed.

(** An issue rejected by the daily cap.  The cap is checked on the count of
    the row read at the start of the call; the reset, when due, has already
    been written to the table. *)
Lemma issue_over_daily_limit (p : Purpose) (env : IssueReads) (key : string)
    (s : World) (u : User) :
  find (selects (issue_where p key)) (users s) = Some u ->
  issue_blocked p u = false ->
  within_min_interval this (read_now env) u = false ->
  AuthService.otpDailyLimit this <= otpRequestCount u ->
  issue rt this p env key s =
  (Throw (BadRequestException
            (AuthService.limit_message (AuthService.otpDailyLimit this))),
   Build_World (rows_after_reset rt (read_today env) u (users s)) (outbox s)).
Proof.
  intros Hfind Hblk Hint Hcap.
  assert (Hge : (otpRequestCount u >=? AuthService.otpDailyLimit this) = true)
    by (rewrite Z.geb_leb; apply Z.leb_le; exact Hcap).
  destruct p; simpl in Hfind, Hblk; simpl issue;
    [ unfold AuthService.generatePhoneVerificationOTP
    | unfold AuthService.generatePasswordResetOTP ];
    unfold await at 1; unfold PrismaService.findUnique;
    rewrite Hfind; try rewrite Hblk;
    unfold await at 1;
    rewrite (check_rate_limiting_pass _ u s Hint);
    unfold await at 1;
    rewrite (reset_daily_counter_run _ _ u s Hfind);
    unfold await at 1;
    unfold AuthService.check_daily_limit; rewrite Hge; reflexivity.
Qed.

(** An issue that passes the guards: the code is stored by one [update] on
    the table as the reset left it, and the completion is that of the
    dispatch, which writes nothing back. *)
Lemma issue_run (p : Purpose) (env : IssueReads) (key : string)
    (s : World) (u : User) :
  find (selects (issue_where p key)) (users s) = Some u ->
  issue_blocked p u = false ->
  within_min_interval this (read_now env) u = false ->
  otpRequestCount u < AuthService.otpDailyLimit this ->
  issue rt this p env key s =
  (issue_completion p env,
   Build_World
     (updated (where_id (Prisma.id u)) (issue_data this p env u)
        (rows_after_reset rt (read_today env) u (users s)))
     (match read_sms_failure env with
      | None => outbox s ++ [issue_sms p env u]
      | Some _ => outbox s
      end)).
Proof.
  intros Hfind Hblk Hint Hcap.
  assert (Hge : (otpRequestCount u >=? AuthService.otpDailyLimit this) = false)
    by (rewrite Z.geb_leb; apply Z.leb_gt; exact Hcap).
  destruct p; simpl in Hfind, Hblk; simpl issue;
    [ unfold AuthService.generatePhoneVerificationOTP
    | unfold AuthService.generatePasswordResetOTP ];
    unfold await at 1; unfold PrismaService.findUnique;
    rewrite Hfind; try rewrite Hblk;
    unfold await at 1;
    rewrite (check_rate_limiting_pass _ u s Hint);
    unfold await at 1;
    rewrite (reset_daily_counter_run _ _ u s Hfind);
    unfold await at 1;
    unfold AuthService.check_daily_limit; rewrite Hge;
    unfold resolve; unfold await at 1;
    rewrite (update_after_reset _ _ u _ _ _ Hfind);
    unfold issue_completion, issue_data, issue_sms, try_catch,
      SmsService.sendPhoneVerificationOTP, SmsService.sendPasswordResetOTP,
      dispatch, throw;
    destruct (read_sms_failure env);
    try rewrite (found_by_phone _ _ _ Hfind); reflexivity.
Qed.

End Issue.

Section IssueProperties.

Variable rt : Runtime.
Variable this : AuthService.t.

(** The final [update] of an issue leaves the verification flag alone. *)
Lemma issued_row_flag (p : Purpose) (env : IssueReads) (u : User) :
  Prisma.isPhoneVerified
    (write (issue_data this p env u) (row_after_reset rt (read_today env) u)) =
  Prisma.isPhoneVerified u.
Proof.
  unfold row_after_reset.
  destruct p; destruct (daily_reset_due rt (read_today env) u); reflexivity.
Qed.

(** What the final [update] of an issue leaves in the rate-limit columns. *)
Lemma issued_row_rate_limit (p : Purpose) (env : IssueReads) (u : User) :
  let u' := write (issue_data this p env u) (row_after_reset rt (read_today env) u) in
  lastOtpRequestTime u' = Some (read_now env) /\
  otpRequestCount u' = otpRequestCount u + 1.
Proof.
  unfold row_after_reset.
  destruct p; destruct (daily_reset_due rt (read_today env) u); split; reflexivity.
Qed.

(** The row an issue leaves under any key that led to the identity. *)
Lemma find_after_issue (w : UserWhereUniqueInput) (p : Purpose) (env : IssueReads)
    (u : User) (rows : list User) :
  find (selects w) rows = Some u ->
  find (selects w)
    (updated (where_id (Prisma.id u)) (issue_data this p env u)
       (rows_after_reset rt (read_today env) u rows)) =
  Some (write (issue_data this p env u) (row_after_reset rt (read_today env) u)).
Proof.
  intro Hfind.
  rewrite <- (row_after_reset_id rt (read_today env) u).
  apply find_after_update. now apply find_after_reset.
Qed.

(** C9.  When the gateway rejects the message of [generatePasswordResetOTP],
    the caller gets BadRequest 'Failed to send OTP. Please try again later.'
    and the write made before the dispatch stays: the identity holds the new
    code, its expiry, the time of this request, and a count one above the
    count read.  The table is the one a successful dispatch leaves. *)
Theorem C9_sms_failure_does_not_roll_back
    (env : IssueReads) (phone : string) (s : World) (u : User) (e : Exception) :
  find (selects (where_phone phone)) (users s) = Some u ->
  within_min_interval this (read_now env) u = false ->
  otpRequestCount u < AuthService.otpDailyLimit this ->
  read_sms_failure env = Some e ->
  exists (s' : World) (u' : User),
    AuthService.generatePasswordResetOTP rt this env phone s =
    (Throw (BadRequestException "Failed to send OTP. Please try again later."), s') /\
    find (selects (where_phone phone)) (users s') = Some u' /\
    resetPasswordOTP u' = Some (AuthService.draw_otp (read_Math_random env)) /\
    resetPasswordOTPExpires u' =
      Some (read_Date_now env + AuthService.otpExpiryMinutes this * 60 * 1000) /\
    lastOtpRequestTime u' = Some (read_now env) /\
    otpRequestCount u' = otpRequestCount u + 1 /\
    outbox s' = outbox s /\
    users s' =
      users (snd (AuthService.generatePasswordResetOTP rt this
                    (Build_IssueReads (read_now env) (read_today env)
                       (read_Math_random env) (read_Date_now env) None)
                    phone s)).
Proof.
  intros Hfind Hint Hcap Hsms.
  pose proof (issue_run rt this ForPasswordReset env phone s u
                Hfind eq_refl Hint Hcap) as Hrun.
  pose proof (issue_run rt this ForPasswordReset
                (Build_IssueReads (read_now env) (read_today env)
                   (read_Math_random env) (read_Date_now env) None)
                phone s u Hfind eq_refl Hint Hcap) as Hok.
  simpl issue in Hrun, Hok.
  unfold issue_completion in Hrun. rewrite Hsms in Hrun.
  eexists. eexists.
  split; [exact Hrun |].
  split; [apply (find_after_issue (where_phone phone) ForPasswordReset env u);
          exact Hfind |].
  unfold row_after_reset.
  split; [destruct (daily_reset_due rt (read_today env) u); reflexivity |].
  split; [destruct (daily_reset_due rt (read_today env) u); reflexivity |].
  split; [destruct (daily_reset_due rt (read_today env) u); reflexivity |].
  split; [destruct (daily_reset_due rt (read_today env) u); reflexivity |].
  split; [reflexivity |].
  rewrite Hok. reflexivity.
Qed.

(** C5.  The two issue methods use one pair of rate-limit columns.  After an
    issue for either purpose has passed its guards, the identity carries the
    time of that request and a count one above the count read; an issue for
    either purpose (the same or the other) asked less than the minimum
    interval later is rejected with the wait message, and one asked later is
    rejected by the daily cap as soon as that count has reached it. *)
Theorem C5_rate_limit_is_per_identity
    (p1 p2 : Purpose) (env1 env2 : IssueReads) (key1 key2 : string)
    (s : World) (u : User) :
  find (selects (issue_where p1 key1)) (users s) = Some u ->
  find (selects (issue_where p2 key2)) (users s) = Some u ->
  Prisma.isPhoneVerified u = false ->
  within_min_interval this (read_now env1) u = false ->
  otpRequestCount u < AuthService.otpDailyLimit this ->
  let s1 := snd (issue rt this p1 env1 key1 s) in
  exists u1 : User,
    (read_sms_failure env1 = None ->
     fst (issue rt this p1 env1 key1 s) = Return tt) /\
    find (selects (issue_where p2 key2)) (users s1) = Some u1 /\
    lastOtpRequestTime u1 = Some (read_now env1) /\
    otpRequestCount u1 = otpRequestCount u + 1 /\
    (read_now env2 - read_now env1 <
       AuthService.otpMinIntervalMinutes this * (1000 * 60) ->
     issue rt this p2 env2 key2 s1 =
     (Throw (BadRequestException
               (AuthService.wait_message
                  (Qceiling
                     (inject_Z (AuthService.otpMinIntervalMinutes this)
                      - AuthService.minutesSinceLastRequest
                          (read_now env2) (read_now env1))))), s1)) /\
    (AuthService.otpMinIntervalMinutes this * (1000 * 60) <=
       read_now env2 - read_now env1 ->
     AuthService.otpDailyLimit this <= otpRequestCount u + 1 ->
     fst (issue rt this p2 env2 key2 s1) =
     Throw (BadRequestException
              (AuthService.limit_message (AuthService.otpDailyLimit this)))).
Proof.
  intros Hfind1 Hfind2 Hver Hint Hcap s1.
  assert (Hblk1 : issue_blocked p1 u = false) by (destruct p1; [exact Hver | reflexivity]).
  pose proof (issue_run rt this p1 env1 key1 s u Hfind1 Hblk1 Hint Hcap) as Hrun.
  set (u1 := write (issue_data this p1 env1 u)
                   (row_after_reset rt (read_today env1) u)).
  assert (Hfind' : find (selects (issue_where p2 key2)) (users s1) = Some u1).
  { unfold s1. rewrite Hrun. simpl snd. simpl users.
    apply find_after_issue. exact Hfind2. }
  destruct (issued_row_rate_limit p1 env1 u) as (Hlast & Hcount).
  fold u1 in Hlast, Hcount.
  assert (Hblk2 : issue_blocked p2 u1 = false).
  { destruct p2; [| reflexivity]. simpl. unfold u1.
    rewrite issued_row_flag. exact Hver. }
  exists u1.
  split.
  { intro Hsms. rewrite Hrun. simpl fst.
    unfold issue_completion. now rewrite Hsms. }
  split; [exact Hfind' |]. split; [exact Hlast |]. split; [exact Hcount |].
  split.
  - intro Hlt.
    apply (issue_within_interval rt this p2 env2 key2 s1 u1 (read_now env1)
             Hfind' Hblk2 Hlast Hlt).
  - intros Hge Hfull.
    assert (Hint2 : within_min_interval this (read_now env2) u1 = false).
    { unfold within_min_interval. rewrite Hlast.
      apply not_true_is_false. intro Hq. apply Qltb_minutes in Hq. lia. }
    rewrite (issue_over_daily_limit rt this p2 env2 key2 s1 u1 Hfind' Hblk2 Hint2).
    + reflexivity.
    + rewrite Hcount. exact Hfull.
Qed.

End IssueProperties.

(** C1, at the input where the code departs from it.  Alice made her last
    request at noon yesterday and asks again at noon today (limit 3).
    - With 3 requests yesterday, the reset writes 0 to the table, and the
      request is still rejected by the daily cap: the cap is checked on the
      count read before the reset.
    - With 2 requests yesterday, the request passes and stores 3, the count
      read plus one, not 1.
    Both issue methods behave so. *)
Theorem C1_daily_reset_is_not_seen_by_the_cap_check :
  AuthService.generatePasswordResetOTP rt0 this0 reads_today alice_phone
    (world_of [alice_after 3]) =
  (Throw (BadRequestException
            "You have exceeded the maximum number of OTP requests (3) for today"),
   world_of [write [otpRequestCount_is 0] (alice_after 3)])
  /\
  AuthService.generatePhoneVerificationOTP rt0 this0 reads_today "u-1"
    (world_of [alice_after 3]) =
  (Throw (BadRequestException
            "You have exceeded the maximum number of OTP requests (3) for today"),
   world_of [write [otpRequestCount_is 0] (alice_after 3)])
  /\
  (let s' := snd (AuthService.generatePasswordResetOTP rt0 this0 reads_today
                    alice_phone (world_of [alice_after 2])) in
   option_map otpRequestCount (find (selects (where_phone alice_phone)) (users s'))
   = Some 3)
  /\
  (let s' := snd (AuthService.generatePhoneVerificationOTP rt0 this0 reads_today
                    "u-1" (world_of [alice_after 2])) in
   option_map otpRequestCount (find (selects (where_id "u-1")) (users s'))
   = Some 3).
Proof. repeat split; vm_compute; reflexivity. Qed.

(** * The statements at concrete inputs *)

(** C2 fails as stated: Alice's phone code expires at noon, and a consume at
    noon sharp with the right code is accepted, not rejected as expired.  So
    is a reset by code at the expiry of the reset code. *)
Lemma C2_counterexample_accepted_at_expiry :
  phoneVerificationOTPExpires alice_with_phone_code = Some today_noon /\
  fst (AuthService.verifyPhone today_noon alice_phone "424242"
         (world_of [alice_with_phone_code])) = Return tt /\
  fst (AuthService.verifyPhone today_noon alice_phone "424242"
         (world_of [alice_with_phone_code])) <>
  Throw (BadRequestException "OTP has expired. Please request a new one") /\
  resetPasswordOTPExpires alice_with_reset_code_and_token = Some today_noon /\
  fst (AuthService.resetPasswordWithOTP rt0 today_noon alice_phone "424242"
         "new-secret" (world_of [alice_with_reset_code_and_token])) = Return tt.
Proof.
  split; [reflexivity |]. split; [reflexivity |].
  split; [intro H; vm_compute in H; discriminate H |].
  split; reflexivity.
Qed.

(** C2 on Alice's phone code: one millisecond after noon it has expired, at noon
    it is accepted. *)
Lemma C2_witness_expiry_boundary :
  find (selects (slot_where PhoneVerification alice_phone))
       (users (world_of [alice_with_phone_code])) = Some alice_with_phone_code /\
  slot_verified PhoneVerification alice_with_phone_code = false /\
  slot_code PhoneVerification alice_with_phone_code = Some "424242" /\
  "424242" <> EmptyString /\
  slot_expires PhoneVerification alice_with_phone_code = Some today_noon /\
  (fst (consume rt0 PhoneVerification (today_noon + 1) alice_phone "424242" "unused"
          (world_of [alice_with_phone_code])) =
   Throw (BadRequestException msg_expired) <-> today_noon < today_noon + 1) /\
  fst (consume rt0 PhoneVerification today_noon alice_phone "424242" "unused"
         (world_of [alice_with_phone_code])) = Return tt.
Proof.
  split; [reflexivity |]. split; [reflexivity |]. split; [reflexivity |].
  split; [discriminate |]. split; [reflexivity |].
  apply (C2_expired_iff_strictly_after_expiry rt0 PhoneVerification
           (today_noon + 1) alice_phone "424242" "unused"
           (world_of [alice_with_phone_code]) alice_with_phone_code
           "424242" today_noon);
    try reflexivity.
  discriminate.
Defined.

(** C3 fails as stated: Alice holds a reset code and a reset token.  After
    she resets her password with the code, the token is still stored, and a
    reset by that token still goes through. *)
Lemma C3_counterexample_token_survives_reset_by_code :
  let s' := snd (AuthService.resetPasswordWithOTP rt0 today_noon alice_phone
                   "424242" "new-secret"
                   (world_of [alice_with_reset_code_and_token])) in
  fst (AuthService.resetPasswordWithOTP rt0 today_noon alice_phone
         "424242" "new-secret"
         (world_of [alice_with_reset_code_and_token])) = Return tt /\
  option_map resetPasswordToken
    (find (selects (where_phone alice_phone)) (users s')) = Some (Some "c0ffee") /\
  option_map resetPasswordExpires
    (find (selects (where_phone alice_phone)) (users s')) = Some (Some today_one) /\
  fst (AuthService.resetPassword rt0 today_noon "c0ffee" "other-secret" s') =
  Return tt.
Proof. repeat split. Qed.

(** C3 on Alice holding both credentials: the reset by code clears the code
    and keeps the token. *)
Lemma C3_witness_reset_by_code_and_by_token :
  find (selects (where_phone alice_phone))
       (users (world_of [alice_with_reset_code_and_token])) =
    Some alice_with_reset_code_and_token /\
  resetPasswordOTP alice_with_reset_code_and_token = Some "424242" /\
  "424242" <> EmptyString /\
  resetPasswordOTPExpires alice_with_reset_code_and_token = Some today_noon /\
  today_noon <= today_noon /\
  find (selects_reset_token "c0ffee" today_noon)
       (users (world_of [alice_with_reset_code_and_token])) =
    Some alice_with_reset_code_and_token /\
  (exists (s' : World) (u' : User),
     AuthService.resetPasswordWithOTP rt0 today_noon alice_phone "424242"
       "new-secret" (world_of [alice_with_reset_code_and_token]) = (Return tt, s') /\
     find (selects (where_phone alice_phone)) (users s') = Some u' /\
     resetPasswordOTP u' = None /\
     resetPasswordToken u' = Some "c0ffee").
Proof.
  split; [reflexivity |]. split; [reflexivity |]. split; [discriminate |].
  split; [reflexivity |]. split; [apply Z.le_refl |]. split; [reflexivity |].
  destruct (C3_reset_clears_the_credential_used rt0 today_noon alice_phone
              "new-secret" "c0ffee" (world_of [alice_with_reset_code_and_token])
              alice_with_reset_code_and_token "424242" today_noon
              (world_of [alice_with_reset_code_and_token])
              alice_with_reset_code_and_token
              eq_refl eq_refl ltac:(discriminate) eq_refl (Z.le_refl _) eq_refl)
    as [(s' & u' & Hrun & _ & Hfind & _ & Hotp & _ & Htok & _) _].
  exists s', u'. repeat split; assumption.
Defined.

(** C4 fails as stated: once Alice has verified her phone with her code, a
    second consume with the same code is rejected because the phone is
    already verified, not because no code is found. *)
Lemma C4_counterexample_second_verify_says_already_verified :
  let s' := snd (AuthService.verifyPhone today_noon alice_phone "424242"
                   (world_of [alice_with_phone_code])) in
  fst (AuthService.verifyPhone today_noon alice_phone "424242"
         (world_of [alice_with_phone_code])) = Return tt /\
  fst (AuthService.verifyPhone today_noon alice_phone "424242" s') =
  Throw (BadRequestException "Phone number is already verified") /\
  fst (AuthService.verifyPhone today_noon alice_phone "424242" s') <>
  Throw (BadRequestException "No OTP found. Please request a new one").
Proof.
  split; [reflexivity |]. split; [reflexivity |].
  intro H. vm_compute in H. discriminate H.
Qed.

(** C4 on Alice's reset code: used once, then no code is found. *)
Lemma C4_witness_reset_code_single_use :
  find (selects (slot_where ResetPassword alice_phone))
       (users (world_of [alice_with_reset_code_and_token])) =
    Some alice_with_reset_code_and_token /\
  slot_verified ResetPassword alice_with_reset_code_and_token = false /\
  slot_code ResetPassword alice_with_reset_code_and_token = Some "424242" /\
  "424242" <> EmptyString /\
  slot_expires ResetPassword alice_with_reset_code_and_token = Some today_noon /\
  today_noon - 1 <= today_noon /\
  (exists s' : World,
     consume rt0 ResetPassword (today_noon - 1) alice_phone "424242" "new-secret"
       (world_of [alice_with_reset_code_and_token]) = (Return tt, s') /\
     consume rt0 ResetPassword today_noon alice_phone "424242" "new-secret" s' =
     (Throw (BadRequestException msg_no_otp), s')).
Proof.
  split; [reflexivity |]. split; [reflexivity |]. split; [reflexivity |].
  split; [discriminate |]. split; [reflexivity |].
  split; [apply Z.le_pred_l |].
  destruct (C4_consume_is_single_use rt0 ResetPassword (today_noon - 1)
              alice_phone "new-secret" (world_of [alice_with_reset_code_and_token])
              alice_with_reset_code_and_token "424242" today_noon
              eq_refl eq_refl eq_refl ltac:(discriminate) eq_refl (Z.le_pred_l _))
    as (s' & u' & Hrun & _ & _ & _ & _ & _ & _ & Hagain).
  exists s'. split; [exact Hrun | apply Hagain].
Defined.

(** C5 on Alice: a phone code at noon, then a reset code asked two minutes
    later, which must wait three more minutes. *)
Lemma C5_witness_reset_code_right_after_phone_code :
  find (selects (issue_where ForPhoneVerification "u-1")) (users (world_of [alice])) =
    Some alice /\
  find (selects (issue_where ForPasswordReset alice_phone)) (users (world_of [alice])) =
    Some alice /\
  Prisma.isPhoneVerified alice = false /\
  within_min_interval this0 (read_now reads_today) alice = false /\
  otpRequestCount alice < AuthService.otpDailyLimit this0 /\
  (let s1 := snd (AuthService.generatePhoneVerificationOTP rt0 this0 reads_today
                    "u-1" (world_of [alice])) in
   fst (AuthService.generatePhoneVerificationOTP rt0 this0 reads_today
          "u-1" (world_of [alice])) = Return tt /\
   AuthService.generatePasswordResetOTP rt0 this0 reads_two_minutes_later
     alice_phone s1 =
   (Throw (BadRequestException
             "Please wait 3 minute(s) before requesting another OTP"), s1)).
Proof.
  split; [reflexivity |]. split; [reflexivity |]. split; [reflexivity |].
  split; [reflexivity |]. split; [reflexivity |].
  destruct (C5_rate_limit_is_per_identity rt0 this0
              ForPhoneVerification ForPasswordReset
              reads_today reads_two_minutes_later "u-1" alice_phone
              (world_of [alice]) alice
              eq_refl eq_refl eq_refl eq_refl eq_refl)
    as (u1 & Hok & _ & _ & _ & Hwait & _).
  split; [exact (Hok eq_refl) | exact (Hwait eq_refl)].
Defined.

(** C6 with Alice as the only identity, an email nobody has, and a mail
    transport that refuses the connection: the unregistered email resolves,
    Alice's email throws, with her token stored. *)
Lemma C6_witness_transport_down :
  find (selects (where_email "nobody@example.com")) (users (world_of [alice])) = None /\
  find (selects (where_email alice_email)) (users (world_of [alice])) = Some alice /\
  AuthService.generateResetToken "c0ffee" today_noon
    (Some (CollaboratorError "connect ECONNREFUSED")) "nobody@example.com"
    (world_of [alice]) = (Return tt, world_of [alice]) /\
  AuthService.generateResetToken "c0ffee" today_noon
    (Some (CollaboratorError "connect ECONNREFUSED")) alice_email
    (world_of [alice]) =
  (Throw (CollaboratorError "connect ECONNREFUSED"),
   world_of [write [ resetPasswordToken_is (Some "c0ffee");
                     resetPasswordExpires_is (Some today_one) ] alice]) /\
  fst (AuthService.generateResetToken "c0ffee" today_noon
         (Some (CollaboratorError "connect ECONNREFUSED")) alice_email
         (world_of [alice])) <>
  fst (AuthService.generateResetToken "c0ffee" today_noon
         (Some (CollaboratorError "connect ECONNREFUSED")) "nobody@example.com"
         (world_of [alice])).
Proof.
  split; [reflexivity |]. split; [reflexivity |].
  destruct (C6_mail_failure_reveals_registration "c0ffee" today_noon
              (Some (CollaboratorError "connect ECONNREFUSED"))
              "nobody@example.com" alice_email (world_of [alice]) alice
              eq_refl eq_refl) as (Hsilent & _ & Hsame).
  split; [exact Hsilent |]. split; [vm_compute; reflexivity |].
  intro H. apply Hsame in H. discriminate H.
Defined.

(** C7 on Alice's token at its deadline, one o'clock: it is no longer
    accepted. *)
Lemma C7_witness_expired_and_unknown_token :
  (forall u : User,
     In u (users (world_of [alice_with_reset_code_and_token])) ->
     ~ (resetPasswordToken u = Some "c0ffee" /\
        exists e, resetPasswordExpires u = Some e /\ today_one < e)) /\
  AuthService.resetPassword rt0 today_one "c0ffee" "new-secret"
    (world_of [alice_with_reset_code_and_token]) =
  (Throw (BadRequestException "Invalid or expired reset token"),
   world_of [alice_with_reset_code_and_token]).
Proof.
  assert (Hnone : forall u : User,
     In u (users (world_of [alice_with_reset_code_and_token])) ->
     ~ (resetPasswordToken u = Some "c0ffee" /\
        exists e, resetPasswordExpires u = Some e /\ today_one < e)).
  { intros u [<- | []] [_ (e & He & Hlt)].
    simpl in He. injection He as <-. exact (Z.lt_irrefl _ Hlt). }
  split; [exact Hnone |].
  exact (C7_resetPassword_bad_token_uniform rt0 today_one "c0ffee" "new-secret"
           (world_of [alice_with_reset_code_and_token]) Hnone).
Defined.

(** C8 on Alice, active, with the right password and an unverified phone. *)
Lemma C8_witness_right_password_unverified_phone :
  find (selects (where_phone alice_phone)) (users (world_of [alice])) = Some alice /\
  Prisma.isPhoneVerified alice = false /\
  bcrypt_compare rt0 "old-secret" (Prisma.password alice) = true /\
  Prisma.isActive alice = true /\
  AuthService.logIn rt0 alice_phone "old-secret" (world_of [alice]) =
  (Throw (ForbiddenException "Please verify your phone number before logging in"),
   world_of [alice]).
Proof.
  split; [reflexivity |]. split; [reflexivity |]. split; [reflexivity |].
  split; [reflexivity |].
  destruct (C8_logIn_unverified_phone_forbidden rt0 (world_of [alice]) alice_phone
              "old-secret" alice eq_refl eq_refl) as (Hforbidden & _).
  exact (Hforbidden eq_refl eq_refl).
Defined.

(** C9 on Alice's first request with the gateway down. *)
Lemma C9_witness_gateway_down :
  find (selects (where_phone alice_phone)) (users (world_of [alice])) = Some alice /\
  within_min_interval this0 (read_now reads_today_sms_down) alice = false /\
  otpRequestCount alice < AuthService.otpDailyLimit this0 /\
  read_sms_failure reads_today_sms_down = Some (CollaboratorError "gateway timeout") /\
  (exists (s' : World) (u' : User),
     AuthService.generatePasswordResetOTP rt0 this0 reads_today_sms_down
       alice_phone (world_of [alice]) =
     (Throw (BadRequestException "Failed to send OTP. Please try again later."), s') /\
     find (selects (where_phone alice_phone)) (users s') = Some u' /\
     resetPasswordOTP u' = Some "325000" /\
     otpRequestCount u' = 1).
Proof.
  split; [reflexivity |]. split; [reflexivity |]. split; [reflexivity |].
  split; [reflexivity |].
  destruct (C9_sms_failure_does_not_roll_back rt0 this0 reads_today_sms_down
              alice_phone (world_of [alice]) alice
              (CollaboratorError "gateway timeout")
              eq_refl eq_refl eq_refl eq_refl)
    as (s' & u' & Hrun & Hfind & Hotp & _ & _ & Hcount & _).
  exists s', u'. repeat split; assumption.
Defined.



(** * Further properties of the service *)

(** ** Sign-in and session validation *)

Section Sessions.

Variable rt : Runtime.

(** Sign-in of an active, verified identity with the right password. *)
Lemma logIn_run (s : World) (phone password : string) (u : User) :
  find (selects (where_phone phone)) (users s) = Some u ->
  bcrypt_compare rt password (Prisma.password u) = true ->
  Prisma.isActive u = true ->
  Prisma.isPhoneVerified u = true ->
  AuthService.logIn rt phone password s = (Return (login_response rt u), s).
Proof.
  intros Hfind Hpw Hact Hver.
  unfold AuthService.logIn, await, PrismaService.findUnique, login_response,
    login_claims.
  rewrite Hfind, Hpw, Hact, Hver. reflexivity.
Qed.

(** X1.  [logIn] never writes, and it hands out a token exactly when the
    phone is known, the password matches, the account is active and the
    phone is verified; the response is then the token signed over the id,
    email, phone and role of that identity, with its public columns. *)
Theorem X1_logIn_grants_exactly_when (s : World) (phone password : string) :
  snd (AuthService.logIn rt phone password s) = s /\
  forall r : LoginResponse,
    fst (AuthService.logIn rt phone password s) = Return r <->
    exists u : User,
      find (selects (where_phone phone)) (users s) = Some u /\
      bcrypt_compare rt password (Prisma.password u) = true /\
      Prisma.isActive u = true /\
      Prisma.isPhoneVerified u = true /\
      r = login_response rt u.
Proof.
  unfold AuthService.logIn, await, PrismaService.findUnique.
  destruct (find (selects (where_phone phone)) (users s)) as [u |] eqn:Hfind.
  - destruct (bcrypt_compare rt password (Prisma.password u)) eqn:Hpw;
      destruct (Prisma.isActive u) eqn:Hact;
      destruct (Prisma.isPhoneVerified u) eqn:Hver; simpl;
      (split; [reflexivity |]); intro r; split;
      try (intro H; discriminate H);
      try (intros (u' & Hu' & Hpw' & Hact' & Hver' & _);
           injection Hu' as <-; congruence).
    + intro H. injection H as <-. exists u.
      unfold login_response, login_claims. rewrite Hact, Hver. auto.
    + intros (u' & Hu' & _ & _ & _ & ->). injection Hu' as <-.
      unfold login_response, login_claims. now rewrite Hact, Hver.
  - simpl. split; [reflexivity |]. intro r. split; [intro H; discriminate H |].
    intros (u' & Hu' & _). discriminate Hu'.
Qed.

Variable findUnique_undefined : Completion (option User).

(** [validate] looks the identity up on every request and goes by
    [isActive] alone: a token of a deactivated account is rejected as
    Unauthorized 'User account is inactive', a token of an active account
    is accepted whether or not the phone is verified.  The password is not
    among the columns returned, and nothing is written. *)
Lemma validate_goes_by_live_isActive
    (s : World) (payload : JwtPayload.t) (k : string) (u : User) :
  JwtStrategy.or_else (JwtPayload.sub payload) (JwtPayload.id payload) = Some k ->
  find (selects (where_id k)) (users s) = Some u ->
  (Prisma.isActive u = false ->
   JwtStrategy.validate findUnique_undefined payload s =
   (Throw (UnauthorizedException "User account is inactive"), s))
  /\
  (Prisma.isActive u = true ->
   JwtStrategy.validate findUnique_undefined payload s =
   (Return (JwtStrategy.select u), s)).
Proof.
  intros Hkey Hfind.
  unfold JwtStrategy.validate. rewrite Hkey.
  unfold await, JwtStrategy.findUnique_id, PrismaService.findUnique.
  rewrite Hfind.
  split; intros ->; reflexivity.
Qed.

(** X2.  The token [logIn] hands out authenticates its owner: [validate] on
    the payload signed at sign-in returns the identity with the id, email,
    phone and role of the sign-in response. *)
Theorem X2_logIn_token_validates
    (s : World) (phone password : string) (u : User) :
  find (selects (where_phone phone)) (users s) = Some u ->
  find (selects (where_id (Prisma.id u))) (users s) = Some u ->
  Prisma.id u <> EmptyString ->
  bcrypt_compare rt password (Prisma.password u) = true ->
  Prisma.isActive u = true ->
  Prisma.isPhoneVerified u = true ->
  exists (r : LoginResponse) (v : ValidatedUser.t),
    AuthService.logIn rt phone password s = (Return r, s) /\
    access_token r = jwtService_sign rt (login_claims u) /\
    JwtStrategy.validate findUnique_undefined (decoded (login_claims u)) s =
    (Return v, s) /\
    ValidatedUser.id v = LoginUser.id (user r) /\
    ValidatedUser.email v = LoginUser.email (user r) /\
    ValidatedUser.phone v = LoginUser.phone (user r) /\
    ValidatedUser.role v = LoginUser.role (user r) /\
    ValidatedUser.isActive v = true.
Proof.
  intros Hphone Hid Hne Hpw Hact Hver.
  exists (login_response rt u), (JwtStrategy.select u).
  split.
  { now apply logIn_run. }
  split; [reflexivity |].
  split.
  { apply String.eqb_neq in Hne.
    unfold JwtStrategy.validate, decoded, JwtStrategy.or_else, login_claims,
      truthy, await, JwtStrategy.findUnique_id, PrismaService.findUnique.
    cbn [JwtPayload.sub JwtPayload.id JwtClaims.sub].
    rewrite Hne. cbn [negb]. rewrite Hid, Hact. reflexivity. }
  repeat split. exact Hact.
Qed.

(** X3.  Verifying the phone is what opens sign-in: for an active identity
    with the right password, [logIn] is Forbidden before [verifyPhone] has
    accepted the code, and hands out a token after. *)
Theorem X3_verifyPhone_opens_logIn
    (s : World) (date : Z) (phone password : string) (u : User)
    (code : string) (e : Z) :
  find (selects (where_phone phone)) (users s) = Some u ->
  Prisma.isPhoneVerified u = false ->
  phoneVerificationOTP u = Some code ->
  code <> EmptyString ->
  phoneVerificationOTPExpires u = Some e ->
  date <= e ->
  bcrypt_compare rt password (Prisma.password u) = true ->
  Prisma.isActive u = true ->
  let s' := snd (AuthService.verifyPhone date phone code s) in
  AuthService.logIn rt phone password s =
  (Throw (ForbiddenException "Please verify your phone number before logging in"), s)
  /\
  fst (AuthService.verifyPhone date phone code s) = Return tt /\
  exists r : LoginResponse,
    AuthService.logIn rt phone password s' = (Return r, s') /\
    LoginUser.id (user r) = Prisma.id u /\
    LoginUser.isPhoneVerified (user r) = true.
Proof.
  intros Hfind Hver Hcode Hne Hexp Hdate Hpw Hact s'.
  split.
  { unfold AuthService.logIn, await, PrismaService.findUnique.
    now rewrite Hfind, Hpw, Hact, Hver. }
  pose proof (consume_outcome rt PhoneVerification date phone code EmptyString
                s u code e Hfind Hver Hcode Hexp) as Hrun.
  apply String.eqb_neq in Hne.
  rewrite Hne, String.eqb_refl in Hrun.
  replace (date >? e) with false in Hrun
    by (symmetry; rewrite Z.gtb_ltb; apply Z.ltb_ge; lia).
  simpl in Hrun.
  unfold s'. rewrite Hrun. simpl fst. simpl snd.
  split; [reflexivity |].
  set (data := [isPhoneVerified_is true; phoneVerificationOTP_is None;
                phoneVerificationOTPExpires_is None]).
  exists (login_response rt (write data u)).
  split; [| split; reflexivity].
  apply logIn_run.
  - simpl users. apply (find_after_update (where_phone phone) (users s) u data Hfind).
  - exact Hpw.
  - exact Hact.
  - reflexivity.
Qed.

End Sessions.

(** ** The life of a code: issued, consumed, gone *)

Lemma toString_not_empty (n : Z) : toString n <> EmptyString.
Proof.
  unfold toString.
  destruct (Z.to_int n) as [d | d]; simpl; [| discriminate].
  destruct d; simpl; discriminate.
Qed.

Section Lifecycle.

Variable rt : Runtime.
Variable this : AuthService.t.

(** The row an issue leaves, seen through the slot of its purpose. *)
Lemma issued_row_slot (p : Purpose) (env : IssueReads) (u : User) :
  let u1 := write (issue_data this p env u) (row_after_reset rt (read_today env) u) in
  slot_code (purpose_slot p) u1 = Some (AuthService.draw_otp (read_Math_random env)) /\
  slot_expires (purpose_slot p) u1 = Some (issue_expiry this env) /\
  slot_verified (purpose_slot p) u1 = issue_blocked p u /\
  Prisma.password u1 = Prisma.password u /\
  Prisma.isActive u1 = Prisma.isActive u /\
  Prisma.isPhoneVerified u1 = Prisma.isPhoneVerified u.
Proof.
  unfold row_after_reset, issue_expiry.
  destruct p; destruct (daily_reset_due rt (read_today env) u); repeat split.
Qed.

(** X4.  A code that an issue has stored is the code the matching consume
    accepts, up to and including its expiry, whatever the gateway did with
    the message: the consume returns.  After the expiry the same code is
    rejected as expired, and any other code is rejected as invalid; both
    rejections leave the world as it was. *)
Theorem X4_issued_code_is_accepted_until_expiry
    (p : Purpose) (env : IssueReads) (key1 key2 newPassword : string)
    (date : Z) (s : World) (u : User) :
  find (selects (issue_where p key1)) (users s) = Some u ->
  find (selects (slot_where (purpose_slot p) key2)) (users s) = Some u ->
  issue_blocked p u = false ->
  within_min_interval this (read_now env) u = false ->
  otpRequestCount u < AuthService.otpDailyLimit this ->
  let s1 := snd (issue rt this p env key1 s) in
  let otp := AuthService.draw_otp (read_Math_random env) in
  (date <= issue_expiry this env ->
   fst (consume rt (purpose_slot p) date key2 otp newPassword s1) = Return tt)
  /\
  (issue_expiry this env < date ->
   consume rt (purpose_slot p) date key2 otp newPassword s1 =
   (Throw (BadRequestException msg_expired), s1))
  /\
  (forall wrong : string,
     wrong <> otp ->
     date <= issue_expiry this env ->
     consume rt (purpose_slot p) date key2 wrong newPassword s1 =
     (Throw (BadRequestException msg_invalid), s1)).
Proof.
  intros Hfind1 Hfind2 Hblk Hint Hcap s1 otp.
  pose proof (issue_run rt this p env key1 s u Hfind1 Hblk Hint Hcap) as Hrun.
  set (u1 := write (issue_data this p env u)
                   (row_after_reset rt (read_today env) u)).
  assert (Hfind' : find (selects (slot_where (purpose_slot p) key2)) (users s1) =
                   Some u1).
  { unfold s1. rewrite Hrun. simpl snd. simpl users.
    apply find_after_issue. exact Hfind2. }
  destruct (issued_row_slot p env u) as (Hcode & Hexp & Hver & _).
  fold u1 in Hcode, Hexp, Hver. rewrite Hblk in Hver.
  assert (Hne : String.eqb otp EmptyString = false)
    by (apply String.eqb_neq, toString_not_empty).
  split; [| split].
  - intro Hdate.
    rewrite (consume_outcome rt (purpose_slot p) date key2 otp newPassword s1 u1
               otp (issue_expiry this env) Hfind' Hver Hcode Hexp).
    rewrite Hne, String.eqb_refl.
    replace (date >? issue_expiry this env) with false
      by (symmetry; rewrite Z.gtb_ltb; apply Z.ltb_ge; lia).
    reflexivity.
  - intro Hdate.
    rewrite (consume_outcome rt (purpose_slot p) date key2 otp newPassword s1 u1
               otp (issue_expiry this env) Hfind' Hver Hcode Hexp).
    rewrite Hne.
    replace (date >? issue_expiry this env) with true
      by (symmetry; rewrite Z.gtb_ltb; apply Z.ltb_lt; lia).
    reflexivity.
  - intros wrong Hwrong Hdate.
    rewrite (consume_outcome rt (purpose_slot p) date key2 wrong newPassword s1 u1
               otp (issue_expiry this env) Hfind' Hver Hcode Hexp).
    rewrite Hne.
    replace (date >? issue_expiry this env) with false
      by (symmetry; rewrite Z.gtb_ltb; apply Z.ltb_ge; lia).
    replace (String.eqb otp wrong) with false
      by (symmetry; apply String.eqb_neq; congruence).
    reflexivity.
Qed.

(** X5.  Forgotten password, end to end: a reset code is issued, the reset
    by that code stores the hash of the new password, and sign-in then goes
    by the new password.  A password that does not match the new hash, the
    old one included, is Unauthorized. *)
Theorem X5_reset_by_code_then_logIn
    (env : IssueReads) (phone newPassword : string) (date : Z)
    (s : World) (u : User) :
  find (selects (where_phone phone)) (users s) = Some u ->
  within_min_interval this (read_now env) u = false ->
  otpRequestCount u < AuthService.otpDailyLimit this ->
  date <= issue_expiry this env ->
  Prisma.isActive u = true ->
  Prisma.isPhoneVerified u = true ->
  bcrypt_compare rt newPassword (bcrypt_hash rt newPassword 10) = true ->
  let s1 := snd (AuthService.generatePasswordResetOTP rt this env phone s) in
  let otp := AuthService.draw_otp (read_Math_random env) in
  let s2 := snd (AuthService.resetPasswordWithOTP rt date phone otp newPassword s1) in
  fst (AuthService.resetPasswordWithOTP rt date phone otp newPassword s1) = Return tt /\
  (exists r : LoginResponse,
     AuthService.logIn rt phone newPassword s2 = (Return r, s2) /\
     LoginUser.id (user r) = Prisma.id u) /\
  (forall other : string,
     bcrypt_compare rt other (bcrypt_hash rt newPassword 10) = false ->
     AuthService.logIn rt phone other s2 =
     (Throw (UnauthorizedException "Invalid credentials"), s2)).
Proof.
  intros Hfind Hint Hcap Hdate Hact Hver Hbcrypt s1 otp s2.
  pose proof (issue_run rt this ForPasswordReset env phone s u
                Hfind eq_refl Hint Hcap) as Hrun.
  simpl issue in Hrun.
  set (u1 := write (issue_data this ForPasswordReset env u)
                   (row_after_reset rt (read_today env) u)).
  assert (Hfind1 : find (selects (where_phone phone)) (users s1) = Some u1).
  { unfold s1. rewrite Hrun. simpl snd. simpl users.
    apply (find_after_issue rt this (where_phone phone) ForPasswordReset).
    exact Hfind. }
  destruct (issued_row_slot ForPasswordReset env u)
    as (Hcode & Hexp & _ & _ & Hact1 & Hver1).
  fold u1 in Hcode, Hexp, Hact1, Hver1. simpl in Hcode, Hexp.
  destruct (resetPasswordWithOTP_run rt date phone newPassword s1 u1 otp
              (issue_expiry this env) Hfind1 Hcode
              (toString_not_empty _) Hexp Hdate) as (Hreset & Hfind2).
  set (u2 := write (slot_data rt ResetPassword newPassword) u1) in *.
  assert (Hfind2' : find (selects (where_phone phone)) (users s2) = Some u2)
    by (unfold s2; rewrite Hreset; exact Hfind2).
  split; [now rewrite Hreset |].
  clearbody s2.
  assert (Hkeys : Prisma.id u2 = Prisma.id u).
  { unfold u2, u1. rewrite (proj1 (write_keeps_keys _ _)).
    rewrite (proj1 (write_keeps_keys _ _)). apply row_after_reset_id. }
  split.
  - exists (login_response rt u2). split; [| exact Hkeys].
    apply logIn_run.
    + exact Hfind2'.
    + exact Hbcrypt.
    + change (Prisma.isActive u1 = true). congruence.
    + change (Prisma.isPhoneVerified u1 = true). congruence.
  - intros other Hother.
    unfold AuthService.logIn, await, PrismaService.findUnique.
    rewrite Hfind2'.
    change (Prisma.password u2) with (bcrypt_hash rt newPassword 10).
    now rewrite Hother.
Qed.

(** X6.  When the gateway rejects the message of
    [generatePhoneVerificationOTP], its exception reaches the caller as it
    is (the reset method replaces it by a BadRequest of its own), no message
    is recorded as sent, and the code stays stored with the request
    counted. *)
Theorem X6_verification_issue_passes_gateway_error_on
    (env : IssueReads) (userId : string) (s : World) (u : User) (e : Exception) :
  find (selects (where_id userId)) (users s) = Some u ->
  Prisma.isPhoneVerified u = false ->
  within_min_interval this (read_now env) u = false ->
  otpRequestCount u < AuthService.otpDailyLimit this ->
  read_sms_failure env = Some e ->
  exists (s' : World) (u' : User),
    AuthService.generatePhoneVerificationOTP rt this env userId s = (Throw e, s') /\
    outbox s' = outbox s /\
    find (selects (where_id userId)) (users s') = Some u' /\
    phoneVerificationOTP u' = Some (AuthService.draw_otp (read_Math_random env)) /\
    phoneVerificationOTPExpires u' = Some (issue_expiry this env) /\
    lastOtpRequestTime u' = Some (read_now env) /\
    otpRequestCount u' = otpRequestCount u + 1.
Proof.
  intros Hfind Hver Hint Hcap Hsms.
  pose proof (issue_run rt this ForPhoneVerification env userId s u
                Hfind Hver Hint Hcap) as Hrun.
  simpl issue in Hrun. unfold issue_completion in Hrun. rewrite Hsms in Hrun.
  destruct (issued_row_slot ForPhoneVerification env u) as (Hcode & Hexp & _).
  destruct (issued_row_rate_limit rt this ForPhoneVerification env u)
    as (Hlast & Hcount).
  eexists. eexists.
  split; [exact Hrun |]. split; [reflexivity |].
  split; [apply (find_after_issue rt this (where_id userId) ForPhoneVerification);
          exact Hfind |].
  repeat split; assumption.
Qed.

End Lifecycle.

(** ** The mailed reset token *)

Section ResetToken.

Variable rt : Runtime.

(** No row answers the query of [resetPassword]: the call is rejected and
    nothing is written. *)
Lemma resetPassword_rejects (date : Z) (token newPassword : string) (s : World) :
  find (selects_reset_token token date) (users s) = None ->
  AuthService.resetPassword rt date token newPassword s =
  (Throw (BadRequestException "Invalid or expired reset token"), s).
Proof.
  intro Hnone.
  unfold AuthService.resetPassword, await, PrismaService.findFirst.
  now rewrite Hnone.
Qed.

(** A table in which no row holds [token] has no answer to the query. *)
Lemma no_holder_no_answer (token : string) (date : Z) (rows : list User) :
  (forall r, In r rows -> resetPasswordToken r <> Some token) ->
  find (selects_reset_token token date) rows = None.
Proof.
  intro Hnone.
  destruct (find (selects_reset_token token date) rows) as [r |] eqn:Hfind;
    [| reflexivity].
  apply find_some in Hfind. destruct Hfind as [Hin Hsel].
  apply selects_reset_token_iff in Hsel. destruct Hsel as [Htok _].
  now apply Hnone in Hin.
Qed.

(** Rows rewritten with a deadline that has passed do not answer either. *)
Lemma lapsed_token_no_answer (token : string) (e date : Z) (i : string)
    (rows : list User) :
  (forall r, In r rows -> resetPasswordToken r <> Some token) ->
  e <= date ->
  find (selects_reset_token token date)
       (updated (where_id i)
          [resetPasswordToken_is (Some token); resetPasswordExpires_is (Some e)]
          rows) = None.
Proof.
  intros Hnone Hlapsed.
  induction rows as [| r rows IH]; [reflexivity |].
  simpl. destruct (String.eqb (Prisma.id r) i).
  - unfold selects_reset_token at 1. simpl.
    replace (e >? date) with false
      by (symmetry; rewrite Z.gtb_ltb; apply Z.ltb_ge; exact Hlapsed).
    rewrite andb_false_r. apply IH. intros r' Hin. apply Hnone. now right.
  - replace (selects_reset_token token date r) with false.
    + apply IH. intros r' Hin. apply Hnone. now right.
    + symmetry. apply not_true_is_false. intro Hsel.
      apply selects_reset_token_iff in Hsel. destruct Hsel as [Htok _].
      exact (Hnone r (or_introl eq_refl) Htok).
Qed.

(** The row that was given the token is the one the query returns while the
    deadline is ahead. *)
Lemma live_token_answer (token : string) (e date : Z) (u : User)
    (rows : list User) :
  find (selects (where_id (Prisma.id u))) rows = Some u ->
  (forall r, In r rows -> resetPasswordToken r <> Some token) ->
  date < e ->
  find (selects_reset_token token date)
       (updated (where_id (Prisma.id u))
          [resetPasswordToken_is (Some token); resetPasswordExpires_is (Some e)]
          rows) =
  Some (write [resetPasswordToken_is (Some token); resetPasswordExpires_is (Some e)] u).
Proof.
  intros Hfind Hnone Hlive.
  induction rows as [| r rows IH]; [discriminate Hfind |].
  simpl in Hfind |- *.
  destruct (String.eqb (Prisma.id r) (Prisma.id u)) eqn:Hid.
  - injection Hfind as ->.
    unfold selects_reset_token at 1. simpl.
    rewrite String.eqb_refl.
    replace (e >? date) with true
      by (symmetry; rewrite Z.gtb_ltb; apply Z.ltb_lt; exact Hlive).
    reflexivity.
  - replace (selects_reset_token token date r) with false.
    + apply IH; [exact Hfind |]. intros r' Hin. apply Hnone. now right.
    + symmetry. apply not_true_is_false. intro Hsel.
      apply selects_reset_token_iff in Hsel. destruct Hsel as [Htok _].
      exact (Hnone r (or_introl eq_refl) Htok).
Qed.

(** After the reset by token, no row holds the token any more. *)
Lemma token_gone_after_reset (token : string) (e : Z) (i : string) (h : string)
    (rows : list User) :
  (forall r, In r rows -> resetPasswordToken r <> Some token) ->
  forall r,
    In r (updated (where_id i)
            [password_is h; resetPasswordToken_is None; resetPasswordExpires_is None]
            (updated (where_id i)
               [resetPasswordToken_is (Some token); resetPasswordExpires_is (Some e)]
               rows)) ->
    resetPasswordToken r <> Some token.
Proof.
  intros Hnone r Hin.
  unfold updated in Hin. rewrite map_map in Hin.
  apply in_map_iff in Hin. destruct Hin as (r0 & <- & Hin0).
  simpl. destruct (String.eqb (Prisma.id r0) i) eqn:Hid; simpl.
  - rewrite Hid. simpl. discriminate.
  - rewrite Hid. now apply Hnone.
Qed.

(** X7.  The mailed token, end to end.  [generateResetToken] for a
    registered email stores the token with a deadline one hour ahead and
    completes as the mail transport does (its exception is passed on as it
    is, with the token stored all the same).  [resetPassword] with that
    token stores the new hash while the date is strictly before the
    deadline, and is rejected from the deadline on.  Once used, the token is
    rejected at any date. *)
Theorem X7_reset_token_is_good_strictly_before_deadline
    (randomBytes : string) (date_now : Z) (mail_failure : option Exception)
    (email newPassword : string) (date : Z) (s : World) (u : User) :
  find (selects (where_email email)) (users s) = Some u ->
  find (selects (where_id (Prisma.id u))) (users s) = Some u ->
  (forall r, In r (users s) -> resetPasswordToken r <> Some randomBytes) ->
  let s1 := snd (AuthService.generateResetToken randomBytes date_now
                   mail_failure email s) in
  fst (AuthService.generateResetToken randomBytes date_now mail_failure email s) =
    match mail_failure with None => Return tt | Some e => Throw e end
  /\
  (date < date_now + 60 * 60 * 1000 ->
   exists (s2 : World) (u2 : User),
     AuthService.resetPassword rt date randomBytes newPassword s1 = (Return tt, s2) /\
     find (selects (where_email email)) (users s2) = Some u2 /\
     Prisma.password u2 = bcrypt_hash rt newPassword 10 /\
     resetPasswordToken u2 = None /\
     resetPasswordExpires u2 = None /\
     forall (date' : Z) (newPassword' : string),
       AuthService.resetPassword rt date' randomBytes newPassword' s2 =
       (Throw (BadRequestException "Invalid or expired reset token"), s2))
  /\
  (date_now + 60 * 60 * 1000 <= date ->
   AuthService.resetPassword rt date randomBytes newPassword s1 =
   (Throw (BadRequestException "Invalid or expired reset token"), s1)).
Proof.
  intros Hemail Hid Hnone s1.
  set (deadline := date_now + 60 * 60 * 1000).
  set (stored := [resetPasswordToken_is (Some randomBytes);
                  resetPasswordExpires_is (Some deadline)]).
  assert (Hgen :
    AuthService.generateResetToken randomBytes date_now mail_failure email s =
    (match mail_failure with None => Return tt | Some e => Throw e end,
     Build_World (updated (where_id (Prisma.id u)) stored (users s))
       (match mail_failure with
        | None => outbox s ++ [mail_ResetToken email randomBytes (Prisma.firstName u)]
        | Some _ => outbox s
        end))).
  { unfold AuthService.generateResetToken, await, PrismaService.findUnique.
    rewrite Hemail.
    rewrite (update_row_read _ _ _ _ Hemail).
    unfold MailService.sendResetToken, dispatch.
    destruct mail_failure; reflexivity. }
  assert (Hrows1 : users s1 = updated (where_id (Prisma.id u)) stored (users s))
    by (unfold s1; now rewrite Hgen).
  split; [now rewrite Hgen |].
  clearbody s1.
  split.
  - intro Hlive.
    set (u1 := write stored u).
    assert (Hfirst : find (selects_reset_token randomBytes date) (users s1) = Some u1)
      by (rewrite Hrows1; now apply live_token_answer).
    set (cleared := [password_is (bcrypt_hash rt newPassword 10);
                     resetPasswordToken_is None; resetPasswordExpires_is None]).
    exists (Build_World (updated (where_id (Prisma.id u1)) cleared (users s1))
                        (outbox s1)), (write cleared u1).
    split.
    { unfold AuthService.resetPassword, await, PrismaService.findFirst.
      rewrite Hfirst. apply (update_row_read _ _ _ _ Hfirst). }
    split.
    { simpl users.
      apply (find_after_update (where_email email) (users s1) u1 cleared).
      rewrite Hrows1.
      exact (find_after_update (where_email email) (users s) u stored Hemail). }
    split; [reflexivity |]. split; [reflexivity |]. split; [reflexivity |].
    intros date' newPassword'.
    apply resetPassword_rejects. apply no_holder_no_answer.
    simpl users. rewrite Hrows1.
    change (Prisma.id u1) with (Prisma.id u).
    now apply token_gone_after_reset.
  - intro Hlapsed.
    apply resetPassword_rejects. rewrite Hrows1.
    now apply lapsed_token_no_answer.
Qed.

End ResetToken.

(** ** Numbers the service computes *)

Section Doubles.

Local Open Scope Q_scope.

(** A power of two with a difference as exponent, as a fraction. *)
Lemma pow2_fraction (a b : Z) :
  (0 <= a)%Z -> (0 <= b)%Z ->
  (2 # 1) ^ (a - b) == (2 ^ a)%Z # Z.to_pos (2 ^ b)%Z.
Proof.
  intros Ha Hb.
  rewrite Qpower_minus by discriminate.
  rewrite (Qmake_Qdiv (2 ^ a) (Z.to_pos (2 ^ b))).
  rewrite Z2Pos.id by (apply Z.pow_pos_nonneg; lia).
  change (2 # 1) with (inject_Z 2).
  rewrite <- !Zpower_Qpower by assumption.
  reflexivity.
Qed.

(** [binade] finds the power of two at or below a positive number. *)
Lemma binade_spec (x : Q) :
  0 < x ->
  (2 # 1) ^ AuthService.binade x <= x /\ x < (2 # 1) ^ (AuthService.binade x + 1).
Proof.
  intro Hx. destruct x as [n d].
  assert (Hn : (0 < n)%Z) by (unfold Qlt in Hx; simpl in Hx; lia).
  pose proof (Z.log2_spec n Hn) as [Hn1 Hn2].
  pose proof (Z.log2_spec (Zpos d) (Pos2Z.is_pos d)) as [Hd1 Hd2].
  pose proof (Z.log2_nonneg n) as Ha.
  pose proof (Z.log2_nonneg (Zpos d)) as Hb.
  unfold AuthService.binade. cbn [Qnum Qden].
  set (a := Z.log2 n) in *. set (b := Z.log2 (Zpos d)) in *.
  assert (Hpa : (0 < 2 ^ a)%Z) by (apply Z.pow_pos_nonneg; lia).
  assert (Hpb : (0 < 2 ^ b)%Z) by (apply Z.pow_pos_nonneg; lia).
  rewrite Z.pow_succ_r in Hn2, Hd2 by assumption.
  destruct (Qle_bool ((2 # 1) ^ (a - b)) (n # d)) eqn:Htest.
  - split; [now apply Qle_bool_iff |].
    replace (a - b + 1)%Z with (Z.succ a - b)%Z by lia.
    rewrite pow2_fraction by lia.
    unfold Qlt. cbn [Qnum Qden].
    rewrite Z2Pos.id by assumption. rewrite Z.pow_succ_r by assumption. nia.
  - split.
    + replace (a - b - 1)%Z with (a - Z.succ b)%Z by lia.
      rewrite pow2_fraction by lia.
      unfold Qle. cbn [Qnum Qden].
      rewrite Z2Pos.id by (apply Z.pow_pos_nonneg; lia).
      rewrite Z.pow_succ_r by assumption. nia.
    + replace (a - b - 1 + 1)%Z with (a - b)%Z by lia.
      apply Qnot_le_lt. intro H. apply Qle_bool_iff in H. congruence.
Qed.

(** Rounding to the nearest integer does not go below an integer at or
    below the number. *)
Lemma round_half_even_lower (a : Z) (m : Q) :
  inject_Z a <= m -> (a <= AuthService.round_half_even m)%Z.
Proof.
  intro H. apply Qfloor_resp_le in H. rewrite Qfloor_Z in H.
  unfold AuthService.round_half_even.
  destruct (Qcompare _ _); [destruct (Z.even _) | |]; lia.
Qed.

(** Nor above an integer the number is less than a half above. *)
Lemma round_half_even_upper (b : Z) (m : Q) :
  m < inject_Z b + (1 # 2) -> (AuthService.round_half_even m <= b)%Z.
Proof.
  intro H. unfold AuthService.round_half_even.
  pose proof (Qfloor_le m) as Hf.
  destruct (Z_lt_le_dec (Qfloor m) b) as [Hlt | Hge].
  - destruct (Qcompare _ _); [destruct (Z.even _) | |]; lia.
  - assert (Hfb : (Qfloor m <= b)%Z).
    { assert (Hq : inject_Z (Qfloor m) < inject_Z b + (1 # 2))
        by (eapply Qle_lt_trans; eassumption).
      rewrite (Qmake_Qdiv 1 2) in Hq.
      unfold Qlt, Qplus, Qdiv, Qmult, Qinv, inject_Z in Hq. cbn in Hq. lia. }
    assert (Heq : Qfloor m = b) by lia.
    assert (Hc : (m - inject_Z (Qfloor m) ?= 1 # 2) = Lt).
    { apply Qlt_alt. rewrite Heq.
      apply Qplus_lt_l with (z := inject_Z b). ring_simplify.
      exact H. }
    rewrite Hc. lia.
Qed.

(** Powers of two: positive, additive in the exponent, monotone. *)
Lemma pow2_pos (k : Z) : 0 < (2 # 1) ^ k.
Proof. apply Qpower_0_lt. reflexivity. Qed.

Lemma pow2_split (a b c : Z) :
  c = (a + b)%Z -> (2 # 1) ^ c == (2 # 1) ^ a * (2 # 1) ^ b.
Proof. intros ->. apply Qpower_plus. discriminate. Qed.

Lemma pow2_mono (a b : Z) : (a <= b)%Z -> (2 # 1) ^ a <= (2 # 1) ^ b.
Proof. intro H. apply Qpower_le_compat_l; [exact H | discriminate]. Qed.

Lemma pow2_lt_inv (a b : Z) : (2 # 1) ^ a < (2 # 1) ^ b -> (a < b)%Z.
Proof.
  intro H. destruct (Z_lt_le_dec a b) as [Hlt | Hge]; [exact Hlt |].
  apply pow2_mono in Hge. exfalso. eapply Qlt_irrefl.
  eapply Qlt_le_trans; eassumption.
Qed.

(** [round_double] on a positive number. *)
Lemma round_double_positive (x : Q) :
  0 < x ->
  AuthService.round_double x ==
  inject_Z (AuthService.round_half_even
              (x * (2 # 1) ^ (52 - AuthService.binade x)))
  * (2 # 1) ^ (AuthService.binade x - 52).
Proof.
  intro Hx. unfold AuthService.round_double.
  apply Qgt_alt in Hx. rewrite Hx. reflexivity.
Qed.

(** Rounding to a double does not go above a double the number is less
    than half a unit in the last place above. *)
Lemma round_double_le (M E : Z) (x : Q) :
  0 < x ->
  (2 ^ 52 <= M < 2 ^ 53)%Z ->
  x < (inject_Z M + (1 # 2)) * (2 # 1) ^ (E - 52) ->
  AuthService.round_double x <= inject_Z M * (2 # 1) ^ (E - 52).
Proof.
  intros Hx [HM1 HM2] Hb.
  rewrite (round_double_positive x Hx).
  destruct (binade_spec x Hx) as [Hlo Hhi].
  set (e := AuthService.binade x) in *.
  assert (H52 : inject_Z (2 ^ 52) == (2 # 1) ^ 52) by reflexivity.
  assert (H53 : inject_Z (2 ^ 53) == (2 # 1) ^ 53) by reflexivity.
  assert (HMq : inject_Z M + (1 # 2) <= (2 # 1) ^ 53).
  { rewrite <- H53. rewrite (Qmake_Qdiv 1 2).
    unfold Qle, Qplus, Qdiv, Qmult, Qinv, inject_Z. cbn. lia. }
  assert (HeE : (e <= E)%Z).
  { assert (H : (2 # 1) ^ e < (2 # 1) ^ (E + 1)).
    { eapply Qle_lt_trans; [exact Hlo |].
      eapply Qlt_le_trans; [exact Hb |].
      rewrite (pow2_split 53 (E - 52) (E + 1)) by lia.
      apply Qmult_le_compat_r; [exact HMq | apply Qlt_le_weak, pow2_pos]. }
    apply pow2_lt_inv in H. lia. }
  destruct (Z.eq_dec e E) as [-> | Hne].
  - apply Qmult_le_compat_r; [| apply Qlt_le_weak, pow2_pos].
    rewrite <- Zle_Qle. apply round_half_even_upper.
    rewrite <- (Qmult_1_r (inject_Z M + (1 # 2))).
    assert (H1 : 1 == (2 # 1) ^ (E - 52) * (2 # 1) ^ (52 - E))
      by (rewrite <- (pow2_split (E - 52) (52 - E) 0) by lia; reflexivity).
    rewrite H1, Qmult_assoc.
    apply Qmult_lt_compat_r; [apply pow2_pos | exact Hb].
  - assert (Hr : (AuthService.round_half_even (x * (2 # 1) ^ (52 - e)) <= 2 ^ 53)%Z).
    { apply round_half_even_upper.
      apply Qlt_le_trans with (y := inject_Z (2 ^ 53)).
      - rewrite H53.
        rewrite (pow2_split (e + 1) (52 - e) 53) by lia.
        apply Qmult_lt_compat_r; [apply pow2_pos | exact Hhi].
      - rewrite <- (Qplus_0_r (inject_Z (2 ^ 53))) at 1.
        apply Qplus_le_r. discriminate. }
    apply Qle_trans with (y := inject_Z (2 ^ 53) * (2 # 1) ^ (e - 52)).
    { apply Qmult_le_compat_r; [| apply Qlt_le_weak, pow2_pos].
      rewrite <- Zle_Qle. exact Hr. }
    apply Qle_trans with (y := inject_Z (2 ^ 52) * (2 # 1) ^ (E - 52)).
    { rewrite H52, H53.
      rewrite <- !Qpower_plus by discriminate.
      apply pow2_mono. lia. }
    apply Qmult_le_compat_r; [| apply Qlt_le_weak, pow2_pos].
    rewrite <- Zle_Qle. exact HM1.
Qed.

(** Nor below a double at or below the number. *)
Lemma round_double_ge (M E : Z) (x : Q) :
  (2 ^ 52 <= M < 2 ^ 53)%Z ->
  inject_Z M * (2 # 1) ^ (E - 52) <= x ->
  inject_Z M * (2 # 1) ^ (E - 52) <= AuthService.round_double x.
Proof.
  intros [HM1 HM2] Hb.
  assert (H52 : inject_Z (2 ^ 52) == (2 # 1) ^ 52) by reflexivity.
  assert (H53 : inject_Z (2 ^ 53) == (2 # 1) ^ 53) by reflexivity.
  assert (HE : (2 # 1) ^ E <= x).
  { eapply Qle_trans; [| exact Hb].
    rewrite (pow2_split 52 (E - 52) E) by lia. rewrite <- H52.
    apply Qmult_le_compat_r; [| apply Qlt_le_weak, pow2_pos].
    rewrite <- Zle_Qle. exact HM1. }
  assert (Hx : 0 < x) by (eapply Qlt_le_trans; [apply (pow2_pos E) | exact HE]).
  rewrite (round_double_positive x Hx).
  destruct (binade_spec x Hx) as [Hlo Hhi].
  set (e := AuthService.binade x) in *.
  assert (HEe : (E <= e)%Z).
  { assert (H : (2 # 1) ^ E < (2 # 1) ^ (e + 1))
      by (eapply Qle_lt_trans; eassumption).
    apply pow2_lt_inv in H. lia. }
  destruct (Z.eq_dec e E) as [-> | Hne].
  - apply Qmult_le_compat_r; [| apply Qlt_le_weak, pow2_pos].
    rewrite <- Zle_Qle. apply round_half_even_lower.
    rewrite <- (Qmult_1_r (inject_Z M)).
    assert (H1 : 1 == (2 # 1) ^ (E - 52) * (2 # 1) ^ (52 - E))
      by (rewrite <- (pow2_split (E - 52) (52 - E) 0) by lia; reflexivity).
    rewrite H1, Qmult_assoc.
    apply Qmult_le_compat_r; [exact Hb | apply Qlt_le_weak, pow2_pos].
  - assert (Hr : (2 ^ 52 <= AuthService.round_half_even (x * (2 # 1) ^ (52 - e)))%Z).
    { apply round_half_even_lower. rewrite H52.
      rewrite (pow2_split e (52 - e) 52) by lia.
      apply Qmult_le_compat_r; [exact Hlo | apply Qlt_le_weak, pow2_pos]. }
    apply Qle_trans with (y := inject_Z (2 ^ 52) * (2 # 1) ^ (e - 52)).
    2:{ apply Qmult_le_compat_r; [| apply Qlt_le_weak, pow2_pos].
        rewrite <- Zle_Qle. exact Hr. }
    apply Qle_trans with (y := inject_Z (2 ^ 53) * (2 # 1) ^ (E - 52)).
    { apply Qmult_le_compat_r; [| apply Qlt_le_weak, pow2_pos].
      rewrite <- Zle_Qle. lia. }
    rewrite H52, H53.
    rewrite <- !Qpower_plus by discriminate.
    apply pow2_mono. lia.
Qed.

(** Rounding keeps the sign of a number that is not negative. *)
Lemma round_double_nonneg (x : Q) : 0 <= x -> 0 <= AuthService.round_double x.
Proof.
  intro H. apply Qle_lt_or_eq in H. destruct H as [Hx | Hx].
  - rewrite (round_double_positive x Hx).
    apply Qmult_le_0_compat; [| apply Qlt_le_weak, pow2_pos].
    change 0 with (inject_Z 0). rewrite <- Zle_Qle.
    apply round_half_even_lower. change (inject_Z 0) with 0.
    apply Qmult_le_0_compat; [apply Qlt_le_weak, Hx | apply Qlt_le_weak, pow2_pos].
  - unfold AuthService.round_double.
    assert (Hc : (x ?= 0) = Eq) by (apply Qeq_alt; symmetry; exact Hx).
    rewrite Hc. apply Qle_refl.
Qed.

(** Zero is a double. *)
Lemma round_double_zero (x : Q) : x == 0 -> AuthService.round_double x = 0.
Proof.
  intro H. unfold AuthService.round_double.
  apply Qeq_alt in H. rewrite H. reflexivity.
Qed.

(** The number [draw_otp] renders, for a value up to the last double below
    1: both roundings stay within the doubles next to the exact bounds. *)
Lemma draw_otp_floor_range (random : Q) :
  0 <= random ->
  random <= 1 - (2 # 1) ^ (-53) ->
  (100000 <=
   Qfloor (AuthService.round_double
             (inject_Z 100000 + AuthService.round_double (random * inject_Z 900000)))
   <= 999999)%Z.
Proof.
  intros Hlo Hhi.
  set (p := random * inject_Z 900000).
  assert (Hp0 : 0 <= p) by (apply Qmult_le_0_compat; [exact Hlo | discriminate]).
  assert (Hp1 : p <= (1 - (2 # 1) ^ (-53)) * inject_Z 900000)
    by (apply Qmult_le_compat_r; [exact Hhi | discriminate]).
  assert (Hpr0 : 0 <= AuthService.round_double p) by (apply round_double_nonneg, Hp0).
  assert (Hpr1 : AuthService.round_double p
                 <= inject_Z (900000 * 2 ^ 33 - 1) * (2 # 1) ^ (19 - 52)).
  { apply Qle_lt_or_eq in Hp0. destruct Hp0 as [Hp | Hp].
    - apply round_double_le; [exact Hp | vm_compute; split; congruence |].
      eapply Qle_lt_trans; [exact Hp1 | reflexivity].
    - rewrite (round_double_zero p) by (symmetry; exact Hp). discriminate. }
  set (s := inject_Z 100000 + AuthService.round_double p) in *.
  assert (Hs0 : inject_Z 100000 <= s).
  { unfold s. rewrite <- (Qplus_0_r (inject_Z 100000)) at 1.
    apply Qplus_le_r. exact Hpr0. }
  assert (Hs1 : s <= inject_Z 100000
                     + inject_Z (900000 * 2 ^ 33 - 1) * (2 # 1) ^ (19 - 52))
    by (unfold s; apply Qplus_le_r; exact Hpr1).
  assert (Hr0 : inject_Z 100000 <= AuthService.round_double s).
  { assert (H16 : inject_Z 100000 == inject_Z (100000 * 2 ^ 36) * (2 # 1) ^ (16 - 52))
      by reflexivity.
    rewrite H16. apply round_double_ge; [vm_compute; split; congruence |].
    rewrite <- H16. exact Hs0. }
  assert (Hr1 : AuthService.round_double s
                <= inject_Z (1000000 * 2 ^ 33 - 1) * (2 # 1) ^ (19 - 52)).
  { apply round_double_le; [| vm_compute; split; congruence |].
    - eapply Qlt_le_trans; [| exact Hs0]. reflexivity.
    - eapply Qle_lt_trans; [exact Hs1 | reflexivity]. }
  split.
  - rewrite <- (Qfloor_Z 100000). apply Qfloor_resp_le. exact Hr0.
  - assert (Hlt : inject_Z (Qfloor (AuthService.round_double s)) < inject_Z 1000000).
    { eapply Qle_lt_trans; [apply Qfloor_le |].
      eapply Qle_lt_trans; [exact Hr1 | reflexivity]. }
    rewrite <- Zlt_Qlt in Hlt. lia.
Qed.

(** The doubles below 1 end at [1 - 2^-53]. *)
Lemma double_below_one (x : Q) :
  AuthService.is_double x = true -> 0 <= x -> x < 1 -> x <= 1 - (2 # 1) ^ (-53).
Proof.
  intros Hd H0 H1. apply Qeq_bool_iff in Hd.
  apply Qle_lt_or_eq in H0. destruct H0 as [Hx | Hx].
  2:{ rewrite <- Hx. discriminate. }
  rewrite (round_double_positive x Hx) in Hd.
  destruct (binade_spec x Hx) as [Hlo Hhi].
  remember (AuthService.binade x) as e eqn:He. clear He.
  assert (Hneg : (e < 0)%Z).
  { apply pow2_lt_inv. eapply Qle_lt_trans; [exact Hlo | exact H1]. }
  destruct (Z_le_gt_dec e (-2)) as [Hsmall | Hbig].
  - apply Qlt_le_weak. eapply Qlt_le_trans; [exact Hhi |].
    apply Qle_trans with (y := (2 # 1) ^ (-1)); [apply pow2_mono; lia | discriminate].
  - assert (e = (-1)%Z) by lia. subst e.
    set (N := AuthService.round_half_even _) in Hd.
    assert (HN : (N < 2 ^ 53)%Z).
    { rewrite Zlt_Qlt.
      apply (Qmult_lt_r _ _ ((2 # 1) ^ (-1 - 52))); [apply pow2_pos |].
      rewrite Hd. eapply Qlt_le_trans; [exact H1 | discriminate]. }
    rewrite <- Hd.
    apply Qle_trans with (y := inject_Z (2 ^ 53 - 1) * (2 # 1) ^ (-1 - 52)).
    + apply Qmult_le_compat_r; [| apply Qlt_le_weak, pow2_pos].
      rewrite <- Zle_Qle. lia.
    + discriminate.
Qed.

(** The rounding shows in the code drawn: at 150119987579 / 2^52 the exact
    sum is just below 100030 and the double it rounds to is 100030. *)
Lemma draw_otp_rounds_as_doubles_do :
  AuthService.draw_otp (150119987579 # 4503599627370496) = "100030"%string /\
  Qfloor (inject_Z 100000 + (150119987579 # 4503599627370496) * inject_Z 900000) =
  100029%Z /\
  AuthService.draw_otp 0 = "100000"%string /\
  AuthService.draw_otp (9007199254740991 # 9007199254740992) = "999999"%string.
Proof. vm_compute. repeat split. Qed.

(** X8.  The code drawn for any double [Math.random()] can return, from 0
    up to but not including 1, is the decimal rendering of an integer
    between 100000 and 999999, with the product and the sum rounded as the
    doubles of the source are. *)
Theorem X8_draw_otp_range (random : Q) :
  AuthService.is_double random = true ->
  0 <= random ->
  random < 1 ->
  exists n : Z,
    (100000 <= n <= 999999)%Z /\
    AuthService.draw_otp random = toString n.
Proof.
  intros Hd Hlo Hhi. eexists. split; [| reflexivity].
  apply draw_otp_floor_range; [exact Hlo |].
  apply double_below_one; assumption.
Qed.

End Doubles.

(** The number of minutes the wait message announces: the interval less the
    whole minutes gone by. *)
Lemma waitMinutes_value (m now last : Z) :
  Qceiling (inject_Z m - AuthService.minutesSinceLastRequest now last)%Q =
  m - (now - last) / (1000 * 60).
Proof.
  unfold AuthService.minutesSinceLastRequest, Qceiling.
  set (d := now - last).
  assert (Heq : (- (inject_Z m - inject_Z d / inject_Z (1000 * 60)) ==
                 inject_Z (d - m * (1000 * 60)) / inject_Z (1000 * 60))%Q).
  { assert (Hc : ~ (inject_Z (1000 * 60) == 0)%Q) by discriminate.
    generalize dependent (1000 * 60). intros c Hc.
    unfold Z.sub. rewrite inject_Z_plus, inject_Z_opp, inject_Z_mult.
    field. exact Hc. }
  rewrite (Qfloor_comp _ _ Heq), <- Zdiv_Qdiv.
  replace (d - m * (1000 * 60)) with (d + (- m) * (1000 * 60)) by ring.
  rewrite Z.div_add by discriminate. ring.
Qed.

Section Guards.

Variable rt : Runtime.
Variable this : AuthService.t.

(** X9.  An issue asked before the minimum interval is over changes nothing
    and tells the caller to wait the interval less the whole minutes gone
    by since the last request: at least one minute, at most the interval. *)
Theorem X9_wait_message_minutes
    (p : Purpose) (env : IssueReads) (key : string) (s : World) (u : User)
    (last : Z) :
  find (selects (issue_where p key)) (users s) = Some u ->
  issue_blocked p u = false ->
  lastOtpRequestTime u = Some last ->
  0 <= read_now env - last < AuthService.otpMinIntervalMinutes this * (1000 * 60) ->
  let waitMinutes :=
    AuthService.otpMinIntervalMinutes this - (read_now env - last) / (1000 * 60) in
  issue rt this p env key s =
  (Throw (BadRequestException (AuthService.wait_message waitMinutes)), s) /\
  1 <= waitMinutes <= AuthService.otpMinIntervalMinutes this.
Proof.
  intros Hfind Hblk Hlast [Hlo Hhi] waitMinutes.
  split.
  - rewrite (issue_within_interval rt this p env key s u last Hfind Hblk Hlast Hhi).
    now rewrite waitMinutes_value.
  - unfold waitMinutes.
    assert (H0 : 0 <= (read_now env - last) / (1000 * 60))
      by (apply Z.div_pos; lia).
    assert (H1 : (read_now env - last) / (1000 * 60) <
                 AuthService.otpMinIntervalMinutes this)
      by (apply Z.div_lt_upper_bound; lia).
    lia.
Qed.

Lemma issue_unknown (p : Purpose) (env : IssueReads) (key : string) (s : World) :
  find (selects (issue_where p key)) (users s) = None ->
  issue rt this p env key s = (Throw (BadRequestException "User not found"), s).
Proof.
  intro Hnone.
  destruct p; simpl in Hnone; simpl issue;
    [ unfold AuthService.generatePhoneVerificationOTP
    | unfold AuthService.generatePasswordResetOTP ];
    unfold await, PrismaService.findUnique; now rewrite Hnone.
Qed.

Lemma issue_already_verified (p : Purpose) (env : IssueReads) (key : string)
    (s : World) (u : User) :
  find (selects (issue_where p key)) (users s) = Some u ->
  issue_blocked p u = true ->
  issue rt this p env key s =
  (Throw (BadRequestException "Phone number is already verified"), s).
Proof.
  intros Hfind Hblk.
  destruct p; simpl in Hfind, Hblk; [| discriminate Hblk].
  simpl issue. unfold AuthService.generatePhoneVerificationOTP, await,
    PrismaService.findUnique.
  now rewrite Hfind, Hblk.
Qed.

Lemma within_min_interval_true (now : Z) (u : User) :
  within_min_interval this now u = true ->
  exists last,
    lastOtpRequestTime u = Some last /\
    now - last < AuthService.otpMinIntervalMinutes this * (1000 * 60).
Proof.
  unfold within_min_interval.
  destruct (lastOtpRequestTime u) as [last |]; [| discriminate].
  intro H. exists last. split; [reflexivity | now apply Qltb_minutes].
Qed.

(** Two rows that differ at most in the request count. *)
Lemma count_reset_absorbed (i : string) (rows : list User) :
  map (write [otpRequestCount_is 0])
      (updated (where_id i) [otpRequestCount_is 0] rows) =
  map (write [otpRequestCount_is 0]) rows.
Proof.
  unfold updated. rewrite map_map. apply map_ext.
  intro r. now destruct (selects (where_id i) r).
Qed.

(** X10.  An issue hands exactly one message to the gateway when it returns,
    and none when it throws.  When it throws although the gateway is up, a
    guard has rejected it: no code is stored and the time of the last
    request stays; the table differs from the one before at most in the
    request count. *)
Theorem X10_issue_sends_once_or_rejects_clean
    (p : Purpose) (env : IssueReads) (key : string) (s : World) :
  let r := fst (issue rt this p env key s) in
  let s' := snd (issue rt this p env key s) in
  (r = Return tt /\
   exists u : User, outbox s' = (outbox s ++ [issue_sms p env u])%list)
  \/
  (exists e, r = Throw e /\ outbox s' = outbox s /\
     (read_sms_failure env = None ->
      map (write [otpRequestCount_is 0]) (users s') =
      map (write [otpRequestCount_is 0]) (users s))).
Proof.
  intros r s'. unfold r, s'. clear r s'.
  destruct (find (selects (issue_where p key)) (users s)) as [u |] eqn:Hfind.
  2:{ rewrite (issue_unknown p env key s Hfind). right. eexists. repeat split. }
  destruct (issue_blocked p u) eqn:Hblk.
  { rewrite (issue_already_verified p env key s u Hfind Hblk).
    right. eexists. repeat split. }
  destruct (within_min_interval this (read_now env) u) eqn:Hint.
  { destruct (within_min_interval_true _ _ Hint) as (last & Hlast & Hlt).
    rewrite (issue_within_interval rt this p env key s u last Hfind Hblk Hlast Hlt).
    right. eexists. repeat split. }
  destruct (Z_lt_le_dec (otpRequestCount u) (AuthService.otpDailyLimit this))
    as [Hcap | Hcap].
  - rewrite (issue_run rt this p env key s u Hfind Hblk Hint Hcap).
    unfold issue_completion. simpl fst. simpl snd. simpl outbox.
    destruct (read_sms_failure env) as [e |].
    + right. destruct p; eexists; (split; [reflexivity |]);
        (split; [reflexivity | intro H; discriminate H]).
    + left. split; [reflexivity |]. now exists u.
  - rewrite (issue_over_daily_limit rt this p env key s u Hfind Hblk Hint Hcap).
    right. eexists. split; [reflexivity |]. split; [reflexivity |].
    intros _. simpl snd. simpl users. unfold rows_after_reset.
    destruct (daily_reset_due rt (read_today env) u); [| reflexivity].
    apply count_reset_absorbed.
Qed.

End Guards.

(** X11.  A consume that is rejected leaves the world exactly as it was,
    whatever the reason: a wrong code does not use the stored code up, and
    no count of failed attempts is kept. *)
Theorem X11_rejected_consume_changes_nothing
    (rt : Runtime) (k : Slot) (date : Z) (key otp newPassword : string)
    (s : World) (e : Exception) :
  fst (consume rt k date key otp newPassword s) = Throw e ->
  snd (consume rt k date key otp newPassword s) = s.
Proof.
  destruct (find (selects (slot_where k key)) (users s)) as [u |] eqn:Hfind.
  2:{ intros _.
      destruct k; simpl in Hfind; simpl consume;
        [ unfold AuthService.verifyPhone
        | unfold AuthService.verifyEmail
        | unfold AuthService.resetPasswordWithOTP ];
        unfold await, PrismaService.findUnique; now rewrite Hfind. }
  destruct (slot_verified k u) eqn:Hver.
  { intros _. now rewrite (consume_already_verified rt k date key otp newPassword s u). }
  destruct (slot_code k u) as [code |] eqn:Hcode.
  2:{ intros _. now rewrite (consume_empty_slot rt k date key otp newPassword s u). }
  destruct (slot_expires k u) as [ex |] eqn:Hexp.
  - rewrite (consume_outcome rt k date key otp newPassword s u code ex
               Hfind Hver Hcode Hexp).
    destruct (String.eqb code EmptyString); [reflexivity |].
    destruct (date >? ex); [reflexivity |].
    destruct (String.eqb code otp); simpl; [intro H; discriminate H | reflexivity].
  - intros _.
    destruct k; simpl in Hfind, Hver, Hcode, Hexp; simpl consume;
      [ unfold AuthService.verifyPhone
      | unfold AuthService.verifyEmail
      | unfold AuthService.resetPasswordWithOTP ];
      unfold await, PrismaService.findUnique;
      rewrite Hfind; try rewrite Hver; rewrite Hcode, Hexp; reflexivity.
Qed.

(** ** What every sequence of requests keeps *)

Section Traces.

Variable rt : Runtime.
Variable this : AuthService.t.

Lemma issue_shape (p : Purpose) (env : IssueReads) (key : string) (s : World) :
  shape_of rt this (users s) (users (snd (issue rt this p env key s))).
Proof.
  destruct (find (selects (issue_where p key)) (users s)) as [u |] eqn:Hfind.
  2:{ rewrite (issue_unknown rt this p env key s Hfind). now left. }
  destruct (issue_blocked p u) eqn:Hblk.
  { rewrite (issue_already_verified rt this p env key s u Hfind Hblk). now left. }
  destruct (within_min_interval this (read_now env) u) eqn:Hint.
  { destruct (within_min_interval_true this _ _ Hint) as (last & Hlast & Hlt).
    rewrite (issue_within_interval rt this p env key s u last Hfind Hblk Hlast Hlt).
    now left. }
  destruct (Z_lt_le_dec (otpRequestCount u) (AuthService.otpDailyLimit this))
    as [Hcap | Hcap].
  - rewrite (issue_run rt this p env key s u Hfind Hblk Hint Hcap).
    simpl snd. simpl users. unfold rows_after_reset.
    assert (Hdata : service_data rt this (users s) (issue_data this p env u)).
    { apply sd_issue; [| exact Hcap]. apply find_some in Hfind. tauto. }
    destruct (daily_reset_due rt (read_today env) u).
    + right. right. exists (Prisma.id u), (issue_data this p env u). now split.
    + right. left. exists (Prisma.id u), (issue_data this p env u). now split.
  - rewrite (issue_over_daily_limit rt this p env key s u Hfind Hblk Hint Hcap).
    simpl snd. simpl users. unfold rows_after_reset.
    destruct (daily_reset_due rt (read_today env) u); [| now left].
    right. left. exists (Prisma.id u), [otpRequestCount_is 0].
    split; [constructor | reflexivity].
Qed.

Lemma consume_shape (k : Slot) (date : Z) (key otp newPassword : string) (s : World) :
  shape_of rt this (users s) (users (snd (consume rt k date key otp newPassword s))).
Proof.
  destruct (find (selects (slot_where k key)) (users s)) as [u |] eqn:Hfind.
  2:{ left.
      destruct k; simpl in Hfind; simpl consume;
        [ unfold AuthService.verifyPhone
        | unfold AuthService.verifyEmail
        | unfold AuthService.resetPasswordWithOTP ];
        unfold await, PrismaService.findUnique; now rewrite Hfind. }
  destruct (slot_verified k u) eqn:Hver.
  { left. now rewrite (consume_already_verified rt k date key otp newPassword s u). }
  destruct (slot_code k u) as [code |] eqn:Hcode.
  2:{ left. now rewrite (consume_empty_slot rt k date key otp newPassword s u). }
  destruct (slot_expires k u) as [ex |] eqn:Hexp.
  - rewrite (consume_outcome rt k date key otp newPassword s u code ex
               Hfind Hver Hcode Hexp).
    destruct (String.eqb code EmptyString); [now left |].
    destruct (date >? ex); [now left |].
    destruct (String.eqb code otp); simpl; [| now left].
    right. left. exists (Prisma.id u), (slot_data rt k newPassword).
    split; [constructor | reflexivity].
  - left.
    destruct k; simpl in Hfind, Hver, Hcode, Hexp; simpl consume;
      [ unfold AuthService.verifyPhone
      | unfold AuthService.verifyEmail
      | unfold AuthService.resetPasswordWithOTP ];
      unfold await, PrismaService.findUnique;
      rewrite Hfind; try rewrite Hver; rewrite Hcode, Hexp; reflexivity.
Qed.

Lemma after_shape (r : Request) (s : World) :
  shape_of rt this (users s) (users (after rt this r s)).
Proof.
  destruct r as [phone password | env phone | env userId | date phone otp
                | env phone | date phone otp newPassword
                | randomBytes date_now mail_failure email
                | date token newPassword | date email otp]; simpl after.
  - left. unfold AuthService.logIn, await, PrismaService.findUnique.
    destruct (find (selects (where_phone phone)) (users s)) as [u |];
      [| reflexivity].
    destruct (bcrypt_compare rt password (Prisma.password u)); [| reflexivity].
    destruct (Prisma.isActive u); [| reflexivity].
    destruct (Prisma.isPhoneVerified u); reflexivity.
  - apply (issue_shape ForPasswordReset).
  - apply (issue_shape ForPhoneVerification).
  - apply (consume_shape PhoneVerification date phone otp EmptyString).
  - unfold AuthService.resendVerificationOTP, await, PrismaService.findUnique.
    destruct (find (selects (where_phone phone)) (users s)) as [u |];
      [| now left].
    destruct (Prisma.isPhoneVerified u); [now left |].
    apply (issue_shape ForPhoneVerification).
  - apply (consume_shape ResetPassword).
  - unfold AuthService.generateResetToken, await, PrismaService.findUnique.
    destruct (find (selects (where_email email)) (users s)) as [u |] eqn:Hfind;
      [| now left].
    rewrite (update_row_read _ _ _ _ Hfind).
    right. left. eexists. eexists. split; [apply sd_token |].
    unfold MailService.sendResetToken, dispatch.
    destruct mail_failure; reflexivity.
  - unfold AuthService.resetPassword, await, PrismaService.findFirst.
    destruct (find (selects_reset_token token date) (users s)) as [u |] eqn:Hfind;
      [| now left].
    rewrite (update_row_read _ _ _ _ Hfind).
    right. left. eexists. eexists. split; [apply sd_reset_by_token | reflexivity].
  - apply (consume_shape EmailVerification date email otp EmptyString).
Qed.

(** A request rewrites the table row by row. *)
Lemma after_rowwise (r : Request) (s : World) :
  exists g : User -> User,
    users (after rt this r s) = map g (users s) /\
    forall u, evolves rt this (users s) u (g u).
Proof.
  destruct (after_shape r s) as [H | [(i & d & Hd & H) | (i & d & Hd & H)]];
    rewrite H.
  - exists (fun u => u). split; [now rewrite map_id | constructor].
  - exists (fun u => if selects (where_id i) u then write d u else u).
    split; [reflexivity |].
    intro u. destruct (selects (where_id i) u); repeat econstructor; exact Hd.
  - exists (fun u =>
              let u1 := if selects (where_id i) u
                        then write [otpRequestCount_is 0] u else u in
              if selects (where_id i) u1 then write d u1 else u1).
    split; [unfold updated; now rewrite map_map |].
    intro u. cbv zeta.
    destruct (selects (where_id i) u) eqn:Hsel.
    + rewrite selects_write, Hsel. repeat econstructor. exact Hd.
    + rewrite Hsel. constructor.
Qed.

Lemma evolves_keeps_identity (rows : list User) (u u' : User) :
  evolves rt this rows u u' ->
  identity_columns u' = identity_columns u.
Proof.
  induction 1 as [| u u1 data _ IH Hd]; [reflexivity |].
  rewrite <- IH. destruct Hd; try reflexivity.
  - destruct p; reflexivity.
  - destruct k; reflexivity.
Qed.

Lemma evolves_keeps_verified (rows : list User) (u u' : User) :
  evolves rt this rows u u' ->
  (Prisma.isPhoneVerified u = true -> Prisma.isPhoneVerified u' = true) /\
  (Prisma.isEmailVerified u = true -> Prisma.isEmailVerified u' = true).
Proof.
  induction 1 as [| u u1 data _ IH Hd]; [tauto |].
  destruct IH as [IHp IHe].
  destruct Hd; try (split; [exact IHp | exact IHe]).
  - destruct p; split; [exact IHp | exact IHe | exact IHp | exact IHe].
  - destruct k; split; simpl; auto.
Qed.

Lemma evolves_keeps_pairing (rows : list User) (u u' : User) :
  evolves rt this rows u u' ->
  slots_paired u -> slots_paired u'.
Proof.
  induction 1 as [| u u1 data _ IH Hd]; [tauto |].
  intro Hu. specialize (IH Hu). destruct IH as [IHs IHt].
  destruct Hd as [| p env u0 Hin Hlt | k newPassword | token deadline | newPassword];
    try destruct p; try destruct k;
    (split; [intro k'; destruct k' |]); simpl;
    first [ exact IHt
          | exact (IHs PhoneVerification)
          | exact (IHs EmailVerification)
          | exact (IHs ResetPassword)
          | split; discriminate
          | tauto ].
Qed.

Lemma evolves_keeps_count (rows : list User) (u u' : User) :
  0 <= AuthService.otpDailyLimit this ->
  Forall (count_within this) rows ->
  evolves rt this rows u u' ->
  count_within this u -> count_within this u'.
Proof.
  intros Hlimit Hrows.
  induction 1 as [| u u1 data _ IH Hd]; [tauto |].
  intro Hu. specialize (IH Hu). unfold count_within in *.
  destruct Hd.
  - simpl. lia.
  - rewrite Forall_forall in Hrows. apply Hrows in H.
    destruct p; simpl; unfold count_within in H; lia.
  - destruct k; exact IH.
  - exact IH.
  - exact IH.
Qed.

(** A sequence of requests rewrites the table row by row, and each row by
    steps that keep what a single request keeps. *)
Lemma after_all_rowwise (rs : list Request) (s : World) :
  exists g : User -> User,
    users (after_all rt this rs s) = map g (users s) /\
    (forall u, identity_columns (g u) = identity_columns u) /\
    (forall u, Prisma.isPhoneVerified u = true -> Prisma.isPhoneVerified (g u) = true) /\
    (forall u, Prisma.isEmailVerified u = true -> Prisma.isEmailVerified (g u) = true).
Proof.
  revert s. induction rs as [| r rs IH]; intro s.
  - exists (fun u => u). simpl. rewrite map_id. auto.
  - change (after_all rt this (r :: rs) s)
      with (after_all rt this rs (after rt this r s)).
    destruct (IH (after rt this r s)) as (g2 & Hg2 & Hid2 & Hp2 & He2).
    destruct (after_rowwise r s) as (g1 & Hg1 & Hev).
    exists (fun u => g2 (g1 u)).
    split; [rewrite Hg2, Hg1; now rewrite map_map |].
    split; [| split]; intro u.
    + rewrite Hid2. apply (evolves_keeps_identity _ _ _ (Hev u)).
    + intro H. apply Hp2. now apply (evolves_keeps_verified _ _ _ (Hev u)).
    + intro H. apply He2. now apply (evolves_keeps_verified _ _ _ (Hev u)).
Qed.

(** X12.  No sequence of requests to the nine methods adds, removes or
    reorders a row, and none changes the id, email, phone, names, role or
    [isActive] of a row. *)
Theorem X12_identities_are_never_touched (rs : list Request) (s : World) :
  map identity_columns (users (after_all rt this rs s)) =
  map identity_columns (users s).
Proof.
  destruct (after_all_rowwise rs s) as (g & Hg & Hid & _).
  rewrite Hg, map_map. apply map_ext. exact Hid.
Qed.

(** X13.  Once verified, always verified: after any sequence of requests the
    row at each place of the table still has every verification flag it had
    before. *)
Theorem X13_verified_flags_never_revert (rs : list Request) (s : World) :
  Forall2
    (fun before now =>
       Prisma.id now = Prisma.id before /\
       (Prisma.isPhoneVerified before = true -> Prisma.isPhoneVerified now = true) /\
       (Prisma.isEmailVerified before = true -> Prisma.isEmailVerified now = true))
    (users s) (users (after_all rt this rs s)).
Proof.
  destruct (after_all_rowwise rs s) as (g & Hg & Hid & Hp & He).
  rewrite Hg. clear Hg.
  induction (users s) as [| u rows IH]; simpl; constructor; [| exact IH].
  split; [| split]; [| apply Hp | apply He].
  specialize (Hid u). unfold identity_columns in Hid. congruence.
Qed.

(** X14.  Code and expiry go together: if in every row each slot has both a
    code and an expiry or neither, and likewise the reset token and its
    deadline, then so it is after any sequence of requests. *)
Theorem X14_slots_stay_paired (rs : list Request) (s : World) :
  Forall slots_paired (users s) ->
  Forall slots_paired (users (after_all rt this rs s)).
Proof.
  revert s. induction rs as [| r rs IH]; intros s Hs; [exact Hs |].
  change (after_all rt this (r :: rs) s)
    with (after_all rt this rs (after rt this r s)).
  apply IH.
  destruct (after_rowwise r s) as (g & Hg & Hev).
  rewrite Hg. apply Forall_map.
  apply (Forall_impl _ (fun u Hu => evolves_keeps_pairing _ _ _ (Hev u) Hu)).
  exact Hs.
Qed.

(** X15.  The stored request count never leaves the range from 0 to the
    daily limit: if every row is in range (and the limit is not negative),
    every row is in range after any sequence of requests. *)
Theorem X15_count_stays_within_limit (rs : list Request) (s : World) :
  0 <= AuthService.otpDailyLimit this ->
  Forall (count_within this) (users s) ->
  Forall (count_within this) (users (after_all rt this rs s)).
Proof.
  intro Hlimit.
  revert s. induction rs as [| r rs IH]; intros s Hs; [exact Hs |].
  change (after_all rt this (r :: rs) s)
    with (after_all rt this rs (after rt this r s)).
  apply IH.
  destruct (after_rowwise r s) as (g & Hg & Hev).
  rewrite Hg. apply Forall_map.
  apply (Forall_impl _ (fun u Hu => evolves_keeps_count _ _ _ Hlimit Hs (Hev u) Hu)).
  exact Hs.
Qed.

End Traces.

(** ** Signing up *)

Section SigningUp.

Variable rt : Runtime.
Variable this : AuthService.t.
Variable validatePhoneNumber : string -> PhoneValidation.t.
Variable defaults : User.
Variable rest : User -> User.

Local Abbreviation signUp :=
  (Registration.signUp rt this validatePhoneNumber defaults rest).
Local Abbreviation row_of dto :=
  (Registration.row_to_create rt defaults rest
     (PhoneValidation.formattedNumber
        (validatePhoneNumber (CreateUserDto.phone dto))) dto).

Lemma find_none_app (p : User -> bool) (rows : list User) (row : User) :
  find p rows = None ->
  find p (rows ++ [row]) = if p row then Some row else None.
Proof.
  induction rows as [| r rows IH]; simpl; [reflexivity |].
  destruct (p r); [discriminate | exact IH].
Qed.

Lemma find_some_app (p : User -> bool) (rows : list User) (row u : User) :
  find p rows = Some u ->
  find p (rows ++ [row]) = Some u.
Proof.
  induction rows as [| r rows IH]; simpl; [discriminate |].
  destruct (p r); [trivial | exact IH].
Qed.

(** [create] goes through exactly when none of the three unique columns of
    the row is taken. *)
Lemma create_run (row : User) (s : World) :
  find (selects (where_id (Prisma.id row))) (users s) = None ->
  find (selects (where_email (Prisma.email row))) (users s) = None ->
  find (selects (where_phone (Prisma.phone row))) (users s) = None ->
  Registration.create row s =
  (Return row, Build_World (users s ++ [row]) (outbox s)).
Proof.
  intros Hid Hemail Hphone. unfold Registration.create.
  replace (existsb _ (users s)) with false; [reflexivity |].
  symmetry. apply not_true_is_false. intro Hex.
  apply existsb_exists in Hex. destruct Hex as (u & Hin & Hu).
  apply orb_true_iff in Hu. destruct Hu as [Hu | Hu];
    [apply orb_true_iff in Hu; destruct Hu as [Hu | Hu] |].
  - pose proof (find_none _ _ Hid u Hin) as H. simpl in H. congruence.
  - pose proof (find_none _ _ Hemail u Hin) as H. simpl in H. congruence.
  - pose proof (find_none _ _ Hphone u Hin) as H. simpl in H. congruence.
Qed.

Lemma create_throw_keeps_world (row : User) (s : World) (e : Exception) :
  fst (Registration.create row s) = Throw e ->
  Registration.create row s = (Throw (PrismaClientKnownRequestError "P2002"), s).
Proof.
  unfold Registration.create.
  destruct (existsb _ (users s)); [reflexivity | discriminate].
Qed.

(** X16.  With a well-formed phone, [signUp] refuses a phone or an email
    that is already registered, looking the phone up by its normalised form
    and before the email: when both are taken the caller is told about the
    phone.  Neither refusal writes anything. *)
Theorem X16_signUp_refuses_duplicates
    (env : IssueReads) (dto : CreateUserDto.t) (s : World) :
  let v := validatePhoneNumber (CreateUserDto.phone dto) in
  PhoneValidation.isValid v = true ->
  (forall u : User,
     find (selects (where_phone (PhoneValidation.formattedNumber v))) (users s) =
       Some u ->
     signUp env dto s =
     (Throw (BadRequestException "User with this phone number already exists"), s))
  /\
  (forall u : User,
     find (selects (where_phone (PhoneValidation.formattedNumber v))) (users s) =
       None ->
     find (selects (where_email (CreateUserDto.email dto))) (users s) = Some u ->
     signUp env dto s =
     (Throw (BadRequestException "User with this email already exists"), s)).
Proof.
  intros v Hvalid. unfold v in *. clear v.
  unfold Registration.signUp. cbv zeta. rewrite Hvalid. cbn [negb]. cbv beta iota.
  unfold await, PrismaService.findUnique.
  split.
  - intros u Hphone. now rewrite Hphone.
  - intros u Hphone Hemail. now rewrite Hphone, Hemail.
Qed.

(** X17.  A [signUp] that throws has written nothing and sent nothing: a
    malformed phone (reported with the validator's message), a duplicate, or
    a [create] the store rejects ('Failed to create user') all leave the
    world as it was. *)
Theorem X17_signUp_throw_writes_nothing
    (env : IssueReads) (dto : CreateUserDto.t) (s : World) (e : Exception) :
  fst (signUp env dto s) = Throw e ->
  snd (signUp env dto s) = s /\
  (PhoneValidation.isValid (validatePhoneNumber (CreateUserDto.phone dto)) = false ->
   e = BadRequestException
         (PhoneValidation.error (validatePhoneNumber (CreateUserDto.phone dto)))).
Proof.
  unfold Registration.signUp. cbv zeta.
  destruct (PhoneValidation.isValid (validatePhoneNumber (CreateUserDto.phone dto)));
    cbn [negb]; cbv beta iota.
  2:{ intro H. injection H as <-. split; reflexivity. }
  unfold await, PrismaService.findUnique, try_catch, resolve, throw.
  destruct (find (selects (where_phone _)) (users s));
    [intros _; split; [reflexivity | discriminate] |].
  destruct (find (selects (where_email _)) (users s));
    [intros _; split; [reflexivity | discriminate] |].
  destruct (Registration.create (row_of dto) s) as [[saved | e0] s0] eqn:Hcreate.
  - destruct (AuthService.generatePhoneVerificationOTP rt this env
                (Prisma.id saved) s0) as [[[] | e1] s1]; intro H; discriminate H.
  - intros _. split; [| discriminate].
    pose proof (create_throw_keeps_world (row_of dto) s e0) as Hs.
    rewrite Hcreate in Hs. specialize (Hs eq_refl). now injection Hs as _ ->.
Qed.

(** [signUp] past its checks: the row is created, then the code is issued
    on the table that holds it. *)
Lemma signUp_run
    (env : IssueReads) (dto : CreateUserDto.t) (s : World) :
  let v := validatePhoneNumber (CreateUserDto.phone dto) in
  let row := row_of dto in
  PhoneValidation.isValid v = true ->
  find (selects (where_phone (PhoneValidation.formattedNumber v))) (users s) = None ->
  find (selects (where_email (CreateUserDto.email dto))) (users s) = None ->
  find (selects (where_id (Prisma.id row))) (users s) = None ->
  let attempt :=
    AuthService.generatePhoneVerificationOTP rt this env (Prisma.id row)
      (Build_World (users s ++ [row]) (outbox s)) in
  signUp env dto s =
  (Return (Registration.response row
             (match fst attempt with
              | Return _ => Registration.msg_created
              | Throw _ => Registration.msg_created_without_otp
              end)),
   snd attempt).
Proof.
  intros v row Hvalid Hphone Hemail Hid attempt.
  unfold attempt, row, v in *. clear attempt row v.
  unfold Registration.signUp. cbv zeta. rewrite Hvalid. cbn [negb]. cbv beta iota.
  unfold await at 1. unfold PrismaService.findUnique at 1. rewrite Hphone.
  unfold await at 1. unfold PrismaService.findUnique at 1. rewrite Hemail.
  unfold try_catch at 1. unfold await at 1.
  rewrite (create_run _ s Hid Hemail Hphone).
  unfold try_catch, await, resolve.
  destruct (AuthService.generatePhoneVerificationOTP rt this env _ _)
    as [[[] | e1] s1]; reflexivity.
Qed.

(** X18.  Past the checks, [signUp] always returns, whatever becomes of the
    code: the row is added to the table, the code is then issued for it on
    that table, and a failure there (the guards, the gateway) only changes
    the message of the response.  The response shows the row as created,
    not as the issue left it. *)
Theorem X18_signUp_returns_whatever_the_otp_does
    (env : IssueReads) (dto : CreateUserDto.t) (s : World) :
  let v := validatePhoneNumber (CreateUserDto.phone dto) in
  let row := row_of dto in
  PhoneValidation.isValid v = true ->
  find (selects (where_phone (PhoneValidation.formattedNumber v))) (users s) = None ->
  find (selects (where_email (CreateUserDto.email dto))) (users s) = None ->
  find (selects (where_id (Prisma.id row))) (users s) = None ->
  let attempt :=
    AuthService.generatePhoneVerificationOTP rt this env (Prisma.id row)
      (Build_World (users s ++ [row]) (outbox s)) in
  signUp env dto s =
  (Return (Registration.response row
             (match fst attempt with
              | Return _ => Registration.msg_created
              | Throw _ => Registration.msg_created_without_otp
              end)),
   snd attempt).
Proof.
  intros v row Hvalid Hphone Hemail Hid attempt.
  exact (signUp_run env dto s Hvalid Hphone Hemail Hid).
Qed.

(** X19.  From sign-up to sign-in.  A new identity whose row is created
    active, with its phone unverified and no request on record, is refused
    sign-in as Forbidden right after [signUp]; the code drawn at [signUp],
    consumed by [verifyPhone] not after its expiry, verifies the phone, and
    sign-in with the password given at [signUp] then returns a token.  This
    holds whether or not the gateway delivered the code. *)
Theorem X19_signUp_verifyPhone_logIn
    (env : IssueReads) (dto : CreateUserDto.t) (date : Z) (s : World) :
  let v := validatePhoneNumber (CreateUserDto.phone dto) in
  let row := row_of dto in
  let phone := PhoneValidation.formattedNumber v in
  let password := CreateUserDto.password dto in
  PhoneValidation.isValid v = true ->
  find (selects (where_phone phone)) (users s) = None ->
  find (selects (where_email (CreateUserDto.email dto))) (users s) = None ->
  find (selects (where_id (Prisma.id row))) (users s) = None ->
  Prisma.isPhoneVerified row = false ->
  Prisma.isActive row = true ->
  lastOtpRequestTime row = None ->
  otpRequestCount row < AuthService.otpDailyLimit this ->
  bcrypt_compare rt password (bcrypt_hash rt password 10) = true ->
  date <= issue_expiry this env ->
  let s1 := snd (signUp env dto s) in
  let s2 := snd (AuthService.verifyPhone date phone
                   (AuthService.draw_otp (read_Math_random env)) s1) in
  AuthService.logIn rt phone password s1 =
  (Throw (ForbiddenException "Please verify your phone number before logging in"), s1)
  /\
  fst (AuthService.verifyPhone date phone
         (AuthService.draw_otp (read_Math_random env)) s1) = Return tt
  /\
  exists r : LoginResponse,
    AuthService.logIn rt phone password s2 = (Return r, s2) /\
    LoginUser.id (user r) = Prisma.id row /\
    LoginUser.isPhoneVerified (user r) = true.
Proof.
  intros v row phone password Hvalid Hphone Hemail Hid Hver Hact Hlast Hcap
    Hbcrypt Hdate s1 s2.
  set (s0 := Build_World (users s ++ [row]) (outbox s)).
  assert (Hfid : find (selects (where_id (Prisma.id row))) (users s0) = Some row).
  { change (users s0) with (users s ++ [row])%list.
    rewrite (find_none_app _ _ row Hid). cbn [selects].
    now rewrite String.eqb_refl. }
  assert (Hfph : find (selects (where_phone phone)) (users s0) = Some row).
  { change (users s0) with (users s ++ [row])%list.
    rewrite (find_none_app _ _ row Hphone). cbn [selects].
    change (Prisma.phone row) with phone. now rewrite String.eqb_refl. }
  assert (Hint : within_min_interval this (read_now env) row = false)
    by (unfold within_min_interval; now rewrite Hlast).
  pose proof (issue_run rt this ForPhoneVerification env (Prisma.id row) s0 row
                Hfid Hver Hint Hcap) as Hrun.
  change (issue rt this ForPhoneVerification env (Prisma.id row) s0)
    with (AuthService.generatePhoneVerificationOTP rt this env (Prisma.id row) s0)
    in Hrun.
  pose proof (signUp_run env dto s Hvalid Hphone Hemail Hid) as Hs.
  cbv zeta in Hs. fold row in Hs. fold s0 in Hs.
  set (row1 := write (issue_data this ForPhoneVerification env row)
                     (row_after_reset rt (read_today env) row)).
  assert (Hf1 : find (selects (where_phone phone)) (users s1) = Some row1).
  { unfold s1. rewrite Hs, Hrun. simpl snd. simpl users.
    apply (find_after_issue rt this (where_phone phone) ForPhoneVerification env row).
    exact Hfph. }
  clearbody s1. clear Hs.
  destruct (issued_row_slot rt this ForPhoneVerification env row)
    as (Hcode & Hexp & Hv1 & Hpw1 & Hact1 & _).
  fold row1 in Hcode, Hexp, Hv1, Hpw1, Hact1.
  change (issue_blocked ForPhoneVerification row)
    with (Prisma.isPhoneVerified row) in Hv1.
  rewrite Hver in Hv1.
  change (Prisma.isPhoneVerified row1 = false) in Hv1.
  split.
  { unfold AuthService.logIn, await, PrismaService.findUnique.
    rewrite Hf1, Hpw1. change (Prisma.password row) with (bcrypt_hash rt password 10).
    rewrite Hbcrypt, Hact1, Hact, Hv1. reflexivity. }
  pose proof (consume_outcome rt PhoneVerification date phone
                (AuthService.draw_otp (read_Math_random env)) EmptyString
                s1 row1 _ _ Hf1 Hv1 Hcode Hexp) as Hconsume.
  replace (String.eqb (AuthService.draw_otp (read_Math_random env)) EmptyString)
    with false in Hconsume
    by (symmetry; apply String.eqb_neq, toString_not_empty).
  rewrite String.eqb_refl in Hconsume.
  replace (date >? issue_expiry this env) with false in Hconsume
    by (symmetry; rewrite Z.gtb_ltb; apply Z.ltb_ge; lia).
  simpl in Hconsume.
  unfold s2. rewrite Hconsume. simpl fst. simpl snd.
  split; [reflexivity |].
  set (data := [isPhoneVerified_is true; phoneVerificationOTP_is None;
                phoneVerificationOTPExpires_is None]).
  exists (login_response rt (write data row1)).
  split.
  - apply logIn_run.
    + simpl users. apply (find_after_update (where_phone phone) (users s1) row1 data Hf1).
    + change (Prisma.password (write data row1)) with (Prisma.password row1).
      rewrite Hpw1. exact Hbcrypt.
    + change (Prisma.isActive (write data row1)) with (Prisma.isActive row1).
      congruence.
    + reflexivity.
  - split; [| reflexivity].
    change (Prisma.id (write data row1) = Prisma.id row).
    unfold row1. rewrite (proj1 (write_keeps_keys _ _)). apply row_after_reset_id.
Qed.

End SigningUp.

(** ** Removing a user *)

Lemma find_filtered_out (id : string) (rows : list User) :
  find (selects (where_id id))
       (filter (fun u => negb (selects (where_id id) u)) rows) = None.
Proof.
  induction rows as [| r rows IH]; simpl; [reflexivity |].
  destruct (String.eqb (Prisma.id r) id) eqn:Hid; simpl; [exact IH |].
  now rewrite Hid.
Qed.

Lemma remove_missing (id : string) (s : World) :
  find (selects (where_id id)) (users s) = None ->
  UserService.remove id s = (Rejected (UserService.not_found id), s).
Proof.
  intro Hnone. unfold UserService.remove, UserService.delete.
  replace (existsb (selects (where_id id)) (users s)) with false; [reflexivity |].
  symmetry. apply not_true_is_false. intro Hex.
  apply existsb_exists in Hex. destruct Hex as (u & Hin & Hu).
  pose proof (find_none _ _ Hnone u Hin) as H. congruence.
Qed.

Lemma remove_present (id : string) (s : World) (u : User) :
  find (selects (where_id id)) (users s) = Some u ->
  UserService.remove id s =
  (Fulfilled "User deleted successfully",
   Build_World (filter (fun r => negb (selects (where_id id) r)) (users s))
     (outbox s)).
Proof.
  intro Hfind. unfold UserService.remove, UserService.delete.
  replace (existsb (selects (where_id id)) (users s)) with true; [reflexivity |].
  symmetry. apply existsb_exists. apply find_some in Hfind. now exists u.
Qed.

(** X20.  [remove] of a user that exists takes every row of that id out of
    the table and leaves the other rows, in their order, and the outbox as
    they were.  From then on the id is unknown: [findOne] and a second
    [remove] are both rejected with NotFound 'User with ID ... not found',
    and the second [remove] changes nothing. *)
Theorem X20_remove_makes_the_id_unknown (id : string) (s : World) (u : User) :
  find (selects (where_id id)) (users s) = Some u ->
  exists s' : World,
    UserService.remove id s = (Fulfilled "User deleted successfully", s') /\
    users s' = filter (fun r => negb (String.eqb (Prisma.id r) id)) (users s) /\
    outbox s' = outbox s /\
    UserService.findOne id s' = (Rejected (UserService.not_found id), s') /\
    UserService.remove id s' = (Rejected (UserService.not_found id), s').
Proof.
  intro Hfind. eexists.
  split; [apply (remove_present id s u Hfind) |].
  split; [reflexivity |]. split; [reflexivity |].
  split.
  - unfold UserService.findOne, PrismaService.findUnique. simpl users.
    now rewrite find_filtered_out.
  - apply remove_missing. simpl users. apply find_filtered_out.
Qed.

(** What [logIn] returned was read off a row of the table. *)
Lemma logIn_return_inv (rt : Runtime) (s : World) (phone password : string)
    (r : LoginResponse) :
  fst (AuthService.logIn rt phone password s) = Return r ->
  exists u : User,
    find (selects (where_phone phone)) (users s) = Some u /\
    r = login_response rt u.
Proof.
  unfold AuthService.logIn, await, PrismaService.findUnique.
  destruct (find (selects (where_phone phone)) (users s)) as [u |];
    [| intro H; discriminate H].
  destruct (bcrypt_compare rt password (Prisma.password u));
    [| intro H; discriminate H].
  destruct (Prisma.isActive u) eqn:Hact; [| intro H; discriminate H].
  destruct (Prisma.isPhoneVerified u) eqn:Hver; [| intro H; discriminate H].
  intro H. injection H as <-. exists u. split; [reflexivity |].
  unfold login_response, login_claims. now rewrite Hact, Hver.
Qed.

(** X21.  Removing a user ends its sessions and its sign-in: after [remove],
    [validate] rejects a token carrying the id as Unauthorized 'Login first
    to access this endpoint.', and no [logIn] returns that id. *)
Theorem X21_removed_user_is_locked_out
    (rt : Runtime) (findUnique_undefined : Completion (option User))
    (s : World) (u : User) :
  find (selects (where_id (Prisma.id u))) (users s) = Some u ->
  Prisma.id u <> EmptyString ->
  let s' := snd (UserService.remove (Prisma.id u) s) in
  JwtStrategy.validate findUnique_undefined (decoded (login_claims u)) s' =
  (Throw (UnauthorizedException "Login first to access this endpoint."), s')
  /\
  forall (phone password : string) (r : LoginResponse),
    fst (AuthService.logIn rt phone password s') = Return r ->
    LoginUser.id (user r) <> Prisma.id u.
Proof.
  intros Hfind Hne s'.
  assert (Hrows : users s' =
                  filter (fun r => negb (selects (where_id (Prisma.id u)) r)) (users s))
    by (unfold s'; now rewrite (remove_present _ s u Hfind)).
  clearbody s'.
  split.
  - apply String.eqb_neq in Hne.
    unfold JwtStrategy.validate, decoded, JwtStrategy.or_else, login_claims,
      truthy, await, JwtStrategy.findUnique_id, PrismaService.findUnique.
    cbn [JwtPayload.sub JwtPayload.id JwtClaims.sub].
    rewrite Hne. cbn [negb]. rewrite Hrows, find_filtered_out. reflexivity.
  - intros phone password r Hr.
    destruct (logIn_return_inv rt s' phone password r Hr) as (u' & Hu' & ->).
    simpl. apply find_some in Hu'. destruct Hu' as [Hin _].
    rewrite Hrows in Hin. apply filter_In in Hin. destruct Hin as [_ Hkeep].
    apply negb_true_iff in Hkeep. simpl in Hkeep. now apply String.eqb_neq.
Qed.

(** ** Marketing notifications *)

Section MarketingSend.

Import Marketing.

Lemma flag_of_category (c : MarketingCategory) :
  flag_column (getCategorySubscriptionField c) = Some (subscribed c).
Proof. destruct c; reflexivity. Qed.

(** The loop counts every recipient once, and appends one mail per call
    that went through, addressed to a recipient and carrying the title, the
    content and the category of the notification. *)
Lemma send_each_accounts (fails : nat -> bool) (n : MarketingNotification)
    (recipients : list UserMarketingPreference) :
  forall (i : nat) (sc fc : Z) (out : list MarketingEmail),
  exists (sc' fc' : Z) (added : list MarketingEmail),
    send_each fails n i recipients sc fc out = (sc', fc', (out ++ added)%list) /\
    sc <= sc' /\ fc <= fc' /\
    sc' - sc + (fc' - fc) = Z.of_nat (length recipients) /\
    Z.of_nat (length added) = sc' - sc /\
    Forall (fun m => exists u, In u recipients /\ mail_to m = email u /\
                       mail_title m = title n /\ mail_content m = content n /\
                       mail_category m = category n) added.
Proof.
  induction recipients as [| u rs IH]; intros i sc fc out.
  - exists sc, fc, []. simpl. rewrite app_nil_r.
    repeat split; try lia. constructor.
  - cbn [send_each]. destruct (fails i).
    + destruct (IH (S i) sc (fc + 1) out) as (sc' & fc' & added & Heq & H1 & H2 & H3 & H4 & H5).
      exists sc', fc', added. rewrite Heq.
      split; [reflexivity |]. split; [lia |]. split; [lia |].
      split; [cbn [length]; lia |]. split; [exact H4 |].
      eapply Forall_impl; [| exact H5].
      intros m (x & Hx & Hm). exists x. split; [now right | exact Hm].
    + destruct (IH (S i) (sc + 1) fc
                  (out ++ [Build_MarketingEmail (email u) (title n) (content n)
                             (category n)])%list)
        as (sc' & fc' & added & Heq & H1 & H2 & H3 & H4 & H5).
      exists sc', fc',
        (Build_MarketingEmail (email u) (title n) (content n) (category n) :: added).
      rewrite Heq, <- app_assoc.
      split; [reflexivity |]. split; [lia |]. split; [lia |].
      split; [cbn [length]; lia |]. split; [cbn [length]; lia |].
      constructor.
      * exists u. repeat split. now left.
      * eapply Forall_impl; [| exact H5].
        intros m (x & Hx & Hm). exists x. split; [now right | exact Hm].
Qed.

Lemma find_updated_notification (nid : string)
    (data : MarketingNotification -> MarketingNotification)
    (rows : list MarketingNotification) :
  (forall n, id (data n) = id n) ->
  find_notification nid (update_notification nid data rows) =
  option_map data (find_notification nid rows).
Proof.
  intro Hid. unfold find_notification, update_notification.
  induction rows as [| r rows IH]; simpl; [reflexivity |].
  destruct (String.eqb (id r) nid) eqn:Hr.
  - now rewrite Hid, Hr.
  - now rewrite Hr.
Qed.

(** A send that passes the three guards. *)
Lemma send_run (date date_sent : Z) (fails : nat -> bool) (nid : string)
    (s : Store) (n : MarketingNotification) :
  find_notification nid (marketingNotification s) = Some n ->
  sent n = false ->
  (timing n = SCHEDULED -> forall d, scheduledDate n = Some d -> d <= date) ->
  let recipients :=
    filter (fun u => subscribed (category n) u && preferEmail u)
           (userMarketingPreference s) in
  exists (sc fc : Z) (added : list MarketingEmail),
    sendMarketingNotification date date_sent fails nid s =
    (Fulfilled (Build_SendResult true "Marketing notification sent successfully"
                  (Build_Stats (Z.of_nat (length recipients)) sc fc)),
     Build_Store
       (update_notification nid (mark_sent date_sent sc fc) (marketingNotification s))
       (userMarketingPreference s)
       (delivered s ++ added)%list) /\
    0 <= sc /\ 0 <= fc /\
    sc + fc = Z.of_nat (length recipients) /\
    Z.of_nat (length added) = sc /\
    Forall (fun m => exists u, In u recipients /\ mail_to m = email u /\
                       mail_title m = title n /\ mail_content m = content n /\
                       mail_category m = category n) added.
Proof.
  intros Hfind Hsent Hdue recipients.
  destruct (send_each_accounts fails n recipients 0%nat 0 0 (delivered s))
    as (sc & fc & added & Heq & H1 & H2 & H3 & H4 & H5).
  exists sc, fc, added.
  split.
  - unfold sendMarketingNotification. rewrite Hfind, Hsent.
    replace (match timing n with
             | IMMEDIATE => false
             | SCHEDULED =>
                 match scheduledDate n with
                 | Some scheduled => date <? scheduled
                 | None => false
                 end
             end) with false.
    + unfold findMany_opted_in. rewrite flag_of_category.
      fold recipients. rewrite Heq. reflexivity.
    + destruct (timing n); [reflexivity |].
      destruct (scheduledDate n) as [d |]; [| reflexivity].
      symmetry. apply Z.ltb_ge. now apply Hdue.
  - repeat split; try lia. exact H5.
Qed.

(** X22.  A send that goes through accounts for every recipient: successes
    and failures add up to the number of preference rows opted in, the
    counts returned are the counts stored with [sent] and [sentAt], and as
    many mails have gone out as successes were counted.  A failing mail does
    not stop the others. *)
Theorem X22_send_accounts_for_every_recipient
    (date date_sent : Z) (fails : nat -> bool) (nid : string)
    (s : Store) (n : MarketingNotification) :
  find_notification nid (marketingNotification s) = Some n ->
  sent n = false ->
  (timing n = SCHEDULED -> forall d, scheduledDate n = Some d -> d <= date) ->
  exists (r : SendResult) (s' : Store) (n' : MarketingNotification),
    sendMarketingNotification date date_sent fails nid s = (Fulfilled r, s') /\
    stats_successCount (stats r) + stats_failureCount (stats r) =
      totalRecipients (stats r) /\
    0 <= stats_successCount (stats r) /\
    0 <= stats_failureCount (stats r) /\
    Z.of_nat (length (delivered s')) =
      Z.of_nat (length (delivered s)) + stats_successCount (stats r) /\
    find_notification nid (marketingNotification s') = Some n' /\
    sent n' = true /\
    sentAt n' = Some date_sent /\
    successCount n' = stats_successCount (stats r) /\
    failureCount n' = stats_failureCount (stats r) /\
    userMarketingPreference s' = userMarketingPreference s.
Proof.
  intros Hfind Hsent Hdue.
  destruct (send_run date date_sent fails nid s n Hfind Hsent Hdue)
    as (sc & fc & added & Hrun & H1 & H2 & H3 & H4 & _).
  eexists. eexists. exists (mark_sent date_sent sc fc n).
  split; [exact Hrun |]. simpl.
  split; [exact H3 |]. split; [exact H1 |]. split; [exact H2 |].
  split; [rewrite length_app; lia |].
  split; [rewrite find_updated_notification by reflexivity; now rewrite Hfind |].
  repeat split.
Qed.

(** X23.  A notification is sent at most once: after a send that went
    through, every further send of it is rejected with BadRequest
    'Notification has already been sent' and changes nothing, at any date,
    and scheduling it again does not make it sendable. *)
Theorem X23_sent_at_most_once
    (date date_sent : Z) (fails : nat -> bool) (nid : string)
    (s : Store) (n : MarketingNotification) :
  find_notification nid (marketingNotification s) = Some n ->
  sent n = false ->
  (timing n = SCHEDULED -> forall d, scheduledDate n = Some d -> d <= date) ->
  let s1 := snd (sendMarketingNotification date date_sent fails nid s) in
  (forall (date' date_sent' : Z) (fails' : nat -> bool),
     sendMarketingNotification date' date_sent' fails' nid s1 =
     (Rejected (Raised (BadRequestException "Notification has already been sent")),
      s1))
  /\
  (forall (again date' date_sent' : Z) (fails' : nat -> bool),
     let s2 := snd (scheduleMarketingNotification nid again s1) in
     sendMarketingNotification date' date_sent' fails' nid s2 =
     (Rejected (Raised (BadRequestException "Notification has already been sent")),
      s2)).
Proof.
  intros Hfind Hsent Hdue s1.
  destruct (send_run date date_sent fails nid s n Hfind Hsent Hdue)
    as (sc & fc & added & Hrun & _).
  assert (Hf1 : find_notification nid (marketingNotification s1) =
                Some (mark_sent date_sent sc fc n)).
  { unfold s1. rewrite Hrun. simpl.
    rewrite find_updated_notification by reflexivity. now rewrite Hfind. }
  clearbody s1.
  split.
  - intros date' date_sent' fails'.
    unfold sendMarketingNotification. now rewrite Hf1.
  - intros again date' date_sent' fails' s2.
    assert (Hf2 : find_notification nid (marketingNotification s2) =
                  Some (mark_scheduled again (mark_sent date_sent sc fc n))).
    { unfold s2, scheduleMarketingNotification. rewrite Hf1. simpl.
      rewrite find_updated_notification by reflexivity. now rewrite Hf1. }
    clearbody s2.
    unfold sendMarketingNotification. now rewrite Hf2.
Qed.

(** X24.  Opt-outs are honoured: every mail a send adds to what has gone out
    is addressed to the email of a preference row that is subscribed to the
    category of the notification and prefers email, and carries the title,
    the content and the category of the notification. *)
Theorem X24_mail_goes_only_to_opted_in_rows
    (date date_sent : Z) (fails : nat -> bool) (nid : string)
    (s : Store) (n : MarketingNotification) :
  find_notification nid (marketingNotification s) = Some n ->
  sent n = false ->
  (timing n = SCHEDULED -> forall d, scheduledDate n = Some d -> d <= date) ->
  exists added : list MarketingEmail,
    delivered (snd (sendMarketingNotification date date_sent fails nid s)) =
      (delivered s ++ added)%list /\
    Forall
      (fun m =>
         exists u : UserMarketingPreference,
           In u (userMarketingPreference s) /\
           subscribed (category n) u = true /\
           preferEmail u = true /\
           mail_to m = email u /\
           mail_title m = title n /\
           mail_content m = content n /\
           mail_category m = category n)
      added.
Proof.
  intros Hfind Hsent Hdue.
  destruct (send_run date date_sent fails nid s n Hfind Hsent Hdue)
    as (sc & fc & added & Hrun & _ & _ & _ & _ & Hall).
  exists added. rewrite Hrun. split; [reflexivity |].
  eapply Forall_impl; [| exact Hall].
  intros m (x & Hx & Hm).
  apply filter_In in Hx. destruct Hx as [Hin Hflags].
  apply andb_true_iff in Hflags. destruct Hflags as [Hsub Hpref].
  exists x. split; [exact Hin | split; [exact Hsub | split; [exact Hpref | exact Hm]]].
Qed.

(** X25.  The schedule gate.  Once a notification not yet sent has been
    scheduled for a date, a send strictly before that date is rejected with
    BadRequest 'Scheduled notification time has not arrived yet' and changes
    nothing; a send at that date or later goes through. *)
Theorem X25_scheduled_send_waits_for_its_date
    (scheduled date date_sent : Z) (fails : nat -> bool) (nid : string)
    (s : Store) (n : MarketingNotification) :
  find_notification nid (marketingNotification s) = Some n ->
  sent n = false ->
  let s1 := snd (scheduleMarketingNotification nid scheduled s) in
  (date < scheduled ->
   sendMarketingNotification date date_sent fails nid s1 =
   (Rejected (Raised (BadRequestException
                        "Scheduled notification time has not arrived yet")), s1))
  /\
  (scheduled <= date ->
   exists (r : SendResult) (s2 : Store),
     sendMarketingNotification date date_sent fails nid s1 = (Fulfilled r, s2)).
Proof.
  intros Hfind Hsent s1.
  assert (Hf1 : find_notification nid (marketingNotification s1) =
                Some (mark_scheduled scheduled n)).
  { unfold s1, scheduleMarketingNotification. rewrite Hfind. simpl.
    rewrite find_updated_notification by reflexivity. now rewrite Hfind. }
  clearbody s1.
  split.
  - intro Hearly. unfold sendMarketingNotification. rewrite Hf1. simpl.
    rewrite Hsent. now apply Z.ltb_lt in Hearly as ->.
  - intro Hdue.
    destruct (send_run date date_sent fails nid s1 (mark_scheduled scheduled n)
                Hf1 Hsent) as (sc & fc & added & Hrun & _).
    + intros _ d Hd. simpl in Hd. injection Hd as <-. exact Hdue.
    + eexists. eexists. exact Hrun.
Qed.


End MarketingSend.

(** * The further properties at concrete inputs *)

Ltac evaluated := vm_compute; first [reflexivity | discriminate].

(** X2 on Alice, verified, with Bob in the table. *)
Lemma X2_witness_alice_token :
  find (selects (where_phone alice_phone)) (users (world_of [alice_verified; bob])) =
    Some alice_verified /\
  find (selects (where_id (Prisma.id alice_verified)))
       (users (world_of [alice_verified; bob])) = Some alice_verified /\
  Prisma.id alice_verified <> EmptyString /\
  bcrypt_compare rt0 "old-secret" (Prisma.password alice_verified) = true /\
  Prisma.isActive alice_verified = true /\
  Prisma.isPhoneVerified alice_verified = true /\
  exists v : ValidatedUser.t,
    JwtStrategy.validate (Return None) (decoded (login_claims alice_verified))
      (world_of [alice_verified; bob]) = (Return v, world_of [alice_verified; bob]) /\
    ValidatedUser.id v = "u-1".
Proof.
  split; [reflexivity |]. split; [reflexivity |]. split; [discriminate |].
  split; [reflexivity |]. split; [reflexivity |]. split; [reflexivity |].
  destruct (X2_logIn_token_validates rt0 (Return None)
              (world_of [alice_verified; bob]) alice_phone "old-secret"
              alice_verified eq_refl eq_refl ltac:(discriminate)
              eq_refl eq_refl eq_refl)
    as (r & v & Hlogin & _ & Hvalidate & Hid & _).
  exists v. split; [exact Hvalidate |].
  rewrite Hid. injection Hlogin as <-. reflexivity.
Defined.

(** X3 on Alice holding her phone code. *)
Lemma X3_witness_alice_verifies_then_signs_in :
  find (selects (where_phone alice_phone)) (users (world_of [alice_with_phone_code])) =
    Some alice_with_phone_code /\
  Prisma.isPhoneVerified alice_with_phone_code = false /\
  phoneVerificationOTP alice_with_phone_code = Some "424242" /\
  "424242" <> EmptyString /\
  phoneVerificationOTPExpires alice_with_phone_code = Some today_noon /\
  today_noon <= today_noon /\
  bcrypt_compare rt0 "old-secret" (Prisma.password alice_with_phone_code) = true /\
  Prisma.isActive alice_with_phone_code = true /\
  (let s' := snd (AuthService.verifyPhone today_noon alice_phone "424242"
                    (world_of [alice_with_phone_code])) in
   exists r : LoginResponse,
     AuthService.logIn rt0 alice_phone "old-secret" s' = (Return r, s')).
Proof.
  split; [reflexivity |]. split; [reflexivity |]. split; [reflexivity |].
  split; [discriminate |]. split; [reflexivity |]. split; [apply Z.le_refl |].
  split; [reflexivity |]. split; [reflexivity |].
  destruct (X3_verifyPhone_opens_logIn rt0 (world_of [alice_with_phone_code])
              today_noon alice_phone "old-secret" alice_with_phone_code
              "424242" today_noon
              eq_refl eq_refl eq_refl ltac:(discriminate) eq_refl (Z.le_refl _)
              eq_refl eq_refl)
    as (_ & _ & r & Hlogin & _).
  exists r. exact Hlogin.
Defined.

(** X4 on Alice's first phone code, consumed at noon. *)
Lemma X4_witness_alice_code_round_trip :
  find (selects (issue_where ForPhoneVerification "u-1")) (users (world_of [alice])) =
    Some alice /\
  find (selects (slot_where (purpose_slot ForPhoneVerification) alice_phone))
       (users (world_of [alice])) = Some alice /\
  issue_blocked ForPhoneVerification alice = false /\
  within_min_interval this0 (read_now reads_today) alice = false /\
  otpRequestCount alice < AuthService.otpDailyLimit this0 /\
  today_noon <= issue_expiry this0 reads_today /\
  fst (AuthService.verifyPhone today_noon alice_phone "325000"
         (snd (AuthService.generatePhoneVerificationOTP rt0 this0 reads_today "u-1"
                 (world_of [alice])))) = Return tt.
Proof.
  split; [reflexivity |]. split; [reflexivity |]. split; [reflexivity |].
  split; [reflexivity |]. split; [reflexivity |]. split; [evaluated |].
  destruct (X4_issued_code_is_accepted_until_expiry rt0 this0 ForPhoneVerification
              reads_today "u-1" alice_phone "unused" today_noon (world_of [alice])
              alice eq_refl eq_refl eq_refl eq_refl eq_refl)
    as (Haccept & _).
  exact (Haccept ltac:(evaluated)).
Defined.

(** X5 on Alice, verified, who forgot her password. *)
Lemma X5_witness_alice_new_password :
  find (selects (where_phone alice_phone)) (users (world_of [alice_verified])) =
    Some alice_verified /\
  within_min_interval this0 (read_now reads_today) alice_verified = false /\
  otpRequestCount alice_verified < AuthService.otpDailyLimit this0 /\
  today_noon <= issue_expiry this0 reads_today /\
  Prisma.isActive alice_verified = true /\
  Prisma.isPhoneVerified alice_verified = true /\
  bcrypt_compare rt0 "new-secret" (bcrypt_hash rt0 "new-secret" 10) = true /\
  (let s1 := snd (AuthService.generatePasswordResetOTP rt0 this0 reads_today
                    alice_phone (world_of [alice_verified])) in
   let s2 := snd (AuthService.resetPasswordWithOTP rt0 today_noon alice_phone
                    "325000" "new-secret" s1) in
   (exists r : LoginResponse,
      AuthService.logIn rt0 alice_phone "new-secret" s2 = (Return r, s2)) /\
   AuthService.logIn rt0 alice_phone "old-secret" s2 =
   (Throw (UnauthorizedException "Invalid credentials"), s2)).
Proof.
  split; [reflexivity |]. split; [reflexivity |]. split; [reflexivity |].
  split; [evaluated |]. split; [reflexivity |]. split; [reflexivity |].
  split; [reflexivity |].
  destruct (X5_reset_by_code_then_logIn rt0 this0 reads_today alice_phone
              "new-secret" today_noon (world_of [alice_verified]) alice_verified
              eq_refl eq_refl eq_refl ltac:(evaluated) eq_refl eq_refl eq_refl)
    as (_ & (r & Hlogin & _) & Hold).
  split; [exists r; exact Hlogin | exact (Hold "old-secret" eq_refl)].
Defined.

(** X6 on Alice's first request with the gateway down. *)
Lemma X6_witness_gateway_error_reaches_caller :
  find (selects (where_id "u-1")) (users (world_of [alice])) = Some alice /\
  Prisma.isPhoneVerified alice = false /\
  within_min_interval this0 (read_now reads_today_sms_down) alice = false /\
  otpRequestCount alice < AuthService.otpDailyLimit this0 /\
  read_sms_failure reads_today_sms_down = Some (CollaboratorError "gateway timeout") /\
  fst (AuthService.generatePhoneVerificationOTP rt0 this0 reads_today_sms_down "u-1"
         (world_of [alice])) = Throw (CollaboratorError "gateway timeout").
Proof.
  split; [reflexivity |]. split; [reflexivity |]. split; [reflexivity |].
  split; [reflexivity |]. split; [reflexivity |].
  destruct (X6_verification_issue_passes_gateway_error_on rt0 this0
              reads_today_sms_down "u-1" (world_of [alice]) alice
              (CollaboratorError "gateway timeout")
              eq_refl eq_refl eq_refl eq_refl eq_refl)
    as (s' & u' & Hrun & _).
  now rewrite Hrun.
Defined.

(** X7 on Alice asking for a token at noon and using it at noon. *)
Lemma X7_witness_alice_token_round_trip :
  find (selects (where_email alice_email)) (users (world_of [alice; bob])) = Some alice /\
  find (selects (where_id (Prisma.id alice))) (users (world_of [alice; bob])) =
    Some alice /\
  (forall r, In r (users (world_of [alice; bob])) ->
             resetPasswordToken r <> Some "c0ffee") /\
  today_noon < today_noon + 60 * 60 * 1000 /\
  (let s1 := snd (AuthService.generateResetToken "c0ffee" today_noon None
                    alice_email (world_of [alice; bob])) in
   exists s2 : World,
     AuthService.resetPassword rt0 today_noon "c0ffee" "new-secret" s1 =
     (Return tt, s2)).
Proof.
  assert (Hnone : forall r, In r (users (world_of [alice; bob])) ->
                            resetPasswordToken r <> Some "c0ffee").
  { intros r [<- | [<- | []]]; discriminate. }
  split; [reflexivity |]. split; [reflexivity |]. split; [exact Hnone |].
  split; [evaluated |].
  destruct (X7_reset_token_is_good_strictly_before_deadline rt0 "c0ffee" today_noon
              None alice_email "new-secret" today_noon (world_of [alice; bob]) alice
              eq_refl eq_refl Hnone)
    as (_ & Hlive & _).
  destruct (Hlive ltac:(evaluated)) as (s2 & u2 & Hrun & _).
  exists s2. exact Hrun.
Defined.

(** X8 at a quarter. *)
Lemma X8_witness_quarter :
  AuthService.is_double (1 # 4) = true /\ (0 <= 1 # 4)%Q /\ (1 # 4 < 1)%Q /\
  exists n : Z, 100000 <= n <= 999999 /\ AuthService.draw_otp (1 # 4) = toString n.
Proof.
  split; [reflexivity |]. split; [discriminate |]. split; [reflexivity |].
  apply (X8_draw_otp_range (1 # 4)); [reflexivity | discriminate | reflexivity].
Defined.

(** X9 on Alice asking again two minutes after her last request. *)
Lemma X9_witness_three_minutes_left :
  find (selects (issue_where ForPasswordReset alice_phone))
       (users (world_of [alice_just_asked])) = Some alice_just_asked /\
  issue_blocked ForPasswordReset alice_just_asked = false /\
  lastOtpRequestTime alice_just_asked = Some today_noon /\
  0 <= read_now reads_two_minutes_later - today_noon
    < AuthService.otpMinIntervalMinutes this0 * (1000 * 60) /\
  AuthService.generatePasswordResetOTP rt0 this0 reads_two_minutes_later alice_phone
    (world_of [alice_just_asked]) =
  (Throw (BadRequestException "Please wait 3 minute(s) before requesting another OTP"),
   world_of [alice_just_asked]).
Proof.
  assert (Hwindow : 0 <= read_now reads_two_minutes_later - today_noon
                    < AuthService.otpMinIntervalMinutes this0 * (1000 * 60))
    by (split; evaluated).
  split; [reflexivity |]. split; [reflexivity |]. split; [reflexivity |].
  split; [exact Hwindow |].
  destruct (X9_wait_message_minutes rt0 this0 ForPasswordReset
              reads_two_minutes_later alice_phone (world_of [alice_just_asked])
              alice_just_asked today_noon eq_refl eq_refl eq_refl Hwindow)
    as (Hrun & _).
  exact Hrun.
Defined.

(** X11 on a wrong guess at Alice's phone code. *)
Lemma X11_witness_wrong_guess :
  fst (consume rt0 PhoneVerification today_noon alice_phone "000000" "unused"
         (world_of [alice_with_phone_code])) =
    Throw (BadRequestException msg_invalid) /\
  snd (consume rt0 PhoneVerification today_noon alice_phone "000000" "unused"
         (world_of [alice_with_phone_code])) = world_of [alice_with_phone_code].
Proof.
  split; [reflexivity |].
  exact (X11_rejected_consume_changes_nothing rt0 PhoneVerification today_noon
           alice_phone "000000" "unused" (world_of [alice_with_phone_code])
           (BadRequestException msg_invalid) eq_refl).
Defined.

Lemma sample_rows_paired : Forall slots_paired (users (world_of [alice; bob])).
Proof.
  apply Forall_forall.
  intros u [<- | [<- | []]];
    (split; [intro k; destruct k; simpl; tauto | simpl; tauto]).
Qed.

(** X14 on Alice and Bob through [trace0]. *)
Lemma X14_witness_trace0 :
  Forall slots_paired (users (world_of [alice; bob])) /\
  Forall slots_paired (users (after_all rt0 this0 trace0 (world_of [alice; bob]))).
Proof.
  split; [exact sample_rows_paired |].
  exact (X14_slots_stay_paired rt0 this0 trace0 (world_of [alice; bob])
           sample_rows_paired).
Defined.

Lemma sample_rows_within : Forall (count_within this0) (users (world_of [alice; bob])).
Proof.
  apply Forall_forall. intros u [<- | [<- | []]]; split; evaluated.
Qed.

(** X15 on Alice and Bob through [trace0]. *)
Lemma X15_witness_trace0 :
  0 <= AuthService.otpDailyLimit this0 /\
  Forall (count_within this0) (users (world_of [alice; bob])) /\
  Forall (count_within this0)
         (users (after_all rt0 this0 trace0 (world_of [alice; bob]))).
Proof.
  split; [evaluated |]. split; [exact sample_rows_within |].
  exact (X15_count_stays_within_limit rt0 this0 trace0 (world_of [alice; bob])
           ltac:(evaluated) sample_rows_within).
Defined.

(** X16 on Carol signing up with Alice's number written the local way. *)
Lemma X16_witness_same_phone_other_spelling :
  PhoneValidation.isValid (validate0 (CreateUserDto.phone imposter_dto)) = true /\
  find (selects (where_phone
                   (PhoneValidation.formattedNumber
                      (validate0 (CreateUserDto.phone imposter_dto)))))
       (users (world_of [alice])) = Some alice /\
  Registration.signUp rt0 this0 validate0 defaults0 (fun u => u) reads_today
    imposter_dto (world_of [alice]) =
  (Throw (BadRequestException "User with this phone number already exists"),
   world_of [alice]).
Proof.
  split; [reflexivity |]. split; [reflexivity |].
  destruct (X16_signUp_refuses_duplicates rt0 this0 validate0 defaults0 (fun u => u)
              reads_today imposter_dto (world_of [alice]) eq_refl)
    as (Hphone & _).
  exact (Hphone alice eq_refl).
Defined.

(** X17 on a sign-up with a malformed phone. *)
Lemma X17_witness_malformed_phone :
  fst (Registration.signUp rt0 this0 validate0 defaults0 (fun u => u) reads_today
         malformed_dto (world_of [alice])) =
    Throw (BadRequestException "Invalid phone number format") /\
  snd (Registration.signUp rt0 this0 validate0 defaults0 (fun u => u) reads_today
         malformed_dto (world_of [alice])) = world_of [alice].
Proof.
  split; [reflexivity |].
  exact (proj1 (X17_signUp_throw_writes_nothing rt0 this0 validate0 defaults0
                  (fun u => u) reads_today malformed_dto (world_of [alice])
                  (BadRequestException "Invalid phone number format") eq_refl)).
Defined.

(** X18 on Carol signing up with the gateway down. *)
Lemma X18_witness_carol_gateway_down :
  PhoneValidation.isValid (validate0 (CreateUserDto.phone carol_dto)) = true /\
  find (selects (where_phone "+2348055555555")) (users (world_of [alice])) = None /\
  find (selects (where_email "carol@example.com")) (users (world_of [alice])) = None /\
  find (selects (where_id "u-3")) (users (world_of [alice])) = None /\
  exists r : SignUpResponse.t,
    fst (Registration.signUp rt0 this0 validate0 defaults0 (fun u => u)
           reads_today_sms_down carol_dto (world_of [alice])) = Return r /\
    SignUpResponse.message r = Registration.msg_created_without_otp /\
    SignUpResponse.isPhoneVerified r = false.
Proof.
  split; [reflexivity |]. split; [reflexivity |]. split; [reflexivity |].
  split; [reflexivity |].
  eexists.
  rewrite (X18_signUp_returns_whatever_the_otp_does rt0 this0 validate0 defaults0
             (fun u => u) reads_today_sms_down carol_dto (world_of [alice])
             eq_refl eq_refl eq_refl eq_refl).
  split; [reflexivity |]. split; reflexivity.
Defined.

(** X19 on Carol: signed up, verified at noon, signed in. *)
Lemma X19_witness_carol_from_signUp_to_logIn :
  PhoneValidation.isValid (validate0 (CreateUserDto.phone carol_dto)) = true /\
  find (selects (where_phone "+2348055555555")) (users (world_of [alice])) = None /\
  find (selects (where_email "carol@example.com")) (users (world_of [alice])) = None /\
  find (selects (where_id "u-3")) (users (world_of [alice])) = None /\
  today_noon <= issue_expiry this0 reads_today /\
  (let s1 := snd (Registration.signUp rt0 this0 validate0 defaults0 (fun u => u)
                    reads_today carol_dto (world_of [alice])) in
   let s2 := snd (AuthService.verifyPhone today_noon "+2348055555555" "325000" s1) in
   exists r : LoginResponse,
     AuthService.logIn rt0 "+2348055555555" "carols-secret" s2 = (Return r, s2) /\
     LoginUser.id (user r) = "u-3").
Proof.
  split; [reflexivity |]. split; [reflexivity |]. split; [reflexivity |].
  split; [reflexivity |]. split; [evaluated |].
  destruct (X19_signUp_verifyPhone_logIn rt0 this0 validate0 defaults0 (fun u => u)
              reads_today carol_dto today_noon (world_of [alice])
              eq_refl eq_refl eq_refl eq_refl eq_refl eq_refl eq_refl eq_refl eq_refl
              ltac:(evaluated))
    as (_ & _ & r & Hlogin & Hid & _).
  exists r. split; [exact Hlogin | exact Hid].
Defined.

(** X20 on Alice removed from a table that also holds Bob. *)
Lemma X20_witness_alice_removed :
  find (selects (where_id "u-1")) (users (world_of [alice; bob])) = Some alice /\
  exists s' : World,
    UserService.remove "u-1" (world_of [alice; bob]) =
      (Fulfilled "User deleted successfully", s') /\
    users s' = [bob] /\
    UserService.findOne "u-1" s' = (Rejected (UserService.not_found "u-1"), s').
Proof.
  split; [reflexivity |].
  destruct (X20_remove_makes_the_id_unknown "u-1" (world_of [alice; bob]) alice
              eq_refl)
    as (s' & Hrun & Hrows & _ & Hfind & _).
  exists s'. split; [exact Hrun |]. split; [rewrite Hrows; reflexivity | exact Hfind].
Defined.

(** X21 on Alice, verified, removed. *)
Lemma X21_witness_alice_locked_out :
  find (selects (where_id (Prisma.id alice_verified)))
       (users (world_of [alice_verified; bob])) = Some alice_verified /\
  Prisma.id alice_verified <> EmptyString /\
  (let s' := snd (UserService.remove "u-1" (world_of [alice_verified; bob])) in
   JwtStrategy.validate (Return None) (decoded (login_claims alice_verified)) s' =
   (Throw (UnauthorizedException "Login first to access this endpoint."), s')).
Proof.
  split; [reflexivity |]. split; [discriminate |].
  destruct (X21_removed_user_is_locked_out rt0 (Return None)
              (world_of [alice_verified; bob]) alice_verified
              eq_refl ltac:(discriminate))
    as (Hvalidate & _).
  exact Hvalidate.
Defined.

Lemma newsletter_is_due (date : Z) :
  Marketing.timing newsletter = Marketing.SCHEDULED ->
  forall d, Marketing.scheduledDate newsletter = Some d -> d <= date.
Proof. intro H. discriminate H. Qed.

(** X22 on the newsletter, with the second mail failing. *)
Lemma X22_witness_newsletter_counts :
  Marketing.find_notification "n-1" (Marketing.marketingNotification store0) =
    Some newsletter /\
  Marketing.sent newsletter = false /\
  exists (r : Marketing.SendResult) (s' : Marketing.Store),
    Marketing.sendMarketingNotification 5 6 fails_second "n-1" store0 =
      (Fulfilled r, s') /\
    Marketing.stats_successCount (Marketing.stats r)
      + Marketing.stats_failureCount (Marketing.stats r) =
    Marketing.totalRecipients (Marketing.stats r) /\
    Marketing.totalRecipients (Marketing.stats r) = 2.
Proof.
  split; [reflexivity |]. split; [reflexivity |].
  destruct (X22_send_accounts_for_every_recipient 5 6 fails_second "n-1" store0
              newsletter eq_refl eq_refl (newsletter_is_due 5))
    as (r & s' & n' & Hrun & Hsum & _).
  exists r, s'. split; [exact Hrun |]. split; [exact Hsum |].
  vm_compute in Hrun. injection Hrun as <- _. reflexivity.
Defined.

(** X23 on the newsletter sent twice. *)
Lemma X23_witness_newsletter_twice :
  Marketing.find_notification "n-1" (Marketing.marketingNotification store0) =
    Some newsletter /\
  Marketing.sent newsletter = false /\
  (let s1 := snd (Marketing.sendMarketingNotification 5 6 fails_second "n-1" store0) in
   Marketing.sendMarketingNotification 7 8 (fun _ => false) "n-1" s1 =
   (Rejected (Raised (BadRequestException "Notification has already been sent")), s1)).
Proof.
  split; [reflexivity |]. split; [reflexivity |].
  destruct (X23_sent_at_most_once 5 6 fails_second "n-1" store0 newsletter
              eq_refl eq_refl (newsletter_is_due 5))
    as (Hagain & _).
  exact (Hagain 7 8 (fun _ => false)).
Defined.

(** X24 on the newsletter: nothing goes to Bob, who has opted out. *)
Lemma X24_witness_newsletter_recipients :
  Marketing.find_notification "n-1" (Marketing.marketingNotification store0) =
    Some newsletter /\
  Marketing.sent newsletter = false /\
  exists added : list Marketing.MarketingEmail,
    Marketing.delivered
      (snd (Marketing.sendMarketingNotification 5 6 (fun _ => false) "n-1" store0)) =
      (Marketing.delivered store0 ++ added)%list /\
    Forall (fun m => Marketing.mail_to m <> "bob@example.com") added.
Proof.
  split; [reflexivity |]. split; [reflexivity |].
  destruct (X24_mail_goes_only_to_opted_in_rows 5 6 (fun _ => false) "n-1" store0
              newsletter eq_refl eq_refl (newsletter_is_due 5))
    as (added & Hout & Hall).
  exists added. split; [exact Hout |].
  eapply Forall_impl; [| exact Hall].
  intros m (u & Hin & Hsub & _ & Hto & _). rewrite Hto.
  destruct Hin as [<- | [<- | [<- | []]]]; try discriminate.
Defined.

(** X25 on the newsletter scheduled for date 10. *)
Lemma X25_witness_newsletter_scheduled :
  Marketing.find_notification "n-1" (Marketing.marketingNotification store0) =
    Some newsletter /\
  Marketing.sent newsletter = false /\
  9 < 10 /\
  (let s1 := snd (Marketing.scheduleMarketingNotification "n-1" 10 store0) in
   Marketing.sendMarketingNotification 9 9 (fun _ => false) "n-1" s1 =
   (Rejected (Raised (BadRequestException
                        "Scheduled notification time has not arrived yet")), s1)).
Proof.
  split; [reflexivity |]. split; [reflexivity |]. split; [reflexivity |].
  destruct (X25_scheduled_send_waits_for_its_date 10 9 9 (fun _ => false) "n-1"
              store0 newsletter eq_refl eq_refl)
    as (Hearly & _).
  exact (Hearly eq_refl).
Defined.

